(** * Verification of the Managua manager agent (Convex backend)

    A shallow embedding of
      - convex/schema.ts                       (tables and their fields),
      - convex/functions/messages.ts           ([Messages]),
      - convex/functions/conversations.ts      ([Conversations]),
      - convex/functions/memories.ts           ([Memories]),
      - convex/functions/codeChangeRequests.ts ([CodeChangeRequests]),
      - convex/functions/agents/manager.ts     ([chat] and its helpers),
    followed by the properties of the orchestration pipeline, and, in the
    second part, of
      - convex/functions/codeChangeRequests.ts ([CodeChangeRequestsRest]),
      - src/shared/config.ts                   ([Config], [ZAIClient]),
      - convex/functions/mcp/diagnostic.ts     ([Mcp]),
      - convex/functions/mcp/store.ts          ([Mcp]).

    Conventions of the embedding.
      - A Convex table is the list of its documents in creation order; an
        index query is a filter of that list, [.order("asc")] keeps the
        order, [.order("desc")] is [reverse], [.take(n)] is [take n].
      - Handlers are computations in the monad [M]: they thread a [World]
        (database, clock, process environment, network) and either return a
        value or throw.  A throw keeps the world reached so far: every
        [ctx.runMutation] is its own transaction.
      - A handler registered with [query] gets a database reader: its
        [ctx.db] has no [patch], so a call of [ctx.db.patch] in a query
        throws a TypeError and writes nothing.  In a mutation
        [ctx.db.patch] writes, and throws when the id has no document.
      - Time: inside one query or mutation [Date.now()] does not move; an
        action's calls of [ctx.runMutation], [ctx.runQuery] and
        [ctx.runAction] each take time (any amount, [elapse]), so that the
        handler reads a later [Date.now()] than the action did before the
        call.  A timer advances the clock by its delay.  The action reads
        the clock only before its first call; the time that its other steps
        take (a [fetch], a local helper) is part of the time of the call
        that follows them.
      - [trace] is ghost state: every [ctx.run*] call, every call of a local
        helper of manager.ts, every [fetch], [console.error] and
        [setTimeout] appends one event, so that "is called", "is called
        before" and "waits" can be stated.
      - Numbers: an importance is a rational, a counter or a time in
        milliseconds an integer, a [limit] a natural number.
      - A JavaScript object read by property name is a finite map from
        property names to values, so that reading a property the object
        does not have yields [undefined], as it does at run time. *)

From Stdlib Require Import String Ascii ZArith QArith Lia DecimalString.
From stdpp Require Import base option list gmap strings.

Local Open Scope string_scope.
Local Open Scope list_scope.
Local Open Scope Z_scope.

(* ===================================================================== *)
(** ** JavaScript values, strings and errors *)
(* ===================================================================== *)

(** A JavaScript value, as far as the agent handles one.  An object is the
    finite map of its own properties. *)
#[warnings="-register-all"]
Inductive JsValue : Type :=
| JUndefined
| JNull
| JBool (b : bool)
| JNum (n : Q)
| JStr (s : string)
| JObject (props : gmap string JsValue).

(** [ToBoolean]: what [if (v)], [!v], [v ? a : b] and [v || d] test. *)
Definition truthy (v : JsValue) : bool :=
  match v with
  | JUndefined | JNull => false
  | JBool b => b
  | JNum n => negb (Qeq_bool n 0)
  | JStr s => negb (String.eqb s "")
  | JObject _ => true
  end.

(** Property read [o.key]: a property the object does not have reads as
    [undefined]. *)
Definition get (key : string) (o : gmap string JsValue) : JsValue :=
  default JUndefined (o !! key).

(** An [Error] object: its [name], its [message] and its optional [cause].
    [new Error(msg)] has name "Error" and no cause. *)
Inductive JsError : Type :=
| mkError (name message : string)
| mkErrorCause (name message : string) (cause : JsError).

Definition error_name (e : JsError) : string :=
  match e with mkError n _ | mkErrorCause n _ _ => n end.
Definition error_message (e : JsError) : string :=
  match e with mkError _ m | mkErrorCause _ m _ => m end.
Definition error_cause (e : JsError) : option JsError :=
  match e with mkError _ _ => None | mkErrorCause _ _ c => Some c end.

Definition new_Error (message : string) : JsError :=
  mkError "Error" message.

(** [s.includes(search)]: [search] occurs in [s] as a contiguous run. *)
Fixpoint includes (s search : string) : bool :=
  String.prefix search s ||
  match s with
  | EmptyString => false
  | String _ rest => includes rest search
  end.

(** [String.prototype.toLowerCase] restricted to ASCII letters; every other
    character is kept.  The generic development below is parametric in the
    lower-casing function; this instance is the one used on concrete
    (ASCII) utterances. *)
Definition ascii_lower (c : ascii) : ascii :=
  let n := nat_of_ascii c in
  if (Nat.leb 65 n && Nat.leb n 90)%bool then ascii_of_nat (n + 32) else c.

Fixpoint ascii_toLowerCase (s : string) : string :=
  match s with
  | EmptyString => EmptyString
  | String c rest => String (ascii_lower c) (ascii_toLowerCase rest)
  end.

(** Decimal rendering of an integer, as a template literal does it. *)
Definition Number_toString (z : Z) : string :=
  NilZero.string_of_int (Z.to_int z).

(** [o || d] on an optional string ([undefined] and "" are falsy). *)
Definition or_string (o : option string) (d : option string) : option string :=
  match o with
  | Some s => if String.eqb s "" then d else Some s
  | None => d
  end.

(** [`${x}`] for an optional string: [undefined] prints as "undefined". *)
Definition template (o : option string) : string := default "undefined" o.

(** [a.slice(-n)]: the last [n] elements (all of them if there are fewer). *)
Definition slice_last {A} (n : nat) (a : list A) : list A :=
  drop (length a - n)%nat a.

(** [limit || d] on an optional count: omitted and 0 both give [d].
    ([take] of the Convex query accepts non-negative integers only, which is
    why a count is a [nat].) *)
Definition or_limit (limit : option nat) (d : nat) : nat :=
  match limit with
  | Some (S n) => S n
  | _ => d
  end.

(** [importance || d] on an optional number: omitted and 0 both give [d]. *)
Definition or_number (x : option Q) (d : Q) : Q :=
  match x with
  | Some q => if Qeq_bool q 0 then d else q
  | None => d
  end.

(* ===================================================================== *)
(** ** convex/schema.ts: the documents of the four tables *)
(* ===================================================================== *)

(** A document id ([v.id(...)]); [ctx.db.insert] hands out fresh ones. *)
Definition Id := N.

Module Conversation.
Record t := mk {
  _id : Id;
  userId : Id;
  platform : string;
  platformChannelId : string;
  startedAt : Z;
  lastActivityAt : Z;
  status : string
}.
End Conversation.

Module Metadata.
Record t := mk {
  agentType : option string;
  mcpToolUsed : option string;
  paraContextUsed : option bool;
  memoryExtracted : option bool
}.
(** The empty object [{}]. *)
Definition empty : t := mk None None None None.
End Metadata.

Module Message.
Record t := mk {
  _id : Id;
  conversationId : Id;
  role : string;
  content : string;
  metadata : Metadata.t;
  createdAt : Z
}.
End Message.

Module Memory.
Record t := mk {
  _id : Id;
  userId : Id;
  type : string;
  content : string;
  paraContext : option Id;
  importance : Q;
  accessedCount : Z;
  lastAccessed : Z;
  createdAt : Z
}.
End Memory.

Module CodeChangeRequest.
Record t := mk {
  _id : Id;
  userId : Id;
  request : option string;
  context : string;
  priority : option string;
  category : option string;
  status : string;
  createdAt : Z
}.
End CodeChangeRequest.

(* ===================================================================== *)
(** ** The world a handler runs in *)
(* ===================================================================== *)

(** What one [fetch] of the model backend comes back with: the promise
    rejects, or it resolves to a response with its [ok] flag, its [status],
    its body text, and what [data.choices[0]?.message?.content] evaluates to
    once the body is parsed ([inl e]: parsing or the property chain throws
    [e]; [inr None]: the content is [undefined]). *)
Inductive FetchOutcome :=
| Rejected (e : JsError)
| Resolved (ok : bool) (status : Z) (text : string)
           (content : JsError + option string).

(** Ghost events. *)
Inductive Event :=
| EvRunMutation (name : string)
| EvRunQuery (name : string)
| EvRunAction (name : string)
| EvCall (fn : string)
| EvFetch (url : string) (messages : list (string * string))
| EvConsoleError (attempt : Z) (error : option JsError)
| EvSetTimeout (delay : Z).

Record World := mkWorld {
  conversations : list Conversation.t;
  messages : list Message.t;
  memories : list Memory.t;
  codeChangeRequests : list CodeChangeRequest.t;
  next_id : Id;                       (* the next id [insert] hands out *)
  clock : Z;                          (* [Date.now()], in milliseconds *)
  ZAI_API_KEY : option string;        (* process.env.ZAI_API_KEY *)
  Z_AI_API_KEY : option string;       (* process.env.Z_AI_API_KEY *)
  network : nat -> FetchOutcome;      (* outcome of the n-th [fetch] *)
  fetches : nat;                      (* [fetch] calls issued so far *)
  trace : list Event;
  elapse : nat -> Z                   (* the time that the n-th coming call
                                         of [ctx.run*] takes to reach its
                                         handler, in milliseconds *)
}.

Definition set_conversations (f : list Conversation.t -> list Conversation.t) (w : World) : World :=
  mkWorld (f (conversations w)) (messages w) (memories w) (codeChangeRequests w)
          (next_id w) (clock w) (ZAI_API_KEY w) (Z_AI_API_KEY w) (network w) (fetches w) (trace w) (elapse w).
Definition set_messages (f : list Message.t -> list Message.t) (w : World) : World :=
  mkWorld (conversations w) (f (messages w)) (memories w) (codeChangeRequests w)
          (next_id w) (clock w) (ZAI_API_KEY w) (Z_AI_API_KEY w) (network w) (fetches w) (trace w) (elapse w).
Definition set_memories (f : list Memory.t -> list Memory.t) (w : World) : World :=
  mkWorld (conversations w) (messages w) (f (memories w)) (codeChangeRequests w)
          (next_id w) (clock w) (ZAI_API_KEY w) (Z_AI_API_KEY w) (network w) (fetches w) (trace w) (elapse w).
Definition set_codeChangeRequests (f : list CodeChangeRequest.t -> list CodeChangeRequest.t) (w : World) : World :=
  mkWorld (conversations w) (messages w) (memories w) (f (codeChangeRequests w))
          (next_id w) (clock w) (ZAI_API_KEY w) (Z_AI_API_KEY w) (network w) (fetches w) (trace w) (elapse w).
Definition set_next_id (f : Id -> Id) (w : World) : World :=
  mkWorld (conversations w) (messages w) (memories w) (codeChangeRequests w)
          (f (next_id w)) (clock w) (ZAI_API_KEY w) (Z_AI_API_KEY w) (network w) (fetches w) (trace w) (elapse w).
Definition set_clock (f : Z -> Z) (w : World) : World :=
  mkWorld (conversations w) (messages w) (memories w) (codeChangeRequests w)
          (next_id w) (f (clock w)) (ZAI_API_KEY w) (Z_AI_API_KEY w) (network w) (fetches w) (trace w) (elapse w).
Definition set_fetches (f : nat -> nat) (w : World) : World :=
  mkWorld (conversations w) (messages w) (memories w) (codeChangeRequests w)
          (next_id w) (clock w) (ZAI_API_KEY w) (Z_AI_API_KEY w) (network w) (f (fetches w)) (trace w) (elapse w).
Definition set_trace (f : list Event -> list Event) (w : World) : World :=
  mkWorld (conversations w) (messages w) (memories w) (codeChangeRequests w)
          (next_id w) (clock w) (ZAI_API_KEY w) (Z_AI_API_KEY w) (network w) (fetches w) (f (trace w)) (elapse w).

Definition set_elapse (f : (nat -> Z) -> nat -> Z) (w : World) : World :=
  mkWorld (conversations w) (messages w) (memories w) (codeChangeRequests w)
          (next_id w) (clock w) (ZAI_API_KEY w) (Z_AI_API_KEY w) (network w) (fetches w) (trace w) (f (elapse w)).

(** The outcome of an [async] computation: a value, or a thrown
    [Error | null]. *)
Inductive Result (A : Type) : Type :=
| Ok (a : A)
| Throw (e : option JsError).
Arguments Ok {A} a.
Arguments Throw {A} e.

Definition M (A : Type) : Type := World -> World * Result A.

Definition ret {A} (a : A) : M A := fun w => (w, Ok a).
Definition throw {A} (e : option JsError) : M A := fun w => (w, Throw e).
Definition bind {A B} (m : M A) (k : A -> M B) : M B :=
  fun w => match m w with
           | (w', Ok a) => k a w'
           | (w', Throw e) => (w', Throw e)
           end.
(** [try { m } catch (error) { h error }]. *)
Definition try_catch {A} (m : M A) (h : option JsError -> M A) : M A :=
  fun w => match m w with
           | (w', Ok a) => (w', Ok a)
           | (w', Throw e) => h e w'
           end.

Notation "'let*' x ':=' m 'in' k" := (bind m (fun x => k))
  (at level 10, x name, m at level 100, k at level 200).
Notation "'run' m 'in' k" := (bind m (fun _ => k))
  (at level 10, m at level 100, k at level 200).

(** Ghost: append one event to the trace. *)
Definition log (ev : Event) (w : World) : World :=
  set_trace (fun t => t ++ [ev]) w.

Definition emit (ev : Event) : M unit :=
  fun w => (log ev w, Ok tt).

Definition Date_now : M Z := fun w => (w, Ok (clock w)).

(** [await new Promise((resolve) => setTimeout(resolve, delay))]: the turn
    resumes [delay] milliseconds later. *)
Definition setTimeout (delay : Z) : M unit :=
  fun w => (set_clock (fun c => c + delay) (log (EvSetTimeout delay) w), Ok tt).

Definition console_error (attempt : Z) (error : option JsError) : M unit :=
  emit (EvConsoleError attempt error).

(** [ctx.db.insert]: allocate the next id. *)
Definition fresh_id : M Id :=
  fun w => (set_next_id N.succ w, Ok (next_id w)).

(** The world in which the handler of a call of [ctx.run*] starts: the call
    is recorded, [elapse w 0] milliseconds have passed, and the time of the
    next call is [elapse w 1]. *)
Definition later (ev : Event) (w : World) : World :=
  set_elapse (fun d n => d (S n))
    (set_clock (fun c => c + elapse w 0) (log ev w)).

Definition call (ev : Event) : M unit :=
  fun w => (later ev w, Ok tt).

(** [ctx.runMutation(name, args)], [ctx.runQuery], [ctx.runAction]: the
    handler registered under [name] runs, some time after the call. *)
Definition runMutation {A} (name : string) (handler : M A) : M A :=
  run call (EvRunMutation name) in handler.
Definition runQuery {A} (name : string) (handler : M A) : M A :=
  run call (EvRunQuery name) in handler.
Definition runAction {A} (name : string) (handler : M A) : M A :=
  run call (EvRunAction name) in handler.

(** [ctx.db.insert(table, doc)]: the document gets the next id and is
    appended to its table; [put] selects the table. *)
Definition db_insert {D} (put : (list D -> list D) -> World -> World)
    (doc : Id -> D) : M Id :=
  fun w => let id := next_id w in
           (set_next_id N.succ (put (fun t => t ++ [doc id]) w), Ok id).

(** [for (const x of xs) { await body(x) }]. *)
Fixpoint for_of {A} (xs : list A) (body : A -> M unit) : M unit :=
  match xs with
  | [] => ret tt
  | x :: rest => run body x in for_of rest body
  end.

(* ===================================================================== *)
(** ** convex/functions/messages.ts *)
(* ===================================================================== *)

Module Messages.

Definition store (conversationId : Id) (role content : string)
    (metadata : option Metadata.t) : M Id :=
  let* now := Date_now in
  let* messageId :=
    db_insert set_messages (fun id =>
      Message.mk id conversationId role content
                 (default Metadata.empty metadata) now) in
  ret messageId.

(** [.withIndex("by_conversation", q => q.eq("conversationId", c))] *)
Definition by_conversation (c : Id) (table : list Message.t) : list Message.t :=
  filter (fun m => Message.conversationId m = c) table.

Definition listByConversation (conversationId : Id) (limit : option nat)
    : M (list Message.t) :=
  fun w =>
    let messages :=
      take (or_limit limit 50) (by_conversation conversationId (messages w)) in
    (w, Ok messages).

End Messages.

(* ===================================================================== *)
(** ** convex/functions/conversations.ts *)
(* ===================================================================== *)

Module Conversations.

Definition create (userId : Id) (platform platformChannelId : string) : M Id :=
  let* now := Date_now in
  let* conversationId :=
    db_insert set_conversations (fun id =>
      Conversation.mk id userId platform platformChannelId now now "active") in
  ret conversationId.

Definition get (id : Id) : M (option Conversation.t) :=
  fun w => (w, Ok (List.find (fun c => N.eqb (Conversation._id c) id)
                             (conversations w))).

Definition listByUser (userId : Id) : M (list Conversation.t) :=
  fun w => (w, Ok (filter (fun c => Conversation.userId c = userId)
                          (conversations w))).

Definition touch (now : Z) (c : Conversation.t) : Conversation.t :=
  Conversation.mk (Conversation._id c) (Conversation.userId c)
    (Conversation.platform c) (Conversation.platformChannelId c)
    (Conversation.startedAt c) now (Conversation.status c).

(** What [ctx.db.patch] throws in a mutation when the id has no document.
    (The message is the framework's; only that the call throws matters.) *)
Definition missing_document : JsError :=
  new_Error "Update on nonexistent document ID".

Definition updateActivity (conversationId : Id) : M unit :=
  let* now := Date_now in
  fun w =>
    match List.find (fun c => N.eqb (Conversation._id c) conversationId)
                    (conversations w) with
    | Some _ =>
      (set_conversations
         (map (fun c => if N.eqb (Conversation._id c) conversationId
                        then touch now c else c)) w, Ok tt)
    | None => (w, Throw (Some missing_document))
    end.

End Conversations.

(* ===================================================================== *)
(** ** convex/functions/memories.ts *)
(* ===================================================================== *)

Module Memories.

Definition store (userId : Id) (type content : string)
    (paraContext : option Id) (importance : option Q) : M Id :=
  let* lastAccessed := Date_now in
  let* createdAt := Date_now in
  let* memoryId :=
    db_insert set_memories (fun id =>
      Memory.mk id userId type content paraContext
                (or_number importance 0.5%Q) 0 lastAccessed createdAt) in
  ret memoryId.

(** [.withIndex("by_user", q => q.eq("userId", u))] *)
Definition by_user (u : Id) (table : list Memory.t) : list Memory.t :=
  filter (fun m => Memory.userId m = u) table.

(** The fields that [searchByUser] hands to [ctx.db.patch]. *)
Definition bump (accessedCount lastAccessed : Z) (m : Memory.t) : Memory.t :=
  Memory.mk (Memory._id m) (Memory.userId m) (Memory.type m) (Memory.content m)
    (Memory.paraContext m) (Memory.importance m)
    accessedCount lastAccessed (Memory.createdAt m).

(** [ctx.db.patch(id, fields)] in [searchByUser].  The handler is
    registered with [query]: its [ctx.db] is a reader without [patch], so
    the call throws a TypeError (after its arguments are evaluated) and
    nothing is written. *)
Definition patch_error : JsError :=
  mkError "TypeError" "ctx.db.patch is not a function".

Definition patch (id : Id) (fields : Memory.t -> Memory.t) : M unit :=
  throw (Some patch_error).

Definition searchByUser (userId : Id) (limit : option nat) : M (list Memory.t) :=
  let* memories :=
    (fun w => (w, Ok (take (or_limit limit 20)
                           (reverse (by_user userId (memories w)))))) in
  (* Update access counts *)
  run for_of memories (fun memory =>
        let* now := Date_now in
        patch (Memory._id memory)
              (bump (Memory.accessedCount memory + 1) now)) in
  ret memories.

(** [.withIndex("by_type", q => q.eq("userId", u).eq("type", t))] *)
Definition listByType (userId : Id) (type : string) : M (list Memory.t) :=
  fun w => (w, Ok (filter (fun m => Memory.userId m = userId
                                    /\ Memory.type m = type) (memories w))).

End Memories.

(* ===================================================================== *)
(** ** convex/functions/codeChangeRequests.ts *)
(* ===================================================================== *)

Module CodeChangeRequests.

(** The handler of "codeChangeRequests/create" (the text of
    codeChangeRequests.ts is kept at the end of
    convex/functions/mcp/diagnostic.ts): one insert of the arguments with
    status "pending" and the time of the call.  [request], [priority] and
    [category] are the optional properties of the detector's result, which
    [chat] passes on only when they are set. *)
Definition create (userId : Id) (request : option string) (context : string)
    (priority category : option string) : M Id :=
  let* now := Date_now in
  db_insert set_codeChangeRequests (fun id =>
    CodeChangeRequest.mk id userId request context priority category
                         "pending" now).

End CodeChangeRequests.

(* ===================================================================== *)
(** ** convex/functions/agents/manager.ts *)
(* ===================================================================== *)

(** The [context] argument of [executeWithFaultTolerance]. *)
Module ExecutionContext.
Record t := mk {
  operation : string;
  userId : Id;
  conversationId : Id
}.
End ExecutionContext.

(** What [detectCodeChangeRequest] returns: [{ detected: false }] leaves the
    three optional properties undefined. *)
Record CodeChangeCheck := mkCheck {
  detected : bool;
  request : option string;
  priority : option string;
  category : option string
}.

(** One element of the array [extractMemories] returns. *)
Record ExtractedMemory := mkExtracted {
  type : string;
  content : string;
  importance : Q
}.

(** What [chat] returns. *)
Inductive ChatResult :=
| response (content : string) (memoriesExtracted : nat)
| code_change_request (message : string) (requestId : option string).

(** The [type] property of the returned object. *)
Definition result_type (r : ChatResult) : string :=
  match r with
  | response _ _ => "response"
  | code_change_request _ _ => "code_change_request"
  end.

(** The line feed and the double quote, as one-character strings. *)
Definition nl : string := String (ascii_of_nat 10) EmptyString.
Definition dq : string := String (ascii_of_nat 34) EmptyString.

Section Manager.

(** [String.prototype.toLowerCase]. *)
Variable toLowerCase : string -> string.
(** [JSON.stringify]. *)
Variable JSON_stringify : forall A : Type, A -> string.
(** The handler of the action "context/para/gather"
    (convex/functions/context/para.ts), a parameter of the development. *)
Variable gather : string -> Id -> M JsValue.

(* Analyze user intent to determine next steps.
   The declared result type is
     Promise<{ requiresPARAContext: boolean; intent: string }>;
   the object built by the return statement has the properties
   [requiresPARA] and [intent]. *)
Definition analyzeIntent (message : string) (history : list Message.t)
    (memories : list Memory.t) : gmap string JsValue :=
  let lowerMessage := toLowerCase message in
  let requiresPARA :=
    includes lowerMessage "project" ||
    includes lowerMessage "area" ||
    includes lowerMessage "resource" ||
    includes lowerMessage "task" ||
    includes lowerMessage "goal" ||
    includes lowerMessage "what" ||
    includes lowerMessage "show" ||
    includes lowerMessage "list" in
  (* return { requiresPARA, intent: requiresPARA ? "query" : "general" } *)
  {[ "requiresPARA" := JBool requiresPARA;
     "intent" := JStr (if requiresPARA then "query" else "general") ]}.

Definition systemPrompt (memories : list string) (paraContext : JsValue) : string :=
  "You are an intelligent personal assistant with access to the user's PARA (Projects, Areas, Resources, Archives) system."
  +:+ nl +:+ nl +:+
  "Your role is to:" +:+ nl +:+
  "1. Help the user manage their projects and tasks" +:+ nl +:+
  "2. Provide context-aware suggestions based on their PARA data" +:+ nl +:+
  "3. Learn from interactions to provide better personalized assistance" +:+ nl +:+
  "4. Be concise, helpful, and proactive" +:+ nl +:+ nl +:+
  (if truthy paraContext
   then nl +:+ "Relevant PARA Context:" +:+ nl +:+ JSON_stringify _ paraContext
   else "") +:+ nl +:+ nl +:+
  (if (0 <? Z.of_nat (length memories))
   then nl +:+ "Relevant Memories:" +:+ nl +:+ String.concat (nl +:+ "- ") memories
   else "") +:+ nl +:+ nl +:+
  "Always base your responses on the provided context when available.".

Definition fetch (url : string) (messages : list (string * string))
    : M (bool * Z * string * (JsError + option string)) :=
  fun w =>
    let w' := set_fetches S (log (EvFetch url messages) w) in
    match network w (fetches w) with
    | Rejected e => (w', Throw (Some e))
    | Resolved ok status text content => (w', Ok (ok, status, text, content))
    end.

(* Generate response using Z.AI; the result is the [content] of the
   returned object. *)
Definition generateResponse (userMessage : string)
    (history : list (string * string)) (memories : list string)
    (paraContext : JsValue) : M string :=
  run emit (EvCall "generateResponse") in
  let* apiKey := (fun w => (w, Ok (or_string (ZAI_API_KEY w) (Z_AI_API_KEY w)))) in
  match or_string apiKey None with
  | None => throw (Some (new_Error "Z.AI API key not found in environment variables"))
  | Some _ =>
    let systemMessage := ("system", systemPrompt memories paraContext) in
    let messages :=
      systemMessage :: slice_last 10 history ++ [("user", userMessage)] in
    let* resp := fetch "https://api.z.ai/v1/chat/completions" messages in
    let '(ok, status, text, data) := resp in
    if negb ok
    then throw (Some (new_Error ("Z.AI API error: " +:+ Number_toString status
                                 +:+ " - " +:+ text)))
    else
      match data with
      | inl e => throw (Some e)
      | inr c =>
        ret (template (or_string c
               (Some "I apologize, but I couldn't generate a response.")))
      end
  end.

Definition codeChangeKeywords : list string :=
  [ "add feature"; "implement"; "create functionality"; "build";
    "integrate"; "connect to"; "make it"; "can you"; "update to";
    "change behavior"; "fix code"; "new capability" ].

(* Detect if user is requesting code changes *)
Definition detectCodeChangeRequest (message : string)
    (history : list Message.t) : CodeChangeCheck :=
  let lowerMessage := toLowerCase message in
  let detected :=
    existsb (fun keyword => includes lowerMessage keyword) codeChangeKeywords in
  if negb detected then mkCheck false None None None
  else
    (* Categorize the request *)
    let category :=
      if includes lowerMessage "fix" || includes lowerMessage "broken"
      then "bugfix"
      else if includes lowerMessage "refactor" || includes lowerMessage "clean"
      then "refactor"
      else if includes lowerMessage "integrate" || includes lowerMessage "connect"
      then "integration"
      else "feature" in
    (* Determine priority *)
    let priority :=
      if includes lowerMessage "urgent" || includes lowerMessage "important"
      then "high"
      else if includes lowerMessage "eventually" || includes lowerMessage "someday"
      then "low"
      else "medium" in
    mkCheck true (Some message) (Some priority) (Some category).

(* Extract memories from interaction *)
Definition extractMemories (userMessage assistantResponse : string)
    (paraContext : JsValue) : list ExtractedMemory :=
  let memories : list ExtractedMemory := [] in
  let lowerMessage := toLowerCase userMessage in
  (* Extract preferences *)
  let memories :=
    if includes lowerMessage "i prefer" || includes lowerMessage "i like"
    then memories ++ [mkExtracted "preference" userMessage 0.8%Q]
    else memories in
  (* Extract goals *)
  let memories :=
    if includes lowerMessage "my goal" || includes lowerMessage "i want to"
    then memories ++ [mkExtracted "goal" userMessage 0.9%Q]
    else memories in
  (* Extract facts *)
  let memories :=
    if includes lowerMessage "i am" || includes lowerMessage "i have"
       || includes lowerMessage "i work"
    then memories ++ [mkExtracted "fact" userMessage 0.7%Q]
    else memories in
  memories.

Definition maxRetries : Z := 3.

(** The loop [for (let attempt = 1; attempt <= maxRetries; attempt++)] of
    [executeWithFaultTolerance], from the iteration for [attempt] on;
    [iterations] counts the iterations left, [maxRetries - attempt + 1]. *)
Fixpoint retry_loop {T} (iterations : nat) (operation : M T) (attempt : Z)
    (lastError : option JsError) : M T :=
  match iterations with
  | O =>
    (* All retries failed - for now, just throw *)
    throw lastError
  | S rest =>
    try_catch operation (fun error =>
      let lastError := error in
      run console_error attempt error in
      run (if attempt <? maxRetries
           then let delay := 2 ^ attempt * 1000 in (* Exponential backoff *)
                setTimeout delay
           else ret tt) in
      retry_loop rest operation (attempt + 1) lastError)
  end.

(* Execute with fault tolerance *)
Definition executeWithFaultTolerance {T} (operation : M T)
    (context : ExecutionContext.t) : M T :=
  let lastError : option JsError := None in
  (* Layer 1: Retry with exponential backoff *)
  retry_loop (Z.to_nat maxRetries) operation 1 lastError.

(* Manager Agent - Orchestrates subagents and manages user interactions *)
Definition chat (message : string) (userId : Id) (conversationId : option Id)
    : M ChatResult :=
  (* Step 1: Get or create conversation *)
  let* convId :=
    match conversationId with
    | Some c => ret c
    | None =>
      let* now := Date_now in
      runMutation "conversations/create"
        (Conversations.create userId "cli" ("cli-" +:+ Number_toString now))
    end in
  (* Store user message *)
  let* _ := runMutation "messages/store"
              (Messages.store convId "user" message (Some Metadata.empty)) in
  (* Step 2: Retrieve conversation history *)
  let* history := runQuery "messages/listByConversation"
                    (Messages.listByConversation convId (Some 20%nat)) in
  (* Step 3: Retrieve relevant memories *)
  let* memories := runQuery "memories/searchByUser"
                     (Memories.searchByUser userId (Some 10%nat)) in
  (* Step 4: Analyze intent and determine if PARA context is needed *)
  run emit (EvCall "analyzeIntent") in
  let intent := analyzeIntent message history memories in
  (* Step 5: Gather PARA context if needed *)
  let* paraContext :=
    if truthy (get "requiresPARAContext" intent)
    then runAction "context/para/gather" (gather message userId)
    else ret JNull in
  (* Step 6: Check for code change requests *)
  run emit (EvCall "detectCodeChangeRequest") in
  let codeChangeCheck := detectCodeChangeRequest message history in
  if detected codeChangeCheck then
    let* _ := runMutation "codeChangeRequests/create"
                (CodeChangeRequests.create userId
                   (request codeChangeCheck)
                   (JSON_stringify _ (slice_last 3 history))
                   (priority codeChangeCheck)
                   (category codeChangeCheck)) in
    ret (code_change_request
           ("I've captured your request for: " +:+ dq
            +:+ template (request codeChangeCheck) +:+ dq
            +:+ ". This has been queued for future implementation.")
           (request codeChangeCheck))
  else
  (* Step 7: Plan and execute subagent tasks with fault tolerance *)
  let* agentResponse :=
    executeWithFaultTolerance
      (generateResponse message
         (map (fun m => (Message.role m, Message.content m)) history)
         (map Memory.content memories)
         paraContext)
      (ExecutionContext.mk "generate_response" userId convId) in
  (* Step 8: Extract and store memories from this interaction *)
  run emit (EvCall "extractMemories") in
  let extractedMemories := extractMemories message agentResponse paraContext in
  run for_of extractedMemories (fun memory =>
        let* _ := runMutation "memories/store"
                    (Memories.store userId (type memory) (content memory)
                                    None (Some (importance memory))) in
        ret tt) in
  (* Step 9: Store assistant message *)
  let* _ := runMutation "messages/store"
              (Messages.store convId "assistant" agentResponse
                 (Some (Metadata.mk (Some "manager") None
                          (Some (match paraContext with JNull => false | _ => true end))
                          (Some (0 <? Z.of_nat (length extractedMemories)))))) in
  (* Update conversation activity *)
  run runMutation "conversations/updateActivity"
        (Conversations.updateActivity convId) in
  ret (response agentResponse (length extractedMemories)).

End Manager.

(* ===================================================================== *)
(** ** Vocabulary of the properties *)
(* ===================================================================== *)

(** The event of a call to the external context provider. *)
Definition gatherEvent : Event := EvRunAction "context/para/gather".

(** A call of the model backend: the wrapped operation starts, or a request
    is sent. *)
Definition is_backend_call (ev : Event) : bool :=
  match ev with
  | EvFetch _ _ => true
  | EvCall fn => String.eqb fn "generateResponse"
  | _ => false
  end.

(** Memory extraction: the extractor runs, or a memory is stored. *)
Definition is_memory_extraction (ev : Event) : bool :=
  match ev with
  | EvCall fn => String.eqb fn "extractMemories"
  | EvRunMutation name => String.eqb name "memories/store"
  | _ => false
  end.

Definition is_code_change_create (ev : Event) : bool :=
  match ev with
  | EvRunMutation name => String.eqb name "codeChangeRequests/create"
  | _ => false
  end.

(** The keyword list of the intent classifier, as the specification
    enumerates it. *)
Definition spec_intent_keywords : list string :=
  [ "project"; "area"; "resource"; "task"; "goal"; "what"; "show"; "list" ].

(** The world in which the next attempt starts after attempt [attempt] threw
    [error] in world [w]: the catch block of [executeWithFaultTolerance] for
    a non-final attempt. *)
Definition backoff (attempt : Z) (error : option JsError) (w : World) : World :=
  fst ((run console_error attempt error in setTimeout (2 ^ attempt * 1000)) w).

(** What one call of [generateResponse] ends with when its request is the
    [n]-th [fetch]: a pure reading of the environment of [w]. *)
Definition attempt_outcome (w : World) (n : nat) : Result string :=
  match or_string (or_string (ZAI_API_KEY w) (Z_AI_API_KEY w)) None with
  | None => Throw (Some (new_Error "Z.AI API key not found in environment variables"))
  | Some _ =>
    match network w n with
    | Rejected e => Throw (Some e)
    | Resolved ok status text data =>
      if negb ok
      then Throw (Some (new_Error ("Z.AI API error: " +:+ Number_toString status
                                   +:+ " - " +:+ text)))
      else match data with
           | inl e => Throw (Some e)
           | inr c => Ok (template (or_string c
                            (Some "I apologize, but I couldn't generate a response.")))
           end
    end
  end.

(** No call of [ctx.run*] takes a negative time. *)
Definition time_flows (w : World) : Prop := forall n, 0 <= elapse w n.

(** The user has a memory: the retrieval of the user's memories finds one. *)
Definition has_memory (userId : Id) (w : World) : bool :=
  match Memories.by_user userId (memories w) with
  | [] => false
  | _ :: _ => true
  end.

(** The specification's [ExhaustedRetries] error: an error of that name
    whose cause is the last underlying error. *)
Definition is_ExhaustedRetries_carrying (last : JsError) (thrown : option JsError)
    : Prop :=
  exists e,
    thrown = Some e /\
    (error_name e = "ExhaustedRetries" \/ error_name e = "ExhaustedRetriesError") /\
    error_cause e = Some last.

(** The specification's history window: the [limit] most recent messages of
    a conversation, oldest first. *)
Definition spec_most_recent (limit : nat) (conversationId : Id)
    (table : list Message.t) : list Message.t :=
  slice_last limit (Messages.by_conversation conversationId table).

(** *** Concrete instances for the examples *)

(** A stand-in for [JSON.stringify] and one for the context provider (which
    answers with an empty object). *)
Definition sample_stringify : forall A : Type, A -> string :=
  fun _ _ => "[object]".

Definition sample_gather : string -> Id -> M JsValue :=
  fun _ _ => ret (JObject ∅).

(** The calls of [ctx.run*] take 5, 6, 7, ... milliseconds. *)
Definition sample_elapse (n : nat) : Z := 5 + Z.of_nat n.

(** An empty database at time 1000 with an API key; the first two requests
    to the backend are rejected, the later ones answered. *)
Definition sample_network (n : nat) : FetchOutcome :=
  if Nat.ltb n 2
  then Rejected (mkError "TypeError" "fetch failed")
  else Resolved true 200 "" (inr (Some "Good morning!")).

Definition sample_world : World :=
  mkWorld [] [] [] [] 100%N 1000 (Some "key") None sample_network 0 [] sample_elapse.

(** The same, without any API key. *)
Definition sample_world_no_key : World :=
  mkWorld [] [] [] [] 100%N 1000 None None sample_network 0 [] sample_elapse.

(** The same with a backend that is down: every request is rejected. *)
Definition sample_network_down (n : nat) : FetchOutcome :=
  Rejected (mkError "TypeError"
                    ("fetch failed: request " +:+ Number_toString (Z.of_nat n))).

Definition sample_world_down : World :=
  mkWorld [] [] [] [] 100%N 1000 (Some "key") None sample_network_down 0 [] sample_elapse.

Definition sample_memory (id : Id) (content : string) (count : Z) : Memory.t :=
  Memory.mk id 1%N "goal" content None 0.9%Q count 500 500.

Definition sample_message (id : Id) (content : string) : Message.t :=
  Message.mk id 7%N "user" content Metadata.empty 500.

(** Conversation 7 with 21 messages, ids 0 to 20 in creation order. *)
Definition sample_long_history : list Message.t :=
  (fun i => sample_message (N.of_nat i) "turn") <$> seq 0 21.

(** A world whose conversation 7 holds three messages and whose user 1 holds
    two memories. *)
Definition sample_world_history : World :=
  mkWorld []
    [sample_message 10%N "first"; sample_message 11%N "second";
     sample_message 12%N "third"]
    [sample_memory 20%N "my goal is to ship" 0;
     sample_memory 21%N "i want to learn Rocq" 4]
    [] 100%N 1000 (Some "key") None sample_network 0 [] sample_elapse.

(** An event other than a call to the external context provider. *)
Definition not_gather (ev : Event) : Prop := ev <> gatherEvent.

(** One attempt of the wrapped operation starts. *)
Definition is_attempt (ev : Event) : bool :=
  match ev with
  | EvCall fn => String.eqb fn "generateResponse"
  | _ => false
  end.


(** The delays of the timers set, in order, and the failures logged. *)
Definition delays (evs : list Event) : list Z :=
  omap (fun ev => match ev with EvSetTimeout d => Some d | _ => None end) evs.

Definition is_failure_log (ev : Event) : bool :=
  match ev with EvConsoleError _ _ => true | _ => false end.

(** A computation only appends events satisfying [P] to the trace. *)
Definition appends (P : Event -> Prop) {A} (m : M A) : Prop :=
  forall w, exists evs, trace (fst (m w)) = trace w ++ evs /\ Forall P evs.

(* ===================================================================== *)
(** ** Running computations *)
(* ===================================================================== *)

Lemma bind_run {A B} (m : M A) (k : A -> M B) (w : World) :
  bind m k w = match m w with
               | (w', Ok a) => k a w'
               | (w', Throw e) => (w', Throw e)
               end.
Proof. reflexivity. Qed.

Lemma ret_run {A} (a : A) (w : World) : ret a w = (w, Ok a).
Proof. reflexivity. Qed.

Lemma Date_now_run (w : World) : Date_now w = (w, Ok (clock w)).
Proof. reflexivity. Qed.

Lemma try_catch_run {A} (m : M A) (h : option JsError -> M A) (w : World) :
  try_catch m h w = match m w with
                    | (w', Ok a) => (w', Ok a)
                    | (w', Throw e) => h e w'
                    end.
Proof. reflexivity. Qed.

Section Executor.

Context {T : Type}.
Variable operation : M T.
Variable context : ExecutionContext.t.

(** The executor, unrolled: at most three runs of the operation, each
    after the first starting in the [backoff] world of the failure before
    it; the third failure is logged and rethrown without a wait. *)
Lemma executeWithFaultTolerance_unroll (w : World) :
  executeWithFaultTolerance operation context w =
  match operation w with
  | (w1, Ok a) => (w1, Ok a)
  | (w1, Throw e1) =>
    match operation (backoff 1 e1 w1) with
    | (w2, Ok a) => (w2, Ok a)
    | (w2, Throw e2) =>
      match operation (backoff 2 e2 w2) with
      | (w3, Ok a) => (w3, Ok a)
      | (w3, Throw e3) =>
        (log (EvConsoleError 3 e3) w3, Throw e3)
      end
    end
  end.
Proof.
  unfold executeWithFaultTolerance. change (Z.to_nat maxRetries) with 3%nat.
  cbn [retry_loop]. rewrite try_catch_run.
  destruct (operation w) as [w1 [a|e1]]; [reflexivity|].
  rewrite !bind_run. cbn -[Z.pow]. change (1 + 1) with 2.
  unfold backoff. cbn -[Z.pow]. rewrite try_catch_run.
  destruct (operation _) as [w2 [a|e2]]; [reflexivity|].
  rewrite !bind_run. cbn -[Z.pow]. change (2 + 1) with 3.
  rewrite try_catch_run.
  destruct (operation _) as [w3 [a|e3]]; reflexivity.
Qed.

Lemma backoff_eq attempt error w :
  backoff attempt error w =
  set_clock (fun c => c + 2 ^ attempt * 1000)
    (log (EvSetTimeout (2 ^ attempt * 1000))
       (log (EvConsoleError attempt error) w)).
Proof. reflexivity. Qed.

Lemma backoff_clock attempt error w :
  clock (backoff attempt error w) = clock w + 2 ^ attempt * 1000.
Proof. reflexivity. Qed.

Lemma backoff_trace attempt error w :
  trace (backoff attempt error w) =
  trace w ++ [EvConsoleError attempt error;
              EvSetTimeout (2 ^ attempt * 1000)].
Proof. unfold backoff. cbn. by rewrite <- app_assoc. Qed.

End Executor.

(** C2. The fault-tolerant executor runs the wrapped operation at most
    three times.  The first run that succeeds ends the executor with that
    run's result and world.  After failed attempt 1 the next attempt starts
    in the [backoff 1] world, after failed attempt 2 in the [backoff 2]
    world, and [backoff n] is the world of the failure with the failure
    logged and the clock advanced by exactly [2 ^ n * 1000] milliseconds
    (2 s, then 4 s: [(2 ^ 1 + 2 ^ 2) * 1000] ms in total for two failures).
    A third failure is logged and rethrown at once: three attempts, no third
    wait, and the error thrown is the one of the last attempt. *)
Theorem retry_policy {T} (operation : M T) (context : ExecutionContext.t)
    (w : World) :
  executeWithFaultTolerance operation context w =
    match operation w with
    | (w1, Ok a) => (w1, Ok a)
    | (w1, Throw e1) =>
      match operation (backoff 1 e1 w1) with
      | (w2, Ok a) => (w2, Ok a)
      | (w2, Throw e2) =>
        match operation (backoff 2 e2 w2) with
        | (w3, Ok a) => (w3, Ok a)
        | (w3, Throw e3) =>
          (log (EvConsoleError 3 e3) w3, Throw e3)
        end
      end
    end
  /\ (forall attempt error w',
        clock (backoff attempt error w') = clock w' + 2 ^ attempt * 1000 /\
        trace (backoff attempt error w') =
          trace w' ++ [EvConsoleError attempt error;
                       EvSetTimeout (2 ^ attempt * 1000)])
  /\ (forall e1 e2 w1 w2,
        (clock (backoff 1 e1 w1) - clock w1) + (clock (backoff 2 e2 w2) - clock w2)
        = (2 ^ 1 + 2 ^ 2) * 1000).
Proof.
  split; [apply executeWithFaultTolerance_unroll|].
  split.
  - intros attempt error w'. split; [apply backoff_clock | apply backoff_trace].
  - intros e1 e2 w1 w2. rewrite !backoff_clock. lia.
Qed.

Lemma attempt_outcome_ext w w' n :
  ZAI_API_KEY w' = ZAI_API_KEY w -> Z_AI_API_KEY w' = Z_AI_API_KEY w ->
  network w' = network w ->
  attempt_outcome w' n = attempt_outcome w n.
Proof. unfold attempt_outcome. by intros -> -> ->. Qed.

(** Without an API key no request is sent and the outcome does not depend
    on the request counter. *)
Lemma attempt_outcome_no_key w n n' :
  or_string (or_string (ZAI_API_KEY w) (Z_AI_API_KEY w)) None = None ->
  attempt_outcome w n = attempt_outcome w n'.
Proof. unfold attempt_outcome. by intros ->. Qed.

(** *** The store handlers, run *)

Lemma emit_run ev w : emit ev w = (log ev w, Ok tt).
Proof. reflexivity. Qed.

Lemma call_run ev w : call ev w = (later ev w, Ok tt).
Proof. reflexivity. Qed.

Lemma conversations_create_run userId platform channel w :
  runMutation "conversations/create"
    (Conversations.create userId platform channel) w =
  (set_next_id N.succ
     (set_conversations
        (fun t => t ++ [Conversation.mk (next_id w) userId platform channel
                                        (clock w + elapse w 0)
                                        (clock w + elapse w 0) "active"])
        (later (EvRunMutation "conversations/create") w)),
   Ok (next_id w)).
Proof. reflexivity. Qed.

Lemma messages_store_run conversationId role content metadata w :
  runMutation "messages/store"
    (Messages.store conversationId role content metadata) w =
  (set_next_id N.succ
     (set_messages
        (fun t => t ++ [Message.mk (next_id w) conversationId role content
                                   (default Metadata.empty metadata)
                                   (clock w + elapse w 0)])
        (later (EvRunMutation "messages/store") w)),
   Ok (next_id w)).
Proof. reflexivity. Qed.

Lemma messages_listByConversation_run conversationId limit w :
  runQuery "messages/listByConversation"
    (Messages.listByConversation conversationId limit) w =
  (later (EvRunQuery "messages/listByConversation") w,
   Ok (take (or_limit limit 50)
            (Messages.by_conversation conversationId (messages w)))).
Proof. reflexivity. Qed.

Lemma memories_store_run userId type content paraContext importance w :
  Memories.store userId type content paraContext importance w =
  (set_next_id N.succ
     (set_memories
        (fun t => t ++ [Memory.mk (next_id w) userId type content paraContext
                                  (or_number importance 0.5%Q) 0
                                  (clock w) (clock w)])
        w),
   Ok (next_id w)).
Proof. reflexivity. Qed.

Lemma codeChangeRequests_create_run userId request context priority category w :
  runMutation "codeChangeRequests/create"
    (CodeChangeRequests.create userId request context priority category) w =
  (set_next_id N.succ
     (set_codeChangeRequests
        (fun t => t ++ [CodeChangeRequest.mk (next_id w) userId request context
                          priority category "pending" (clock w + elapse w 0)])
        (later (EvRunMutation "codeChangeRequests/create") w)),
   Ok (next_id w)).
Proof. reflexivity. Qed.

(** *** The retrieval, run *)

(** [limit || d] with a positive default is a positive count. *)
Lemma or_limit_pos limit d : exists n, or_limit limit (S d) = S n.
Proof. destruct limit as [[|n]|]; eexists; reflexivity. Qed.

(** The retrieval writes nothing.  It returns when the user has no memory,
    and then the empty list; when there is one, the first pass of the loop
    calls [ctx.db.patch], which a query does not have. *)
Lemma memories_searchByUser_run userId limit w :
  Memories.searchByUser userId limit w =
  (w, if has_memory userId w then Throw (Some Memories.patch_error)
      else Ok []).
Proof.
  unfold Memories.searchByUser, has_memory. rewrite bind_run. cbv beta iota.
  destruct (or_limit_pos limit 19) as (n & ->).
  destruct (Memories.by_user userId (memories w)) as [|m found]; [reflexivity|].
  rewrite reverse_cons.
  destruct (reverse found) as [|m' found']; reflexivity.
Qed.

Lemma runQuery_searchByUser_run userId limit w :
  runQuery "memories/searchByUser" (Memories.searchByUser userId limit) w =
  (later (EvRunQuery "memories/searchByUser") w,
   if has_memory userId w then Throw (Some Memories.patch_error) else Ok []).
Proof.
  unfold runQuery. rewrite bind_run, call_run. cbv beta iota.
  rewrite memories_searchByUser_run. reflexivity.
Qed.

(** *** The history fetch *)

(** [listByConversation] reads the first [limit || 50] messages of the
    conversation in creation order and changes nothing. *)
Lemma listByConversation_run conversationId limit w :
  Messages.listByConversation conversationId limit w =
  (w, Ok (take (or_limit limit 50)
               (Messages.by_conversation conversationId (messages w)))).
Proof. reflexivity. Qed.

(** C5 fails on the code.  Conversation 7 holds three messages; the history
    fetch with limit 2 returns the two oldest, "first" and "second", where
    the claim wants the two most recent, "second" and "third".  The fetch
    that [chat] issues has limit 20: on a conversation of 21 messages it
    returns the messages 0 to 19 and leaves out the newest, which is the one
    that [chat], slicing the tail of the history, takes for the latest. *)
Theorem history_fetch_returns_oldest :
  let table := messages sample_world_history in
  (2 < length (Messages.by_conversation 7%N table))%nat /\
  snd (Messages.listByConversation 7%N (Some 2%nat) sample_world_history)
    = Ok [sample_message 10%N "first"; sample_message 11%N "second"] /\
  spec_most_recent 2 7%N table
    = [sample_message 11%N "second"; sample_message 12%N "third"] /\
  snd (Messages.listByConversation 7%N (Some 2%nat) sample_world_history)
    <> Ok (spec_most_recent 2 7%N table) /\
  Message._id <$>
    take (or_limit (Some 20%nat) 50)
         (Messages.by_conversation 7%N sample_long_history)
  = N.of_nat <$> seq 0 20 /\
  Message._id <$> spec_most_recent 20 7%N sample_long_history
  = N.of_nat <$> seq 1 20.
Proof.
  repeat split; try (vm_compute; first [lia | reflexivity | discriminate]).
Qed.

(** *** The memory store *)

Lemma or_number_not_zero x d : ~ d == 0 -> ~ or_number x d == 0.
Proof.
  intros Hd. destruct x as [q|]; cbn; [|exact Hd].
  destruct (Qeq_bool q 0) eqn:Hq; [exact Hd|].
  intros H. apply Qeq_bool_iff in H. congruence.
Qed.

(** C10. [memories/store] appends one memory whose access count is 0 and
    whose importance is [importance || 0.5]: 0.5 when the argument is
    omitted, 0.5 as well when it is 0, and the argument itself otherwise;
    so the stored importance is never 0. *)
Theorem store_importance_default userId type content paraContext importance w :
  let out := Memories.store userId type content paraContext importance w in
  exists m,
    memories (fst out) = memories w ++ [m] /\
    snd out = Ok (Memory._id m) /\
    Memory.accessedCount m = 0 /\
    (importance = None -> Memory.importance m = 0.5%Q) /\
    (forall q, importance = Some q -> q == 0 -> Memory.importance m = 0.5%Q) /\
    (forall q, importance = Some q -> ~ q == 0 -> Memory.importance m = q) /\
    ~ Memory.importance m == 0.
Proof.
  intros out. subst out. rewrite memories_store_run. eexists.
  split; [reflexivity|]. cbn [snd Memory._id Memory.accessedCount Memory.importance].
  split; [reflexivity|]. split; [reflexivity|].
  split; [by intros ->|]. split; [|split].
  - intros q -> Hq. cbn. apply Qeq_bool_iff in Hq. by rewrite Hq.
  - intros q -> Hq. cbn. destruct (Qeq_bool q 0) eqn:E; [|reflexivity].
    apply Qeq_bool_iff in E. contradiction.
  - by apply or_number_not_zero.
Qed.

Lemma store_importance_default_witness :
  Some 0%Q = Some 0%Q /\ 0%Q == 0 /\
  exists m,
    memories (fst (Memories.store 1%N "fact" "I am a developer" None (Some 0%Q)
                     sample_world)) = [m] /\
    Memory.importance m = 0.5%Q /\ Memory.accessedCount m = 0.
Proof.
  split; [reflexivity|]. split; [reflexivity|].
  destruct (store_importance_default 1%N "fact" "I am a developer" None
              (Some 0%Q) sample_world)
    as (m & Hm & _ & Hcount & _ & Hzero & _).
  exists m. split; [exact Hm|]. split; [|exact Hcount].
  exact (Hzero 0%Q eq_refl (Qeq_refl 0)).
Defined.

(** C8 fails on the code.  [memories/store] takes any number as importance
    and persists it unchecked: called with importance 2 it stores a memory
    whose importance is 2, outside [0,1] (the range that the schema
    documents for the field). *)
Lemma store_importance_out_of_range :
  exists m,
    memories (fst (Memories.store 1%N "fact" "I am a developer" None (Some 2%Q)
                     sample_world)) = [m] /\
    Memory.importance m = 2%Q /\
    ~ (0 <= Memory.importance m /\ Memory.importance m <= 1)%Q.
Proof.
  eexists. split; [reflexivity|]. split; [reflexivity|].
  cbn. intros [_ H]. by apply Qle_bool_iff in H.
Qed.

(** *** Retrieval *)

(** C9 fails on the code.  A memory is stored for user 1 with importance
    0.9; the retrieval that should return it and count the access throws
    the TypeError of [ctx.db.patch] instead ([searchByUser] is a query),
    and the memory is left as it was stored: access count 0. *)
Theorem retrieval_throws_without_bump :
  let w1 := fst (Memories.store 1%N "goal" "my goal is to ship" None
                   (Some 0.9%Q) sample_world) in
  let out := Memories.searchByUser 1%N None w1 in
  memories w1
  = [Memory.mk 100%N 1%N "goal" "my goal is to ship" None 0.9%Q 0 1000 1000] /\
  snd out = Throw (Some (mkError "TypeError" "ctx.db.patch is not a function")) /\
  memories (fst out) = memories w1 /\
  Memory.accessedCount <$> memories (fst out) = [0].
Proof. repeat split. Qed.

(** *** Computations that only append permitted events *)

Section Appends.

Variable P : Event -> Prop.

Lemma appends_ret {A} (a : A) : appends P (ret a).
Proof. intros w. exists []. by rewrite app_nil_r. Qed.

Lemma appends_throw {A} e : appends P (@throw A e).
Proof. intros w. exists []. by rewrite app_nil_r. Qed.

Lemma appends_bind {A B} (m : M A) (k : A -> M B) :
  appends P m -> (forall a, appends P (k a)) -> appends P (bind m k).
Proof.
  intros Hm Hk w. rewrite bind_run.
  destruct (Hm w) as (evs & Ht & Hevs).
  destruct (m w) as [w1 [a|e]]; cbn [fst] in *.
  - destruct (Hk a w1) as (evs' & Ht' & Hevs').
    exists (evs ++ evs'). split.
    + by rewrite Ht', Ht, app_assoc.
    + by apply Forall_app.
  - by exists evs.
Qed.

Lemma appends_try_catch {A} (m : M A) (h : option JsError -> M A) :
  appends P m -> (forall e, appends P (h e)) -> appends P (try_catch m h).
Proof.
  intros Hm Hh w. rewrite try_catch_run.
  destruct (Hm w) as (evs & Ht & Hevs).
  destruct (m w) as [w1 [a|e]]; cbn [fst] in *.
  - by exists evs.
  - destruct (Hh e w1) as (evs' & Ht' & Hevs').
    exists (evs ++ evs'). split.
    + by rewrite Ht', Ht, app_assoc.
    + by apply Forall_app.
Qed.

Lemma appends_emit ev : P ev -> appends P (emit ev).
Proof. intros Hev w. exists [ev]. split; [reflexivity | by constructor]. Qed.

Lemma appends_if {A} (b : bool) (m1 m2 : M A) :
  appends P m1 -> appends P m2 -> appends P (if b then m1 else m2).
Proof. by destruct b. Qed.

Lemma appends_setTimeout delay :
  P (EvSetTimeout delay) -> appends P (setTimeout delay).
Proof.
  intros Hev w. exists [EvSetTimeout delay].
  split; [reflexivity | by constructor].
Qed.

Lemma appends_for_of {A} (xs : list A) (body : A -> M unit) :
  (forall x, appends P (body x)) -> appends P (for_of xs body).
Proof.
  intros Hbody. induction xs as [|x xs IH]; cbn [for_of].
  - apply appends_ret.
  - apply appends_bind; auto.
Qed.

Lemma appends_call ev : P ev -> appends P (call ev).
Proof. intros Hev w. exists [ev]. split; [reflexivity | by constructor]. Qed.

Lemma appends_runMutation {A} name (handler : M A) :
  P (EvRunMutation name) -> appends P handler ->
  appends P (runMutation name handler).
Proof. intros. apply appends_bind; auto using appends_call. Qed.

Lemma appends_runQuery {A} name (handler : M A) :
  P (EvRunQuery name) -> appends P handler ->
  appends P (runQuery name handler).
Proof. intros. apply appends_bind; auto using appends_call. Qed.

Lemma appends_Date_now : appends P Date_now.
Proof. intros w. exists []. by rewrite app_nil_r. Qed.

Lemma appends_conversations_create u platform channel :
  appends P (Conversations.create u platform channel).
Proof. intros w. exists []. by rewrite app_nil_r. Qed.

Lemma appends_listByConversation c limit :
  appends P (Messages.listByConversation c limit).
Proof. intros w. exists []. by rewrite app_nil_r. Qed.

Lemma appends_searchByUser u limit : appends P (Memories.searchByUser u limit).
Proof.
  intros w. exists []. by rewrite memories_searchByUser_run, app_nil_r.
Qed.

(** The store handlers leave the trace alone. *)
Lemma appends_messages_store c role content metadata :
  appends P (Messages.store c role content metadata).
Proof. intros w. exists []. by rewrite app_nil_r. Qed.

Lemma appends_memories_store u type content paraContext importance :
  appends P (Memories.store u type content paraContext importance).
Proof. intros w. exists []. by rewrite app_nil_r. Qed.

Lemma appends_codeChangeRequests_create u request context priority category :
  appends P (CodeChangeRequests.create u request context priority category).
Proof. intros w. exists []. by rewrite app_nil_r. Qed.

Lemma appends_updateActivity c : appends P (Conversations.updateActivity c).
Proof.
  intros w. exists []. unfold Conversations.updateActivity.
  rewrite bind_run, Date_now_run. cbv beta iota.
  destruct (List.find _ _); by rewrite app_nil_r.
Qed.

Lemma appends_retry_loop {T} (operation : M T) :
  appends P operation ->
  (forall attempt error, P (EvConsoleError attempt error)) ->
  (forall delay, P (EvSetTimeout delay)) ->
  forall iterations attempt lastError,
    appends P (retry_loop iterations operation attempt lastError).
Proof.
  intros Hop Hlog Hwait iterations.
  induction iterations as [|n IH]; intros attempt lastError; cbn [retry_loop].
  - apply appends_throw.
  - apply appends_try_catch; [exact Hop|]. intros error.
    apply appends_bind; [apply appends_emit, Hlog|]. intros _.
    apply appends_bind; [|intros _; apply IH].
    apply appends_if; [apply appends_setTimeout, Hwait | apply appends_ret].
Qed.

End Appends.

Lemma appends_executeWithFaultTolerance (P : Event -> Prop) {T}
    (operation : M T) (context : ExecutionContext.t) :
  appends P operation ->
  (forall attempt error, P (EvConsoleError attempt error)) ->
  (forall delay, P (EvSetTimeout delay)) ->
  appends P (executeWithFaultTolerance operation context).
Proof. intros. by apply appends_retry_loop. Qed.

Create HintDb appends.
#[export] Hint Resolve appends_ret appends_throw appends_bind appends_emit
  appends_call appends_if appends_for_of appends_runMutation appends_runQuery
  appends_Date_now appends_conversations_create appends_listByConversation
  appends_searchByUser appends_messages_store
  appends_memories_store appends_updateActivity
  appends_codeChangeRequests_create
  appends_executeWithFaultTolerance : appends.
#[export] Hint Extern 1 (not_gather _) =>
  unfold not_gather, gatherEvent; discriminate : appends.

(* ===================================================================== *)
(** ** Properties of the manager *)
(* ===================================================================== *)

Section ManagerProperties.

Variable toLowerCase : string -> string.
Variable JSON_stringify : forall A : Type, A -> string.
Variable gather : string -> Id -> M JsValue.

(** [chat] tests [intent.requiresPARAContext]; the object [analyzeIntent]
    returns has the properties [requiresPARA] and [intent] only, so the
    test reads [undefined]. *)
Lemma intent_requiresPARAContext_undefined message history memories :
  get "requiresPARAContext" (analyzeIntent toLowerCase message history memories)
  = JUndefined.
Proof. unfold get, analyzeIntent. by simplify_map_eq. Qed.

Lemma detected_existsb message history :
  detected (detectCodeChangeRequest toLowerCase message history) =
  existsb (fun keyword => includes (toLowerCase message) keyword)
          codeChangeKeywords.
Proof. unfold detectCodeChangeRequest. by destruct (existsb _ _). Qed.

Lemma detected_request message history :
  detected (detectCodeChangeRequest toLowerCase message history) = true ->
  request (detectCodeChangeRequest toLowerCase message history) = Some message.
Proof. unfold detectCodeChangeRequest. by destruct (existsb _ _). Qed.

Lemma generateResponse_run userMessage history memories paraContext w :
  generateResponse JSON_stringify userMessage history memories paraContext w =
  (match or_string (or_string (ZAI_API_KEY w) (Z_AI_API_KEY w)) None with
   | None => log (EvCall "generateResponse") w
   | Some _ =>
     set_fetches S
       (log (EvFetch "https://api.z.ai/v1/chat/completions"
               (("system", systemPrompt JSON_stringify memories paraContext)
                :: slice_last 10 history ++ [("user", userMessage)]))
            (log (EvCall "generateResponse") w))
   end,
   attempt_outcome w (fetches w)).
Proof.
  unfold generateResponse, attempt_outcome.
  rewrite bind_run, emit_run. cbv beta iota. rewrite bind_run. cbv beta iota.
  cbn [ZAI_API_KEY Z_AI_API_KEY log set_trace].
  destruct (or_string (or_string _ _) None); [|reflexivity].
  rewrite bind_run. unfold fetch. cbn [network fetches log set_trace].
  destruct (network w (fetches w)) as [e|ok status text data]; [reflexivity|].
  cbv beta iota.
  destruct ok; cbn [negb]; [|reflexivity].
  destruct data; reflexivity.
Qed.

(** C6. The intent classifier is a function of the utterance alone
    (history and memories are ignored).  When the lower-cased utterance
    contains one of "project", "area", "resource", "task", "goal", "what",
    "show", "list", the object it returns carries the flag [true] and the
    label "query"; when it contains none, the flag [false] and the label
    "general".  The object holds the flag in its property [requiresPARA]
    and the label in its property [intent]. *)
Theorem analyzeIntent_classifies message history memories :
  let intent := analyzeIntent toLowerCase message history memories in
  ((exists keyword, In keyword spec_intent_keywords /\
                    includes (toLowerCase message) keyword = true) ->
   intent !! "requiresPARA" = Some (JBool true) /\
   intent !! "intent" = Some (JStr "query")) /\
  ((forall keyword, In keyword spec_intent_keywords ->
                    includes (toLowerCase message) keyword = false) ->
   intent !! "requiresPARA" = Some (JBool false) /\
   intent !! "intent" = Some (JStr "general")) /\
  (forall history' memories',
      analyzeIntent toLowerCase message history' memories' = intent).
Proof.
  intros intent. subst intent. unfold analyzeIntent.
  split; [|split; [|reflexivity]].
  - intros (keyword & Hin & Hkw).
    assert (H : includes (toLowerCase message) "project"
                || includes (toLowerCase message) "area"
                || includes (toLowerCase message) "resource"
                || includes (toLowerCase message) "task"
                || includes (toLowerCase message) "goal"
                || includes (toLowerCase message) "what"
                || includes (toLowerCase message) "show"
                || includes (toLowerCase message) "list" = true).
    { cbn in Hin.
      repeat (destruct Hin as [<-|Hin];
              [rewrite Hkw; by rewrite ?orb_true_r|]).
      contradiction. }
    rewrite H. by simplify_map_eq.
  - intros Hno.
    rewrite !Hno by (cbn; auto 10). by simplify_map_eq.
Qed.

(** C7. Memory extraction is a function of the user utterance alone (the
    response and the context are ignored).  Its three rules fire
    independently on the lower-cased utterance: the result is the
    preference candidate (importance 0.8) if "i prefer" or "i like"
    occurs, then the goal candidate (0.9) if "my goal" or "i want to"
    occurs, then the fact candidate (0.7) if "i am", "i have" or "i work"
    occurs; one candidate per matching rule, each with the utterance
    verbatim as content, and the empty list when no rule matches. *)
Theorem extractMemories_rules userMessage assistantResponse paraContext :
  let lower := toLowerCase userMessage in
  let preference := includes lower "i prefer" || includes lower "i like" in
  let goal := includes lower "my goal" || includes lower "i want to" in
  let fact := includes lower "i am" || includes lower "i have"
              || includes lower "i work" in
  let extracted :=
    extractMemories toLowerCase userMessage assistantResponse paraContext in
  extracted =
    (if preference then [mkExtracted "preference" userMessage 0.8%Q] else [])
    ++ (if goal then [mkExtracted "goal" userMessage 0.9%Q] else [])
    ++ (if fact then [mkExtracted "fact" userMessage 0.7%Q] else []) /\
  length extracted =
    ((if preference then 1 else 0) + (if goal then 1 else 0)
     + (if fact then 1 else 0))%nat /\
  Forall (fun candidate => content candidate = userMessage) extracted /\
  (preference || goal || fact = false -> extracted = []) /\
  (forall assistantResponse' paraContext',
      extractMemories toLowerCase userMessage assistantResponse' paraContext'
      = extracted).
Proof.
  intros lower preference goal fact extracted.
  subst extracted. unfold extractMemories.
  fold lower. fold preference. fold goal. fold fact.
  destruct preference, goal, fact; cbn;
    repeat split; try done; by repeat constructor.
Qed.

(** Symbolic execution of [chat]: through the retrieval of step 3, and
    from there to the test of [codeChangeCheck.detected]. *)
Ltac run_step lem := rewrite bind_run, lem; cbv beta iota.

Lemma has_memory_ext userId w' w :
  memories w' = memories w -> has_memory userId w' = has_memory userId w.
Proof. unfold has_memory. by intros ->. Qed.

Ltac project_world :=
  cbn [fst snd trace messages memories codeChangeRequests conversations
       fetches clock next_id ZAI_API_KEY Z_AI_API_KEY network elapse
       log later set_trace set_next_id set_messages
       set_memories set_codeChangeRequests set_conversations set_clock
       set_fetches set_elapse].

Ltac chat_prelude conversationId w :=
  unfold chat;
  destruct conversationId as [conversationId|];
  [ run_step @ret_run
  | rewrite bind_run, bind_run, Date_now_run; cbv beta iota;
    rewrite conversations_create_run; cbv beta iota ];
  (run_step messages_store_run;
   run_step messages_listByConversation_run;
   rewrite bind_run, runQuery_searchByUser_run;
   match goal with
   | |- context [has_memory ?u ?W] =>
     rewrite (has_memory_ext u W w) by reflexivity
   end).

Ltac chat_analysis :=
  cbv beta iota;
  run_step emit_run;
  rewrite bind_run, intent_requiresPARAContext_undefined;
  cbn [truthy]; rewrite ret_run; cbv beta iota;
  run_step emit_run.

Lemma appends_generateResponse (P : Event -> Prop)
    userMessage history memories paraContext :
  P (EvCall "generateResponse") ->
  (forall url messages, P (EvFetch url messages)) ->
  appends P (generateResponse JSON_stringify userMessage history memories
                              paraContext).
Proof.
  intros Hcall Hfetch w. rewrite generateResponse_run.
  destruct (or_string (or_string _ _) None); project_world.
  - eexists [_; _]. split; [by rewrite <- app_assoc|]. by repeat constructor.
  - eexists [_]. split; [reflexivity|]. by repeat constructor.
Qed.

Lemma not_detected message history :
  (forall keyword, In keyword codeChangeKeywords ->
                   includes (toLowerCase message) keyword = false) ->
  detected (detectCodeChangeRequest toLowerCase message history) = false.
Proof.
  intros Hno. rewrite detected_existsb.
  apply not_true_is_false. intros H. apply existsb_exists in H.
  destruct H as (kw & Hin & Hkw). by rewrite (Hno kw Hin) in Hkw.
Qed.

(** Three failing attempts in a row: the executor ends with the error of
    the third one, having touched no table. *)
Lemma generation_exhausted userMessage history memories0 paraContext context
    W e1 e2 e3 :
  attempt_outcome W (fetches W) = Throw e1 ->
  attempt_outcome W (S (fetches W)) = Throw e2 ->
  attempt_outcome W (S (S (fetches W))) = Throw e3 ->
  exists W' evs,
    executeWithFaultTolerance
      (generateResponse JSON_stringify userMessage history memories0 paraContext)
      context W
    = (W', Throw e3) /\
    messages W' = messages W /\ memories W' = memories W /\
    codeChangeRequests W' = codeChangeRequests W /\
    trace W' = trace W ++ evs /\
    existsb is_memory_extraction evs = false /\
    length (List.filter is_attempt evs) = 3%nat.
Proof.
  intros H1 H2 H3.
  rewrite executeWithFaultTolerance_unroll.
  destruct (or_string (or_string (ZAI_API_KEY W) (Z_AI_API_KEY W)) None)
    as [key|] eqn:Hkey.
  2: rewrite (attempt_outcome_no_key W _ (fetches W) Hkey) in H2.
  2: rewrite (attempt_outcome_no_key W _ (fetches W) Hkey) in H3.
  all: rewrite generateResponse_run, Hkey, H1; cbv beta iota.
  all: rewrite generateResponse_run, backoff_eq; project_world.
  all: rewrite Hkey, (attempt_outcome_ext W), H2 by reflexivity; cbv beta iota.
  all: rewrite generateResponse_run, backoff_eq; project_world.
  all: rewrite Hkey, (attempt_outcome_ext W), H3 by reflexivity; cbv beta iota.
  all: eexists _, _; split; [reflexivity|]; project_world.
  all: do 3 (split; [reflexivity|]).
  all: split; [by rewrite <- !app_assoc|]; split; reflexivity.
Qed.

(** C3, as amended.  In a turn that reaches the model backend (the
    retrieval of step 3 returned and the utterance is no code-change
    request), when the three attempts of the model-backend operation fail,
    the turn fails with the error of the third attempt itself (the executor
    rethrows [lastError]; nothing wraps it).  The user message persisted at
    the start of the turn is the only message the turn adds (no assistant
    message), no memory and no code-change request is added, and the events
    of the turn contain three attempts and no memory extraction. *)
Theorem exhausted_retries_end_the_turn
    message userId conversationId w e1 e2 e3 :
  has_memory userId w = false ->
  (forall keyword, In keyword codeChangeKeywords ->
                   includes (toLowerCase message) keyword = false) ->
  attempt_outcome w (fetches w) = Throw e1 ->
  attempt_outcome w (S (fetches w)) = Throw e2 ->
  attempt_outcome w (S (S (fetches w))) = Throw e3 ->
  let out := chat toLowerCase JSON_stringify gather
                  message userId conversationId w in
  snd out = Throw e3 /\
  (exists doc, messages (fst out) = messages w ++ [doc] /\
               Message.role doc = "user" /\ Message.content doc = message) /\
  memories (fst out) = memories w /\
  codeChangeRequests (fst out) = codeChangeRequests w /\
  (exists evs, trace (fst out) = trace w ++ evs /\
               existsb is_memory_extraction evs = false /\
               length (List.filter is_attempt evs) = 3%nat).
Proof.
  intros Hnone Hno H1 H2 H3 out.
  assert (E : chat toLowerCase JSON_stringify gather
                   message userId conversationId w = out) by reflexivity.
  clearbody out. revert E. chat_prelude conversationId w.
  all: rewrite Hnone; chat_analysis.
  all: rewrite not_detected by exact Hno.
  all: rewrite bind_run.
  all: match goal with
       | |- context [executeWithFaultTolerance
                       (generateResponse _ ?um ?h ?m ?p) ?c ?W] =>
         pose proof (generation_exhausted um h m p c W e1 e2 e3) as Hgen;
         rewrite !(attempt_outcome_ext w W) in Hgen by reflexivity
       end.
  all: cbn [fetches log later set_trace set_memories set_next_id set_messages
            set_conversations set_clock set_elapse] in Hgen.
  all: destruct (Hgen H1 H2 H3)
         as (W' & evs & Hrun & Hmsg & Hmem & Hccr & Htr & Hex & Hatt).
  all: clear Hgen; rewrite Hrun.
  all: intros <-; cbn [fst snd]; rewrite Hmsg, Hmem, Hccr, Htr; project_world.
  all: split; [reflexivity|].
  all: split; [eexists; split; [reflexivity|done]|].
  all: do 2 (split; [reflexivity|]).
  all: rewrite <- !app_assoc; eexists; split; [reflexivity|].
  all: cbn [app]; cbn; by rewrite Hex, Hatt.
Qed.

End ManagerProperties.

(* ===================================================================== *)
(** ** Worked examples *)
(* ===================================================================== *)

(** An utterance matching two rules yields two candidates, in rule order. *)
Example extract_two_rules :
  extractMemories ascii_toLowerCase
    "I am a developer and I prefer mornings" "Noted." JNull
  = [ mkExtracted "preference" "I am a developer and I prefer mornings" 0.8%Q;
      mkExtracted "fact" "I am a developer and I prefer mornings" 0.7%Q ].
Proof. reflexivity. Qed.

(** The backend rejects two requests and answers the third: the executor
    returns the third result after waiting 2 s and 4 s, with two failures
    logged. *)
Example retry_fails_twice_then_succeeds :
  let out :=
    executeWithFaultTolerance
      (generateResponse sample_stringify "Hello" [] [] JNull)
      (ExecutionContext.mk "generate_response" 1%N 100%N) sample_world in
  snd out = Ok "Good morning!" /\
  fetches (fst out) = 3%nat /\
  delays (trace (fst out)) = [2000; 4000] /\
  clock (fst out) = clock sample_world + (2 ^ 1 + 2 ^ 2) * 1000 /\
  length (List.filter is_failure_log (trace (fst out))) = 2%nat.
Proof. vm_compute. repeat split. Qed.

(** The backend is down: three attempts, two waits, and the error of the
    last attempt. *)
Example retry_always_fails :
  let out :=
    executeWithFaultTolerance
      (generateResponse sample_stringify "Hello" [] [] JNull)
      (ExecutionContext.mk "generate_response" 1%N 100%N) sample_world_down in
  snd out = Throw (Some (mkError "TypeError" "fetch failed: request 2")) /\
  length (List.filter is_attempt (trace (fst out))) = 3%nat /\
  delays (trace (fst out)) = [2000; 4000] /\
  length (List.filter is_failure_log (trace (fst out))) = 3%nat.
Proof. vm_compute. repeat split. Qed.

(** A greeting that contains "can you" is taken for a code-change request. *)
Example greeting_is_code_change_request :
  result_type <$>
    match snd (chat ascii_toLowerCase sample_stringify sample_gather
                 "Hello! What can you help me with?" 1%N None sample_world) with
    | Ok r => Some r
    | Throw _ => None
    end = Some "code_change_request".
Proof. reflexivity. Qed.

(* ===================================================================== *)
(** ** The theorems at concrete inputs *)
(* ===================================================================== *)

(** An empty database whose backend answers every request. *)
Definition sample_world_up : World :=
  mkWorld [] [] [] [] 100%N 1000 (Some "key") None
          (fun _ => Resolved true 200 "" (inr (Some "Good morning!"))) 0 []
          sample_elapse.

(** The first turn of user 1, "I like tea", in the empty database: a
    conversation is created and the turn stores one memory. *)
Definition sample_first_turn : World * Result ChatResult :=
  chat ascii_toLowerCase sample_stringify sample_gather
       "I like tea" 1%N None sample_world_up.

(** C1 fails on the code.  User 1 has had a first turn, "I like tea", in
    which the assistant stored one memory.  Their next utterance, in the
    same conversation, is a code-change request: the detector would answer
    [detected = true], but the turn never gets there.  Its step 3, the
    retrieval of the user's memories, throws the TypeError of
    [ctx.db.patch] ([searchByUser] is a query): the turn ends with that
    error after the user message was stored, no code-change request is
    persisted, the detector is not called, and no result of type
    "code_change_request" is returned. *)
Theorem code_change_turn_dies_in_retrieval :
  let w := fst sample_first_turn in
  let message := "Can you add a feature that sends me daily summaries?" in
  let out := chat ascii_toLowerCase sample_stringify sample_gather
                  message 1%N (Some 100%N) w in
  snd sample_first_turn = Ok (response "Good morning!" 1) /\
  Conversation._id <$> conversations w = [100%N] /\
  (Memory.userId <$> memories w, Memory.content <$> memories w)
  = ([1%N], ["I like tea"]) /\
  (forall history,
      detected (detectCodeChangeRequest ascii_toLowerCase message history)
      = true) /\
  snd out = Throw (Some (mkError "TypeError" "ctx.db.patch is not a function")) /\
  codeChangeRequests (fst out) = [] /\
  trace (fst out)
  = trace w ++ [EvRunMutation "messages/store";
                EvRunQuery "messages/listByConversation";
                EvRunQuery "memories/searchByUser"] /\
  Message.content <$> messages (fst out)
  = ["I like tea"; "Good morning!"; message].
Proof. vm_compute. repeat split. Qed.


(** C3 as stated fails: with the backend down all three attempts fail, the
    last one with the error of request 2, and both the executor and the turn
    fail with that very error, which is no [ExhaustedRetries] error carrying
    it. *)
Lemma exhausted_retries_counterexample :
  let last := mkError "TypeError" "fetch failed: request 2" in
  attempt_outcome sample_world_down 0 =
    Throw (Some (mkError "TypeError" "fetch failed: request 0")) /\
  attempt_outcome sample_world_down 1 =
    Throw (Some (mkError "TypeError" "fetch failed: request 1")) /\
  attempt_outcome sample_world_down 2 = Throw (Some last) /\
  snd (executeWithFaultTolerance
         (generateResponse sample_stringify "Hello there" [] [] JNull)
         (ExecutionContext.mk "generate_response" 1%N 100%N)
         sample_world_down) = Throw (Some last) /\
  snd (chat ascii_toLowerCase sample_stringify sample_gather
            "Hello there" 1%N None sample_world_down) = Throw (Some last) /\
  ~ is_ExhaustedRetries_carrying last (Some last).
Proof.
  repeat split; try (vm_compute; congruence).
  intros (e & Heq & _ & Hcause). injection Heq as <-. discriminate Hcause.
Qed.

Lemma exhausted_retries_end_the_turn_witness :
  has_memory 1%N sample_world_down = false /\
  (forall keyword, In keyword codeChangeKeywords ->
     includes (ascii_toLowerCase "Hello there") keyword = false) /\
  attempt_outcome sample_world_down 0 =
    Throw (Some (mkError "TypeError" "fetch failed: request 0")) /\
  attempt_outcome sample_world_down 1 =
    Throw (Some (mkError "TypeError" "fetch failed: request 1")) /\
  attempt_outcome sample_world_down 2 =
    Throw (Some (mkError "TypeError" "fetch failed: request 2")) /\
  snd (chat ascii_toLowerCase sample_stringify sample_gather
            "Hello there" 1%N None sample_world_down) =
    Throw (Some (mkError "TypeError" "fetch failed: request 2")).
Proof.
  assert (Hno : forall keyword, In keyword codeChangeKeywords ->
     includes (ascii_toLowerCase "Hello there") keyword = false).
  { intros keyword Hin. cbn in Hin.
    repeat (destruct Hin as [<-|Hin]; [reflexivity|]). contradiction. }
  split; [reflexivity|]. split; [exact Hno|]. do 3 (split; [reflexivity|]).
  exact (proj1 (exhausted_retries_end_the_turn ascii_toLowerCase
    sample_stringify sample_gather "Hello there" 1%N None sample_world_down
    _ _ _ eq_refl Hno eq_refl eq_refl eq_refl)).
Defined.

Lemma analyzeIntent_classifies_witness :
  (exists keyword, In keyword spec_intent_keywords /\
     includes (ascii_toLowerCase "Show my Tasks") keyword = true) /\
  analyzeIntent ascii_toLowerCase "Show my Tasks" [] [] !! "requiresPARA"
    = Some (JBool true) /\
  analyzeIntent ascii_toLowerCase "Show my Tasks" [] [] !! "intent"
    = Some (JStr "query").
Proof.
  assert (H : exists keyword, In keyword spec_intent_keywords /\
     includes (ascii_toLowerCase "Show my Tasks") keyword = true).
  { exists "task". split; [cbn; auto 10 | reflexivity]. }
  split; [exact H|].
  exact (proj1 (analyzeIntent_classifies ascii_toLowerCase
                  "Show my Tasks" [] []) H).
Defined.

Lemma extractMemories_rules_witness :
  (includes (ascii_toLowerCase "Nice weather today") "i prefer"
   || includes (ascii_toLowerCase "Nice weather today") "i like")
  || (includes (ascii_toLowerCase "Nice weather today") "my goal"
      || includes (ascii_toLowerCase "Nice weather today") "i want to")
  || (includes (ascii_toLowerCase "Nice weather today") "i am"
      || includes (ascii_toLowerCase "Nice weather today") "i have"
      || includes (ascii_toLowerCase "Nice weather today") "i work") = false /\
  extractMemories ascii_toLowerCase "Nice weather today" "Indeed." JNull = [].
Proof.
  split; [reflexivity|].
  exact (proj1 (proj2 (proj2 (proj2
    (extractMemories_rules ascii_toLowerCase "Nice weather today" "Indeed."
       JNull)))) eq_refl).
Defined.

(* ===================================================================== *)
(** * Further properties of the code *)
(* ===================================================================== *)

(** ** Substrings *)

Lemma string_app_nil (b : string) : "" +:+ b = b.
Proof. reflexivity. Qed.

Lemma string_app_cons (c : ascii) (a b : string) :
  String c a +:+ b = String c (a +:+ b).
Proof. reflexivity. Qed.

Lemma string_app_assoc (a b c : string) : (a +:+ b) +:+ c = a +:+ b +:+ c.
Proof.
  induction a as [|x a IH]; [reflexivity|].
  by rewrite !string_app_cons, IH.
Qed.

Lemma prefix_app (x s : string) :
  String.prefix x s = true <-> exists post, s = x +:+ post.
Proof.
  revert s. induction x as [|a x IH]; intros s.
  - split; [by exists s | by destruct s].
  - destruct s as [|b s]; cbn [String.prefix].
    + split; [discriminate | intros [post H]; discriminate H].
    + destruct (ascii_dec a b) as [->|Hne].
      * rewrite IH. split; intros [post H]; exists post.
        -- by rewrite string_app_cons, H.
        -- rewrite string_app_cons in H. congruence.
      * split; [discriminate|]. intros [post H].
        rewrite string_app_cons in H. congruence.
Qed.

(** [includes] is the substring test. *)
Lemma includes_spec (s x : string) :
  includes s x = true <-> exists pre post, s = pre +:+ x +:+ post.
Proof.
  induction s as [|c s IH]; cbn [includes].
  - rewrite orb_false_r, prefix_app. split.
    + intros [post H]. by exists "", post.
    + intros (pre & post & H). destruct pre; [by exists post|discriminate H].
  - rewrite orb_true_iff, IH, prefix_app. split.
    + intros [[post H] | (pre & post & H)].
      * by exists "", post.
      * exists (String c pre), post. by rewrite string_app_cons, H.
    + intros (pre & post & H). destruct pre as [|c' pre].
      * left. by exists post.
      * right. exists pre, post. rewrite string_app_cons in H. congruence.
Qed.

Lemma includes_trans (s x y : string) :
  includes s x = true -> includes x y = true -> includes s y = true.
Proof.
  rewrite !includes_spec. intros (p1 & q1 & ->) (p2 & q2 & ->).
  exists (p1 +:+ p2), (q2 +:+ q1). by rewrite !string_app_assoc.
Qed.

(** ** Vocabulary of the further properties *)

(** What the three attempts of one turn end with: the first answer among
    the requests [fetches w], [fetches w + 1], [fetches w + 2], or the error
    of the third. *)
Definition generation_outcome (w : World) : Result string :=
  match attempt_outcome w (fetches w) with
  | Ok c => Ok c
  | Throw _ =>
    match attempt_outcome w (S (fetches w)) with
    | Ok c => Ok c
    | Throw _ => attempt_outcome w (S (S (fetches w)))
    end
  end.

(** The conversation of a turn: the one given, or the one created. *)
Definition turn_conversation (conversationId : option Id) (w : World) : Id :=
  default (next_id w) conversationId.

(** [ctx.db.patch] needs its document: the conversation that a turn is
    given exists (a turn that is given none creates its own). *)
Definition conversation_known (conversationId : option Id) (w : World) : Prop :=
  match conversationId with
  | Some c => exists d, d ∈ conversations w /\ Conversation._id d = c
  | None => True
  end.

(** The acknowledgement of a code-change request. *)
Definition acknowledgement (message : string) : string :=
  "I've captured your request for: " +:+ dq +:+ message +:+ dq
  +:+ ". This has been queued for future implementation.".

(** The importance of every stored memory lies in [0,1]. *)
Definition importance_in_range (table : list Memory.t) : Prop :=
  Forall (fun m => (0 <= Memory.importance m /\ Memory.importance m <= 1)%Q)
         table.

Definition valid_priority (p : option string) : Prop :=
  p = Some "low" \/ p = Some "medium" \/ p = Some "high".

Definition valid_category (c : option string) : Prop :=
  c = Some "feature" \/ c = Some "bugfix" \/ c = Some "refactor"
  \/ c = Some "integration".

Section DetectorProperties.

Variable toLowerCase : string -> string.

(** X1. The code-change detector returns either [{ detected: false }] with
    no other property, or [detected = true] with the utterance verbatim as
    request, a priority among low, medium, high and a category among
    feature, bugfix, refactor, integration.  Because "fix code" contains
    "fix", an utterance detected through "fix code" is always a bugfix; an
    utterance containing "integrate" or "connect to" is detected and never
    categorised as a feature; and an urgency word outranks a deferral word:
    with "urgent" present the priority is high whatever else occurs. *)
Theorem detectCodeChangeRequest_shape message history :
  let lower := toLowerCase message in
  let check := detectCodeChangeRequest toLowerCase message history in
  (detected check = false ->
   request check = None /\ priority check = None /\ category check = None) /\
  (detected check = true ->
   request check = Some message /\ valid_priority (priority check) /\
   valid_category (category check)) /\
  (includes lower "fix code" = true ->
   detected check = true /\ category check = Some "bugfix") /\
  (includes lower "integrate" = true \/ includes lower "connect to" = true ->
   detected check = true /\ category check <> Some "feature") /\
  (detected check = true -> includes lower "urgent" = true ->
   priority check = Some "high").
Proof.
  intros lower check. subst check. unfold detectCodeChangeRequest. fold lower.
  assert (Hfix : includes lower "fix code" = true -> includes lower "fix" = true).
  { intros H. by apply (includes_trans _ _ _ H). }
  assert (Hconnect : includes lower "connect to" = true ->
                     includes lower "connect" = true).
  { intros H. by apply (includes_trans _ _ _ H). }
  unfold valid_priority, valid_category.
  split; [|split; [|split; [|split]]].
  - by destruct (existsb _ _).
  - destruct (existsb _ _); [|discriminate]. cbn. intros _.
    split; [reflexivity|]. split.
    + destruct (_ || _); [tauto|]. destruct (_ || _); tauto.
    + destruct (_ || _); [tauto|]. destruct (_ || _); [tauto|].
      destruct (_ || _); tauto.
  - intros H. rewrite (Hfix H).
    assert (existsb (fun keyword => includes lower keyword) codeChangeKeywords
            = true) as ->.
    { apply existsb_exists. exists "fix code". split; [cbn; auto 20|exact H]. }
    done.
  - intros H.
    assert (existsb (fun keyword => includes lower keyword) codeChangeKeywords
            = true) as ->.
    { apply existsb_exists. destruct H as [H|H].
      - exists "integrate". split; [cbn; auto 20|exact H].
      - exists "connect to". split; [cbn; auto 20|exact H]. }
    cbn. split; [reflexivity|].
    assert (includes lower "integrate" || includes lower "connect" = true) as ->.
    { destruct H as [H|H]; [by rewrite H|]. by rewrite (Hconnect H), orb_true_r. }
    destruct (_ || _); [done|]. by destruct (_ || _).
  - destruct (existsb _ _); [|discriminate]. cbn. intros _ ->. done.
Qed.

End DetectorProperties.

Lemma detectCodeChangeRequest_shape_witness :
  includes (ascii_toLowerCase "Please FIX CODE in the parser, urgent")
           "fix code" = true /\
  category (detectCodeChangeRequest ascii_toLowerCase
              "Please FIX CODE in the parser, urgent" []) = Some "bugfix" /\
  priority (detectCodeChangeRequest ascii_toLowerCase
              "Please FIX CODE in the parser, urgent" []) = Some "high".
Proof.
  pose proof (detectCodeChangeRequest_shape ascii_toLowerCase
                "Please FIX CODE in the parser, urgent" [])
    as (_ & _ & Hfix & _ & Hurgent).
  split; [reflexivity|].
  split; [exact (proj2 (Hfix eq_refl))|].
  exact (Hurgent (proj1 (Hfix eq_refl)) eq_refl).
Defined.

(** ** The model backend call *)

Definition apology : string :=
  "I apologize, but I couldn't generate a response.".

Lemma slice_last_length {A} (n : nat) (a : list A) :
  (length (slice_last n a) <= n)%nat.
Proof. unfold slice_last. rewrite length_drop. lia. Qed.

Lemma attempt_outcome_Ok w n c :
  attempt_outcome w n = Ok c ->
  c <> "" /\
  exists status text body,
    network w n = Resolved true status text (inr body) /\
    (body = Some c \/ (c = apology /\ (body = None \/ body = Some ""))).
Proof.
  unfold attempt_outcome.
  destruct (or_string (or_string _ _) None); [|discriminate].
  destruct (network w n) as [e|ok status text data]; [discriminate|].
  destruct ok; [|discriminate]. cbn [negb].
  destruct data as [e|body]; [discriminate|].
  intros H. injection H as <-.
  destruct body as [b|]; cbn.
  - destruct (String.eqb b "") eqn:Hb.
    + apply String.eqb_eq in Hb as ->. split; [done|].
      eexists _, _, _. split; [reflexivity|]. right. auto.
    + apply String.eqb_neq in Hb. split; [exact Hb|].
      eexists _, _, _. split; [reflexivity|]. by left.
  - split; [done|]. eexists _, _, _. split; [reflexivity|]. right. auto.
Qed.

Section BackendProperties.

Variable JSON_stringify : forall A : Type, A -> string.

(** X2. One call of [generateResponse] touches no table.  Without an API
    key (neither variable set, or set to the empty string) it sends nothing
    and throws the "API key not found" error.  With a key it sends exactly
    one request, whose message list starts with the system message, ends
    with the user utterance, holds the last ten entries of the history in
    between, and so never has more than twelve entries. *)
Theorem generateResponse_request userMessage history memories0 paraContext w :
  let out := generateResponse JSON_stringify userMessage history memories0
                              paraContext w in
  (conversations (fst out) = conversations w /\
   messages (fst out) = messages w /\
   memories (fst out) = memories w /\
   codeChangeRequests (fst out) = codeChangeRequests w) /\
  match or_string (or_string (ZAI_API_KEY w) (Z_AI_API_KEY w)) None with
  | None =>
    trace (fst out) = trace w ++ [EvCall "generateResponse"] /\
    fetches (fst out) = fetches w /\
    snd out = Throw (Some (new_Error
                "Z.AI API key not found in environment variables"))
  | Some _ =>
    exists system,
      let sent := ("system", system) :: slice_last 10 history
                  ++ [("user", userMessage)] in
      trace (fst out) =
        trace w ++ [EvCall "generateResponse";
                    EvFetch "https://api.z.ai/v1/chat/completions" sent] /\
      fetches (fst out) = S (fetches w) /\
      last sent = Some ("user", userMessage) /\
      (length sent <= 12)%nat
  end.
Proof.
  intros out. subst out. rewrite generateResponse_run.
  unfold attempt_outcome.
  destruct (or_string (or_string _ _) None) as [key|];
    cbn [fst snd conversations messages memories codeChangeRequests trace
         fetches log set_trace set_fetches].
  - split; [done|]. eexists. split; [by rewrite <- app_assoc|].
    split; [reflexivity|]. split.
    + by rewrite app_comm_cons, last_snoc.
    + cbn [length]. rewrite length_app. cbn [length].
      pose proof (slice_last_length 10 history). lia.
  - done.
Qed.

(** X3. A call of [generateResponse] that returns has never an empty
    content: the backend answered the request with an ok response, and the
    content is the one of the response when that is a non-empty string and
    the apology when it is missing or empty. *)
Theorem generateResponse_content userMessage history memories0 paraContext w c :
  snd (generateResponse JSON_stringify userMessage history memories0
                        paraContext w) = Ok c ->
  c <> "" /\
  exists status text body,
    network w (fetches w) = Resolved true status text (inr body) /\
    (body = Some c \/ (c = apology /\ (body = None \/ body = Some ""))).
Proof.
  rewrite generateResponse_run. cbn [snd]. apply attempt_outcome_Ok.
Qed.

End BackendProperties.

Lemma generateResponse_content_witness :
  snd (generateResponse sample_stringify "Hello" [] [] JNull sample_world_up)
    = Ok "Good morning!" /\
  "Good morning!" <> "".
Proof.
  split; [reflexivity|].
  exact (proj1 (generateResponse_content sample_stringify "Hello" [] [] JNull
                  sample_world_up "Good morning!" eq_refl)).
Defined.

(** ** A whole turn *)

(** The time at which the user message of a turn is stored: after the calls
    that precede its mutation. *)
Definition turn_started (conversationId : option Id) (w : World) : Z :=
  match conversationId with
  | Some _ => clock w + elapse w 0
  | None => clock w + elapse w 0 + elapse w 1
  end.

(** The time that the retried generation spends waiting, and the number of
    requests it sends: read off the answers of the backend. *)
Definition generation_wait (w : World) : Z :=
  match attempt_outcome w (fetches w) with
  | Ok _ => 0
  | Throw _ =>
    match attempt_outcome w (S (fetches w)) with
    | Ok _ => 2000
    | Throw _ => 6000
    end
  end.

Definition generation_requests (w : World) : nat :=
  match or_string (or_string (ZAI_API_KEY w) (Z_AI_API_KEY w)) None with
  | None => 0
  | Some _ =>
    match attempt_outcome w (fetches w) with
    | Ok _ => 1
    | Throw _ =>
      match attempt_outcome w (S (fetches w)) with
      | Ok _ => 2
      | Throw _ => 3
      end
    end
  end.

(** An event of the retried generation. *)
Definition is_generation_event (ev : Event) : Prop :=
  match ev with
  | EvCall fn => fn = "generateResponse"
  | EvFetch _ _ | EvConsoleError _ _ | EvSetTimeout _ => True
  | _ => False
  end.

(** The document that "memories/store" writes for a candidate of the
    extraction. *)
Definition stored_candidate (userId : Id) (memory : ExtractedMemory)
    (d : Memory.t) : Prop :=
  Memory.userId d = userId /\ Memory.type d = type memory /\
  Memory.content d = content memory /\ Memory.paraContext d = None /\
  Memory.importance d = or_number (Some (importance memory)) 0.5%Q /\
  Memory.accessedCount d = 0 /\ Memory.lastAccessed d = Memory.createdAt d.

Ltac project :=
  cbn [fst snd trace messages memories codeChangeRequests conversations
       fetches clock next_id ZAI_API_KEY Z_AI_API_KEY network elapse
       log later set_trace set_next_id set_messages
       set_memories set_codeChangeRequests set_conversations set_clock
       set_fetches set_elapse].

Ltac step lem := rewrite bind_run, lem; cbv beta iota.

(** [chat], run through the retrieval of step 3, and from there to the test
    of [codeChangeCheck.detected]. *)
Ltac turn_prelude conversationId w :=
  unfold chat;
  destruct conversationId as [conversationId|];
  [ step @ret_run
  | rewrite bind_run, bind_run, Date_now_run; cbv beta iota;
    rewrite conversations_create_run; cbv beta iota ];
  (step messages_store_run;
   step messages_listByConversation_run;
   rewrite bind_run, runQuery_searchByUser_run;
   match goal with
   | |- context [has_memory ?u ?W] =>
     rewrite (has_memory_ext u W w) by reflexivity
   end).

Ltac turn_analysis :=
  cbv beta iota;
  step emit_run;
  rewrite bind_run, intent_requiresPARAContext_undefined;
  cbn [truthy]; rewrite ret_run; cbv beta iota;
  step emit_run.

Lemma generation_wait_nonneg w : 0 <= generation_wait w.
Proof.
  unfold generation_wait.
  destruct (attempt_outcome w (fetches w)); [lia|].
  destruct (attempt_outcome w (S (fetches w))); lia.
Qed.

Lemma generation_ext w w' :
  ZAI_API_KEY w' = ZAI_API_KEY w -> Z_AI_API_KEY w' = Z_AI_API_KEY w ->
  network w' = network w -> fetches w' = fetches w ->
  generation_outcome w' = generation_outcome w /\
  generation_wait w' = generation_wait w /\
  generation_requests w' = generation_requests w.
Proof.
  intros Hk1 Hk2 Hn Hf.
  unfold generation_outcome, generation_wait, generation_requests.
  by rewrite Hf, Hk1, Hk2, !(attempt_outcome_ext w w').
Qed.

Lemma updateActivity_run conversationId w :
  runMutation "conversations/updateActivity"
    (Conversations.updateActivity conversationId) w =
  match List.find (fun c => N.eqb (Conversation._id c) conversationId)
                  (conversations w) with
  | Some _ =>
    (set_conversations
       (map (fun c => if N.eqb (Conversation._id c) conversationId
                      then Conversations.touch (clock w + elapse w 0) c
                      else c))
       (later (EvRunMutation "conversations/updateActivity") w),
     Ok tt)
  | None =>
    (later (EvRunMutation "conversations/updateActivity") w,
     Throw (Some Conversations.missing_document))
  end.
Proof.
  unfold runMutation, Conversations.updateActivity.
  rewrite bind_run, call_run. cbv beta iota.
  rewrite bind_run, Date_now_run. cbv beta iota. project.
  by destruct (List.find _ (conversations w)).
Qed.

(** The store loop of [chat]: one "memories/store" per candidate, each in a
    mutation of its own. *)
Lemma store_loop_run userId extracted : forall w,
  exists W added,
    for_of extracted (fun memory =>
      let* _ := runMutation "memories/store"
                  (Memories.store userId (type memory) (content memory)
                                  None (Some (importance memory))) in
      ret tt) w = (W, Ok tt) /\
    memories W = memories w ++ added /\
    Forall2 (stored_candidate userId) extracted added /\
    conversations W = conversations w /\ messages W = messages w /\
    codeChangeRequests W = codeChangeRequests w /\
    fetches W = fetches w /\
    next_id W = (next_id w + N.of_nat (length extracted))%N /\
    trace W = trace w
              ++ replicate (length extracted) (EvRunMutation "memories/store") /\
    (time_flows w ->
     time_flows W /\ clock w <= clock W /\
     Forall (fun d => clock w <= Memory.createdAt d <= clock W) added).
Proof.
  induction extracted as [|x extracted IH]; intros w.
  - exists w, []. cbn. rewrite !app_nil_r, N.add_0_r.
    repeat split; auto. lia.
  - cbn [for_of]. rewrite bind_run, bind_run.
    unfold runMutation at 1. rewrite bind_run, call_run. cbv beta iota.
    rewrite memories_store_run, ret_run. cbv beta iota.
    match goal with
    | |- context [for_of _ _ ?w1] => destruct (IH w1)
        as (W & added & Hrun & Hmem & Hadded & Hconv & Hmsg & Hccr & Hfetch
            & Hid & Htrace & Htime)
    end.
    eexists W, (_ :: added). split; [exact Hrun|].
    revert Hmem Hconv Hmsg Hccr Hfetch Hid Htrace Htime.
    project. intros -> -> -> -> -> -> -> Htime.
    split; [by rewrite <- app_assoc|].
    split; [constructor; [by repeat split | exact Hadded]|].
    do 4 (split; [reflexivity|]).
    split; [cbn [length]; lia|].
    split; [cbn [length replicate]; by rewrite <- app_assoc|].
    intros Hflow. destruct Htime as (HW & Hclock & Hstamps).
    { intros n. project. apply Hflow. }
    revert Hclock Hstamps. project. intros Hclock Hstamps.
    pose proof (Hflow 0%nat).
    split; [exact HW|]. split; [lia|].
    constructor; [cbn [Memory.createdAt]; lia|].
    eapply Forall_impl; [exact Hstamps|]. cbv beta. intros d Hd. lia.
Qed.

Lemma extractMemories_candidates (toLowerCase : string -> string)
    userMessage assistantResponse paraContext :
  Forall (fun candidate =>
            content candidate = userMessage /\
            (importance candidate = 0.8%Q \/ importance candidate = 0.9%Q
             \/ importance candidate = 0.7%Q))
         (extractMemories toLowerCase userMessage assistantResponse paraContext).
Proof.
  unfold extractMemories. set (lower := toLowerCase userMessage).
  destruct (includes lower "i prefer" || includes lower "i like"),
           (includes lower "my goal" || includes lower "i want to"),
           (includes lower "i am" || includes lower "i have"
            || includes lower "i work");
    cbn [app];
    repeat first [apply List.Forall_nil
                 | apply List.Forall_cons; [cbn; auto 6|]].
Qed.

Lemma or_number_in_range (x : option Q) :
  (x = None \/ exists q, x = Some q /\ (0 <= q /\ q <= 1)%Q) ->
  (0 <= or_number x 0.5 /\ or_number x 0.5 <= 1)%Q.
Proof.
  assert (Hhalf : (0 <= 0.5 /\ 0.5 <= 1)%Q) by (unfold Qle; cbn; lia).
  intros [-> | (q & -> & Hq)]; cbn; [exact Hhalf|].
  by destruct (Qeq_bool q 0).
Qed.

(** The conversation of a turn is in the table when the last step of the
    turn looks for it. *)
Lemma turn_conversation_found conversationId w created :
  conversation_known conversationId w ->
  (conversationId = None ->
   exists c, c ∈ created /\ Conversation._id c = next_id w) ->
  exists d,
    List.find (fun c => N.eqb (Conversation._id c)
                              (turn_conversation conversationId w))
              (conversations w ++ created) = Some d.
Proof.
  intros Hknown Hcreated.
  assert (Hin : exists c, c ∈ conversations w ++ created /\
                  Conversation._id c = turn_conversation conversationId w).
  { destruct conversationId as [c|]; cbn in *.
    - destruct Hknown as (d & Hd & Hid). exists d.
      split; [|exact Hid]. apply elem_of_app. by left.
    - destruct (Hcreated eq_refl) as (c & Hc & Hid). exists c.
      split; [|exact Hid]. apply elem_of_app. by right. }
  destruct Hin as (c & Hc & Hid).
  destruct (List.find _ (conversations w ++ created)) as [d|] eqn:Hfind;
    [by exists d|].
  apply list_elem_of_In in Hc.
  pose proof (find_none _ _ Hfind c Hc) as Hno. cbn in Hno.
  by rewrite Hid, N.eqb_refl in Hno.
Qed.

Section TurnProperties.

Variable toLowerCase : string -> string.
Variable JSON_stringify : forall A : Type, A -> string.
Variable gather : string -> Id -> M JsValue.

(** The retried generation ends with [generation_outcome], touches no table
    and hands out no id; it sends [generation_requests] requests and waits
    [generation_wait] milliseconds between its attempts. *)
Lemma generation_run userMessage history memories0 paraContext context W :
  exists W',
    executeWithFaultTolerance
      (generateResponse JSON_stringify userMessage history memories0 paraContext)
      context W = (W', generation_outcome W) /\
    conversations W' = conversations W /\ messages W' = messages W /\
    memories W' = memories W /\
    codeChangeRequests W' = codeChangeRequests W /\
    next_id W' = next_id W /\ elapse W' = elapse W /\
    fetches W' = (fetches W + generation_requests W)%nat /\
    clock W' = clock W + generation_wait W.
Proof.
  rewrite executeWithFaultTolerance_unroll.
  unfold generation_outcome, generation_wait, generation_requests.
  destruct (or_string (or_string (ZAI_API_KEY W) (Z_AI_API_KEY W)) None)
    as [key|] eqn:Hkey.
  2: rewrite (attempt_outcome_no_key W (S (fetches W)) (fetches W) Hkey).
  2: rewrite (attempt_outcome_no_key W (S (S (fetches W))) (fetches W) Hkey).
  all: rewrite generateResponse_run, Hkey.
  all: destruct (attempt_outcome W (fetches W)) as [c1|e1] eqn:H1; cbv beta iota;
       [eexists; split; [reflexivity|]; project; repeat split; lia|].
  all: rewrite generateResponse_run, backoff_eq; project.
  all: rewrite Hkey, (attempt_outcome_ext W) by reflexivity.
  1: destruct (attempt_outcome W (S (fetches W))) as [c2|e2] eqn:H2.
  3: rewrite H1.
  all: cbv beta iota.
  1: eexists; split; [reflexivity|]; project; repeat split; lia.
  all: rewrite generateResponse_run, backoff_eq; project.
  all: rewrite Hkey, (attempt_outcome_ext W) by reflexivity.
  1: destruct (attempt_outcome W (S (S (fetches W)))) as [c3|e3] eqn:H3.
  3: rewrite H1.
  all: cbv beta iota.
  all: eexists; split; [reflexivity|]; project; repeat split; lia.
Qed.

(** One turn, in full: what [chat] returns and what it leaves in the
    tables, by the four ways a turn can end. *)
Lemma chat_run message userId conversationId w :
  let out := chat toLowerCase JSON_stringify gather
                  message userId conversationId w in
  let conv := turn_conversation conversationId w in
  let created :=
    match conversationId with
    | Some _ => []
    | None => [Conversation.mk (next_id w) userId "cli"
                 ("cli-" +:+ Number_toString (clock w))
                 (clock w + elapse w 0) (clock w + elapse w 0) "active"]
    end in
  let first :=
    match conversationId with
    | Some _ => next_id w
    | None => N.succ (next_id w)
    end in
  let user_doc :=
    Message.mk first conv "user" message Metadata.empty
               (turn_started conversationId w) in
  let history :=
    take 20 (Messages.by_conversation conv (messages w ++ [user_doc])) in
  let check := detectCodeChangeRequest toLowerCase message history in
  if has_memory userId w
  then
    snd out = Throw (Some Memories.patch_error) /\
    conversations (fst out) = conversations w ++ created /\
    messages (fst out) = messages w ++ [user_doc] /\
    memories (fst out) = memories w /\
    codeChangeRequests (fst out) = codeChangeRequests w /\
    fetches (fst out) = fetches w /\
    (time_flows w -> turn_started conversationId w <= clock (fst out))
  else if existsb (fun keyword => includes (toLowerCase message) keyword)
                  codeChangeKeywords
  then
    snd out = Ok (code_change_request (acknowledgement message) (Some message)) /\
    conversations (fst out) = conversations w ++ created /\
    messages (fst out) = messages w ++ [user_doc] /\
    memories (fst out) = memories w /\
    (exists t,
        codeChangeRequests (fst out) =
          codeChangeRequests w
          ++ [CodeChangeRequest.mk (N.succ first) userId (Some message)
                (JSON_stringify _ (slice_last 3 history))
                (priority check) (category check) "pending" t] /\
        (time_flows w -> turn_started conversationId w <= t)) /\
    fetches (fst out) = fetches w /\
    (time_flows w -> turn_started conversationId w <= clock (fst out))
  else
    match generation_outcome w with
    | Throw e =>
      snd out = Throw e /\
      conversations (fst out) = conversations w ++ created /\
      messages (fst out) = messages w ++ [user_doc] /\
      memories (fst out) = memories w /\
      codeChangeRequests (fst out) = codeChangeRequests w /\
      fetches (fst out) = (fetches w + generation_requests w)%nat /\
      (time_flows w ->
       turn_started conversationId w + generation_wait w <= clock (fst out))
    | Ok c =>
      let extracted := extractMemories toLowerCase message c JNull in
      exists t_reply t_end added,
        (time_flows w ->
         turn_started conversationId w + generation_wait w <= t_reply /\
         t_reply <= t_end /\
         Forall (fun d => turn_started conversationId w + generation_wait w
                          <= Memory.createdAt d <= t_reply) added) /\
        match List.find (fun d => N.eqb (Conversation._id d) conv)
                        (conversations w ++ created) with
        | Some _ =>
          snd out = Ok (response c (length extracted)) /\
          conversations (fst out) =
            map (fun d => if N.eqb (Conversation._id d) conv
                          then Conversations.touch t_end d else d)
                (conversations w ++ created)
        | None =>
          snd out = Throw (Some Conversations.missing_document) /\
          conversations (fst out) = conversations w ++ created
        end /\
        messages (fst out) =
          messages w
          ++ [user_doc;
              Message.mk (N.succ first + N.of_nat (length extracted))%N conv
                "assistant" c
                (Metadata.mk (Some "manager") None (Some false)
                   (Some (0 <? Z.of_nat (length extracted)))) t_reply] /\
        memories (fst out) = memories w ++ added /\
        Forall2 (stored_candidate userId) extracted added /\
        codeChangeRequests (fst out) = codeChangeRequests w /\
        fetches (fst out) = (fetches w + generation_requests w)%nat /\
        clock (fst out) = t_end
    end.
Proof.
  intros out.
  assert (E : chat toLowerCase JSON_stringify gather
                   message userId conversationId w = out) by reflexivity.
  clearbody out. revert E. turn_prelude conversationId w.
  all: destruct (has_memory userId w) eqn:Hmem0.
  1,3: intros <-; project; cbn [turn_conversation default turn_started];
       rewrite ?app_nil_r; repeat split; try reflexivity;
       intros Hflow;
       pose proof (Hflow 0%nat); pose proof (Hflow 1%nat);
       pose proof (Hflow 2%nat); pose proof (Hflow 3%nat); lia.
  all: turn_analysis.
  all: rewrite detected_existsb.
  all: destruct (existsb _ codeChangeKeywords) eqn:Hdet.
  1,3: rewrite detected_request by (by rewrite detected_existsb).
  1,2: step codeChangeRequests_create_run; rewrite ret_run.
  1,2: intros <-; project; cbn [turn_conversation default turn_started];
       rewrite ?app_nil_r; repeat split; try reflexivity.
  1-4: try (eexists; split; [reflexivity|]); intros Hflow;
       pose proof (Hflow 0%nat); pose proof (Hflow 1%nat);
       pose proof (Hflow 2%nat); pose proof (Hflow 3%nat);
       pose proof (Hflow 4%nat); lia.
  all: rewrite bind_run.
  all: match goal with
       | |- context [executeWithFaultTolerance
                       (generateResponse _ ?um ?h ?m ?p) ?c ?W] =>
         destruct (generation_run um h m p c W)
           as (W' & Hrun & Hconv & Hmsg & Hmem & Hccr & Hid & Hel & Hfetch
               & Hclock);
         rewrite Hrun;
         destruct (generation_ext w W) as (-> & Hwait & Hreq);
           [reflexivity..|];
         rewrite Hwait in Hclock; rewrite Hreq in Hfetch; clear Hwait Hreq
       end.
  all: revert Hconv Hmsg Hmem Hccr Hid Hel Hfetch Hclock; project.
  all: intros Hconv Hmsg Hmem Hccr Hid Hel Hfetch Hclock.
  all: destruct (generation_outcome w) as [c|e]; cbv beta iota.
  2,4: intros <-; cbn [fst snd turn_conversation default turn_started];
       rewrite Hconv, Hmsg, Hmem, Hccr, Hfetch, Hclock, ?app_nil_r;
       repeat split; try reflexivity;
       intros Hflow;
       pose proof (Hflow 0%nat); pose proof (Hflow 1%nat);
       pose proof (Hflow 2%nat); pose proof (Hflow 3%nat); lia.
  all: step emit_run; rewrite bind_run.
  all: match goal with
       | |- context [for_of ?ex _ ?W1] =>
         destruct (store_loop_run userId ex W1)
           as (W2 & added & Hloop & Hmem2 & Hadded & Hconv2 & Hmsg2 & Hccr2
               & Hfetch2 & Hid2 & _ & Htime2);
         rewrite Hloop
       end.
  all: revert Hmem2 Hconv2 Hmsg2 Hccr2 Hfetch2 Hid2 Htime2; project.
  all: intros Hmem2 Hconv2 Hmsg2 Hccr2 Hfetch2 Hid2 Htime2; cbv beta iota.
  all: step messages_store_run; rewrite bind_run, updateActivity_run.
  all: project; rewrite Hconv2, Hconv.
  all: destruct (List.find _ _) as [d|] eqn:Hfind; cbv beta iota; rewrite ?ret_run.
  all: intros <-; project;
       cbn [turn_conversation default from_option id turn_started].
  all: exists (clock W2 + elapse W2 0), (clock W2 + elapse W2 0 + elapse W2 1),
         added.
  all: rewrite Hid2, Hmsg2, Hccr2, Hmem2, Hfetch2, Hmsg, Hmem, Hccr, Hid, Hfetch.
  all: rewrite <- ?app_assoc, ?app_nil_r.
  all: rewrite ?Hfind, ?Hconv2, ?Hconv, ?app_nil_r.
  all: (split; [|repeat split; try reflexivity; exact Hadded]).
  all: intros Hflow.
  all: pose proof (Hflow 0%nat); pose proof (Hflow 1%nat);
       pose proof (Hflow 2%nat); pose proof (Hflow 3%nat).
  all: destruct Htime2 as (Hflow2 & Hclock2 & Hstamps);
       [intros n; project; rewrite Hel; apply Hflow|].
  all: pose proof (Hflow2 0%nat); pose proof (Hflow2 1%nat).
  all: (split; [lia|]); (split; [lia|]).
  all: eapply Forall_impl; [exact Hstamps|]; cbv beta; intros m Hm; lia.
Qed.

(** What the store loop wrote for the candidates of an utterance. *)
Lemma stored_candidates userId message c added :
  Forall2 (stored_candidate userId)
          (extractMemories toLowerCase message c JNull) added ->
  length added = length (extractMemories toLowerCase message c JNull) /\
  Forall (fun m =>
            Memory.userId m = userId /\ Memory.content m = message /\
            Memory.accessedCount m = 0 /\ Memory.paraContext m = None /\
            (Memory.importance m = 0.8%Q \/ Memory.importance m = 0.9%Q
             \/ Memory.importance m = 0.7%Q) /\
            Memory.lastAccessed m = Memory.createdAt m)
         added.
Proof.
  intros Hadded. split; [symmetry; exact (Forall2_length _ _ _ Hadded)|].
  pose proof (extractMemories_candidates toLowerCase message c JNull) as Hall.
  induction Hadded as [|x d extracted added Hd _ IH]; [constructor|].
  apply Forall_cons in Hall as [[Hcontent Himp] Hall].
  constructor; [|exact (IH Hall)].
  destruct Hd as (Hu & _ & Hc & Hp & Hi & Hn & Hl).
  split; [exact Hu|]. split; [by rewrite Hc|].
  do 2 (split; [assumption|]). split; [|exact Hl].
  rewrite Hi. destruct Himp as [-> | [-> | ->]]; cbn; auto.
Qed.

(** On a known conversation the last step of a turn finds its document. *)
Ltac known_conversation H Hknown :=
  match type of H with
  | context [List.find _ (conversations ?w ++ ?created)] =>
    match type of Hknown with
    | conversation_known ?conversationId _ =>
      let d := fresh "d" in
      let Hfind := fresh "Hfind" in
      destruct (turn_conversation_found conversationId w created Hknown)
        as (d & Hfind);
      [ intros ->; eexists;
        (split; [apply list_elem_of_singleton; reflexivity | reflexivity])
      | rewrite Hfind in H ]
    end
  end.

(** X4. What a turn on a known conversation returns is decided by the
    memories of the user, the utterance and the backend's answers to at
    most three requests.  When the user has a stored memory, the retrieval
    of step 3 ends the turn: it throws the TypeError of [ctx.db.patch] in
    a query.  Otherwise, with a code-change keyword in the lower-cased
    utterance: the acknowledgement quoting the utterance, whose [requestId]
    is the utterance itself.  Otherwise, if one of the three attempts is
    answered: a response with the content of the first answer and the
    number of memory candidates of the utterance.  Otherwise the turn
    throws the error of the third attempt. *)
Theorem chat_result message userId conversationId w :
  conversation_known conversationId w ->
  snd (chat toLowerCase JSON_stringify gather message userId conversationId w)
  = if has_memory userId w
    then Throw (Some Memories.patch_error)
    else if existsb (fun keyword => includes (toLowerCase message) keyword)
                    codeChangeKeywords
    then Ok (code_change_request (acknowledgement message) (Some message))
    else match generation_outcome w with
         | Ok c =>
           Ok (response c
                 (length (extractMemories toLowerCase message c JNull)))
         | Throw e => Throw e
         end.
Proof.
  intros Hknown.
  pose proof (chat_run message userId conversationId w) as H. cbv zeta in H.
  destruct (has_memory userId w); [tauto|].
  destruct (existsb _ codeChangeKeywords); [tauto|].
  destruct (generation_outcome w) as [c|e]; [|tauto].
  destruct H as (t_reply & t_end & added & _ & H & _).
  known_conversation H Hknown. tauto.
Qed.

(** X5. Whatever the outcome of a turn on a known conversation, the
    messages present before it are untouched, the first message added is
    the user utterance (role "user", stamped with the time at which its
    mutation runs), and every message added belongs to the conversation of
    the turn.  A second message is added exactly when the turn returns a
    response: the assistant message, whose content is the returned content,
    marked as produced by the manager without external context, and stamped
    no earlier than the user message plus the waits of the retries; a
    code-change turn and a turn that throws add the user message only. *)
Theorem chat_messages message userId conversationId w :
  conversation_known conversationId w ->
  let out := chat toLowerCase JSON_stringify gather
                  message userId conversationId w in
  let conv := turn_conversation conversationId w in
  exists user_doc rest,
    messages (fst out) = messages w ++ user_doc :: rest /\
    Message.role user_doc = "user" /\
    Message.content user_doc = message /\
    Message.createdAt user_doc = turn_started conversationId w /\
    Forall (fun m => Message.conversationId m = conv) (user_doc :: rest) /\
    match snd out with
    | Ok (response c n) =>
      exists reply, rest = [reply] /\
        Message.role reply = "assistant" /\ Message.content reply = c /\
        Metadata.agentType (Message.metadata reply) = Some "manager" /\
        Metadata.paraContextUsed (Message.metadata reply) = Some false /\
        Metadata.memoryExtracted (Message.metadata reply)
          = Some (0 <? Z.of_nat n) /\
        (time_flows w ->
         Message.createdAt user_doc + generation_wait w
         <= Message.createdAt reply)
    | _ => rest = []
    end.
Proof.
  intros Hknown out conv. subst out conv.
  pose proof (chat_run message userId conversationId w) as H. cbv zeta in H.
  destruct (has_memory userId w);
    [destruct H as (-> & _ & -> & _); eexists _, []; by repeat constructor|].
  destruct (existsb _ codeChangeKeywords);
    [destruct H as (-> & _ & -> & _); eexists _, []; by repeat constructor|].
  destruct (generation_outcome w) as [c|e];
    [|destruct H as (-> & _ & -> & _); eexists _, []; by repeat constructor].
  destruct H as (t_reply & t_end & added & Htime & H & -> & _).
  known_conversation H Hknown.
  all: destruct H as (-> & _).
  all: eexists _, [_]; split; [reflexivity|]; do 3 (split; [reflexivity|]).
  all: (split; [by repeat constructor|]).
  all: eexists; repeat split; cbn [Message.createdAt]; intros Hflow.
  all: exact (proj1 (Htime Hflow)).
Qed.

(** X6. Whatever the outcome of a turn on a known conversation, the
    memories present before it stay as they are: no document is changed,
    the retrieval of step 3 included.  Memories are appended only by a turn
    that returns a response, and then exactly as many as the response
    reports in [memoriesExtracted]; each belongs to the user, holds the
    utterance verbatim, has access count 0, no context link, importance
    0.8, 0.9 or 0.7, and the same time of creation and of last access. *)
Theorem chat_memories message userId conversationId w :
  conversation_known conversationId w ->
  let out := chat toLowerCase JSON_stringify gather
                  message userId conversationId w in
  exists added,
    memories (fst out) = memories w ++ added /\
    Forall (fun m =>
              Memory.userId m = userId /\ Memory.content m = message /\
              Memory.accessedCount m = 0 /\ Memory.paraContext m = None /\
              (Memory.importance m = 0.8%Q \/ Memory.importance m = 0.9%Q
               \/ Memory.importance m = 0.7%Q) /\
              Memory.lastAccessed m = Memory.createdAt m)
           added /\
    match snd out with
    | Ok (response c n) => length added = n
    | _ => added = []
    end.
Proof.
  intros Hknown out. subst out.
  pose proof (chat_run message userId conversationId w) as H. cbv zeta in H.
  destruct (has_memory userId w);
    [destruct H as (-> & _ & _ & -> & _); exists []; by rewrite app_nil_r|].
  destruct (existsb _ codeChangeKeywords);
    [destruct H as (-> & _ & _ & -> & _); exists []; by rewrite app_nil_r|].
  destruct (generation_outcome w) as [c|e];
    [|destruct H as (-> & _ & _ & -> & _); exists []; by rewrite app_nil_r].
  destruct H as (t_reply & t_end & added & _ & H & _ & -> & Hadded & _).
  apply stored_candidates in Hadded as [Hlen Hadded].
  known_conversation H Hknown.
  all: destruct H as (-> & _).
  all: exists added; by repeat split.
Qed.

(** X7. When no conversation id is given, a turn creates exactly one
    conversation: owned by the user, platform "cli", status "active", with
    the channel "cli-<time>" where <time> is the clock that the action read
    before it called the mutation, and with the start time that the
    mutation read, which is no earlier.  When an id is given it creates
    none.  The activity time of the turn's conversation is set only by a
    turn that returns a response, and then to the time at which the turn
    ends, which is no earlier than the time of the user message plus the
    waits of the retries; every other turn leaves every activity time as
    it was. *)
Theorem chat_conversations message userId conversationId w :
  let out := chat toLowerCase JSON_stringify gather
                  message userId conversationId w in
  let conv := turn_conversation conversationId w in
  exists created,
    match conversationId with
    | Some _ => created = []
    | None =>
      exists t,
        created = [Conversation.mk conv userId "cli"
                     ("cli-" +:+ Number_toString (clock w)) t t "active"] /\
        (time_flows w -> clock w <= t)
    end /\
    match snd out with
    | Ok (response _ _) =>
      conversations (fst out) =
        map (fun d => if N.eqb (Conversation._id d) conv
                      then Conversations.touch (clock (fst out)) d else d)
            (conversations w ++ created) /\
      (time_flows w ->
       turn_started conversationId w + generation_wait w <= clock (fst out))
    | _ => conversations (fst out) = conversations w ++ created
    end.
Proof.
  intros out conv. subst out conv.
  pose proof (chat_run message userId conversationId w) as H. cbv zeta in H.
  exists (match conversationId with
          | Some _ => []
          | None => [Conversation.mk (next_id w) userId "cli"
                       ("cli-" +:+ Number_toString (clock w))
                       (clock w + elapse w 0) (clock w + elapse w 0) "active"]
          end).
  split.
  { destruct conversationId; [reflexivity|].
    eexists. split; [reflexivity|]. intros Hflow.
    pose proof (Hflow 0%nat). lia. }
  destruct (has_memory userId w);
    [destruct H as (-> & -> & _); by destruct conversationId|].
  destruct (existsb _ codeChangeKeywords);
    [destruct H as (-> & -> & _); by destruct conversationId|].
  destruct (generation_outcome w) as [c|e];
    [|destruct H as (-> & -> & _); by destruct conversationId].
  destruct H as (t_reply & t_end & added & Htime & H & _ & _ & _ & _ & _
                 & Hclock).
  destruct (List.find _ _); destruct H as (-> & ->).
  - rewrite Hclock. split; [by destruct conversationId|].
    intros Hflow. destruct (Htime Hflow) as (H1 & H2 & _). lia.
  - by destruct conversationId.
Qed.

(** X8. The range of importance is kept by the core: if every stored
    memory has its importance in [0,1], this still holds after a turn
    (whatever its outcome), after a retrieval, and after a store whose
    importance argument is omitted or lies in [0,1]. *)
Theorem importance_in_range_kept message userId conversationId w :
  importance_in_range (memories w) ->
  importance_in_range
    (memories (fst (chat toLowerCase JSON_stringify gather
                         message userId conversationId w))) /\
  (forall limit,
      importance_in_range
        (memories (fst (Memories.searchByUser userId limit w)))) /\
  (forall type content paraContext importance,
      (importance = None \/
       exists q, importance = Some q /\ (0 <= q /\ q <= 1)%Q) ->
      importance_in_range
        (memories (fst (Memories.store userId type content paraContext
                                       importance w)))).
Proof.
  intros Hrange. split; [|split].
  - pose proof (chat_run message userId conversationId w) as H. cbv zeta in H.
    destruct (has_memory userId w);
      [destruct H as (_ & _ & _ & -> & _); exact Hrange|].
    destruct (existsb _ codeChangeKeywords);
      [destruct H as (_ & _ & _ & -> & _); exact Hrange|].
    destruct (generation_outcome w) as [c|e];
      [|destruct H as (_ & _ & _ & -> & _); exact Hrange].
    destruct H as (t_reply & t_end & added & _ & _ & _ & -> & Hadded & _).
    apply Forall_app. split; [exact Hrange|].
    apply stored_candidates in Hadded as [_ Hadded].
    eapply Forall_impl; [exact Hadded|]. cbv beta.
    intros m (_ & _ & _ & _ & Himp & _).
    destruct Himp as [-> | [-> | ->]]; vm_compute; (split; discriminate).
  - intros limit. rewrite memories_searchByUser_run. exact Hrange.
  - intros type0 content0 paraContext importance0 Himp.
    rewrite memories_store_run. cbn [fst memories set_memories set_next_id].
    apply Forall_app. split; [exact Hrange|].
    constructor; [|constructor]. cbn [Memory.importance].
    by apply or_number_in_range.
Qed.

End TurnProperties.
(** A world whose user 1 has the conversation 7 and no memory, whose user 2
    has one memory, and whose backend answers every request. *)
Definition sample_world_known : World :=
  mkWorld [Conversation.mk 7%N 1%N "cli" "cli-0" 0 0 "active"] []
          [Memory.mk 20%N 2%N "goal" "my goal is to ship" None 0.9%Q 0 500 500]
          []
          100%N 1000 (Some "key") None
          (fun _ => Resolved true 200 "" (inr (Some "Good morning!"))) 0 []
          sample_elapse.

Lemma sample_conversation_known :
  conversation_known (Some 7%N) sample_world_known.
Proof. eexists. split; [apply list_elem_of_singleton|]; reflexivity. Defined.

Lemma sample_time_flows : time_flows sample_world_known.
Proof. intros n. cbn. unfold sample_elapse. lia. Defined.

Lemma chat_result_witness :
  conversation_known (Some 7%N) sample_world_known /\
  snd (chat ascii_toLowerCase sample_stringify sample_gather
            "I like tea" 1%N (Some 7%N) sample_world_known)
  = Ok (response "Good morning!" 1) /\
  snd (chat ascii_toLowerCase sample_stringify sample_gather
            "I like tea" 2%N (Some 7%N) sample_world_known)
  = Throw (Some (mkError "TypeError" "ctx.db.patch is not a function")).
Proof.
  split; [exact sample_conversation_known|]. split.
  - exact (eq_trans
             (chat_result ascii_toLowerCase sample_stringify sample_gather
                "I like tea" 1%N (Some 7%N) sample_world_known
                sample_conversation_known)
             eq_refl).
  - exact (eq_trans
             (chat_result ascii_toLowerCase sample_stringify sample_gather
                "I like tea" 2%N (Some 7%N) sample_world_known
                sample_conversation_known)
             eq_refl).
Defined.

Lemma chat_messages_witness :
  conversation_known (Some 7%N) sample_world_known /\
  exists user_doc rest,
    messages (fst (chat ascii_toLowerCase sample_stringify sample_gather
                        "I like tea" 1%N (Some 7%N) sample_world_known))
    = user_doc :: rest /\
    Message.content user_doc = "I like tea" /\
    Message.createdAt user_doc = 1005.
Proof.
  split; [exact sample_conversation_known|].
  destruct (chat_messages ascii_toLowerCase sample_stringify sample_gather
              "I like tea" 1%N (Some 7%N) sample_world_known
              sample_conversation_known)
    as (user_doc & rest & Hmessages & _ & Hcontent & Hstamp & _).
  exists user_doc, rest.
  split; [exact Hmessages|]. split; [exact Hcontent | exact Hstamp].
Defined.

Lemma chat_memories_witness :
  conversation_known (Some 7%N) sample_world_known /\
  exists added,
    memories (fst (chat ascii_toLowerCase sample_stringify sample_gather
                        "I like tea" 1%N (Some 7%N) sample_world_known))
    = memories sample_world_known ++ added /\
    length added = 1%nat /\
    Forall (fun m => Memory.content m = "I like tea") added.
Proof.
  split; [exact sample_conversation_known|].
  pose proof (chat_memories ascii_toLowerCase sample_stringify sample_gather
                "I like tea" 1%N (Some 7%N) sample_world_known
                sample_conversation_known) as H.
  cbv zeta in H. destruct H as (added & Hmemories & Hadded & Hcount).
  assert (E : snd (chat ascii_toLowerCase sample_stringify sample_gather
                        "I like tea" 1%N (Some 7%N) sample_world_known)
              = Ok (response "Good morning!" 1)) by reflexivity.
  rewrite E in Hcount.
  exists added. split; [exact Hmemories|]. split; [exact Hcount|].
  eapply Forall_impl; [exact Hadded|]. intros m Hm. exact (proj1 (proj2 Hm)).
Defined.

Lemma chat_conversations_witness :
  exists t,
    1005 <= t /\
    conversations
      (fst (chat ascii_toLowerCase sample_stringify sample_gather
                 "I like tea" 1%N (Some 7%N) sample_world_known))
    = [Conversation.mk 7%N 1%N "cli" "cli-0" 0 t "active"].
Proof.
  pose proof (chat_conversations ascii_toLowerCase sample_stringify
                sample_gather "I like tea" 1%N (Some 7%N) sample_world_known)
    as H.
  cbv zeta in H. destruct H as (created & -> & H).
  assert (E : snd (chat ascii_toLowerCase sample_stringify sample_gather
                        "I like tea" 1%N (Some 7%N) sample_world_known)
              = Ok (response "Good morning!" 1)) by reflexivity.
  rewrite E in H. destruct H as (-> & Ht).
  eexists. split; [exact (Ht sample_time_flows) | reflexivity].
Defined.

Lemma sample_known_in_range :
  importance_in_range (memories sample_world_known).
Proof.
  repeat first [apply List.Forall_nil | apply List.Forall_cons];
    vm_compute; split; discriminate.
Defined.

Lemma importance_in_range_kept_witness :
  importance_in_range (memories sample_world_known) /\
  importance_in_range
    (memories (fst (chat ascii_toLowerCase sample_stringify sample_gather
                         "I want to learn Rocq" 1%N (Some 7%N)
                         sample_world_known))) /\
  importance_in_range
    (memories (fst (Memories.store 1%N "fact" "I work remotely" None
                                   (Some 0.3%Q) sample_world_known))).
Proof.
  split; [exact sample_known_in_range|]. split.
  - exact (proj1 (importance_in_range_kept ascii_toLowerCase sample_stringify
                    sample_gather "I want to learn Rocq" 1%N (Some 7%N)
                    sample_world_known sample_known_in_range)).
  - apply (proj2 (proj2 (importance_in_range_kept ascii_toLowerCase
                    sample_stringify sample_gather "I want to learn Rocq" 1%N
                    (Some 7%N) sample_world_known sample_known_in_range))).
    right. exists 0.3%Q. split; [reflexivity|].
    vm_compute. split; discriminate.
Defined.

(** ** The requests of a turn *)

(** The history a turn reads in step 2: the first twenty messages of its
    conversation, after the utterance of the turn was stored. *)
Definition turn_history (message : string) (conversationId : option Id)
    (w : World) : list Message.t :=
  let conv := turn_conversation conversationId w in
  let first := match conversationId with
               | Some _ => next_id w
               | None => N.succ (next_id w)
               end in
  take 20 (Messages.by_conversation conv
             (messages w
              ++ [Message.mk first conv "user" message Metadata.empty
                             (turn_started conversationId w)])).

(** An event that, if it is a request to the backend, goes to the chat
    completions endpoint and carries the message list [sent]. *)
Definition is_request_of (sent : list (string * string)) (ev : Event) : Prop :=
  match ev with
  | EvFetch url messages =>
    url = "https://api.z.ai/v1/chat/completions" /\ messages = sent
  | _ => True
  end.

#[export] Hint Extern 1 (is_request_of _ _) => exact I : appends.

Lemma slice_last_snoc {A} (n : nat) (a : list A) (x : A) :
  slice_last (S n) (a ++ [x]) = slice_last n a ++ [x].
Proof.
  unfold slice_last. rewrite length_app. cbn [length].
  replace (length a + 1 - S n)%nat with (length a - n)%nat by lia.
  rewrite drop_app_le by lia. reflexivity.
Qed.

Section TurnRequests.

Variable toLowerCase : string -> string.
Variable JSON_stringify : forall A : Type, A -> string.
Variable gather : string -> Id -> M JsValue.

Lemma appends_generateResponse_payload userMessage history memories0
    paraContext :
  appends
    (is_request_of
       (("system", systemPrompt JSON_stringify memories0 paraContext)
        :: slice_last 10 history ++ [("user", userMessage)]))
    (generateResponse JSON_stringify userMessage history memories0
                      paraContext).
Proof.
  intros w. rewrite generateResponse_run.
  destruct (or_string (or_string _ _) None);
    cbn [fst trace log set_trace set_fetches].
  - eexists [_; _]. split; [by rewrite <- app_assoc|].
    repeat constructor.
  - eexists [_]. split; [reflexivity|]. repeat constructor.
Qed.

(** The first attempt of the retried generation, when an API key is set:
    the request goes out, whatever follows. *)
Lemma generation_first_request userMessage history memories0 paraContext
    context W :
  or_string (or_string (ZAI_API_KEY W) (Z_AI_API_KEY W)) None <> None ->
  let sent := ("system", systemPrompt JSON_stringify memories0 paraContext)
              :: slice_last 10 history ++ [("user", userMessage)] in
  exists evs,
    trace (fst (executeWithFaultTolerance
                  (generateResponse JSON_stringify userMessage history
                                    memories0 paraContext) context W))
    = trace W
      ++ [EvCall "generateResponse";
          EvFetch "https://api.z.ai/v1/chat/completions" sent] ++ evs /\
    Forall (is_request_of sent) evs.
Proof.
  intros Hkey sent. unfold executeWithFaultTolerance.
  change (Z.to_nat maxRetries) with 3%nat. cbn [retry_loop].
  rewrite try_catch_run, generateResponse_run.
  destruct (or_string (or_string _ _) None) as [key|]; [clear Hkey|done].
  destruct (attempt_outcome W (fetches W)) as [c|e].
  - exists []. project. split; [by rewrite <- app_assoc | constructor].
  - match goal with
    | |- context [bind ?m ?k ?W1] =>
      assert (Happ : appends (is_request_of sent) (bind m k))
    end.
    { apply appends_bind; [apply appends_emit; exact I|]. intros ?.
      apply appends_bind;
        [apply appends_if; [apply appends_setTimeout; exact I
                           |apply appends_ret]|].
      intros ?.
      exact (appends_retry_loop (is_request_of sent) _
               (appends_generateResponse_payload userMessage history
                  memories0 paraContext)
               (fun _ _ => I) (fun _ => I) 2%nat (1 + 1) e). }
    match goal with
    | |- context [bind ?m ?k ?W1] => destruct (Happ W1) as (evs & Ht & Hevs)
    end.
    exists evs. split; [|exact Hevs]. rewrite Ht. project.
    by rewrite <- !app_assoc.
Qed.

(** X10. Every request that a turn sends to the backend (there are several
    when attempts are retried) goes to the chat completions endpoint and
    carries the same message list: the system prompt without any memory and
    without external context; the last ten entries of the history read in
    step 2; the utterance.  The prompt lists no memory because a turn gets
    past step 3 only when the retrieval found none: a turn of a user with a
    stored memory sends no request and starts no attempt.  A turn of a user
    without memory and without code-change keyword sends such a request
    when an API key is set.  The history is read after the utterance was
    stored: while the conversation held fewer than twenty messages it ends
    with the utterance, which the request therefore carries twice in a row;
    once the conversation holds twenty messages the history is its first
    twenty messages, whatever was said since. *)
Theorem chat_requests message userId conversationId w :
  let out := chat toLowerCase JSON_stringify gather
                  message userId conversationId w in
  let conv := turn_conversation conversationId w in
  let history :=
    map (fun m => (Message.role m, Message.content m))
        (turn_history message conversationId w) in
  let sent :=
    ("system", systemPrompt JSON_stringify [] JNull)
    :: slice_last 10 history ++ [("user", message)] in
  (exists added,
      trace (fst out) = trace w ++ added /\
      Forall (is_request_of sent) added /\
      (has_memory userId w = false ->
       existsb (fun keyword => includes (toLowerCase message) keyword)
               codeChangeKeywords = false ->
       or_string (or_string (ZAI_API_KEY w) (Z_AI_API_KEY w)) None <> None ->
       In (EvFetch "https://api.z.ai/v1/chat/completions" sent) added) /\
      (has_memory userId w = true ->
       Forall (fun ev => is_backend_call ev = false) added)) /\
  (if (length (Messages.by_conversation conv (messages w)) <? 20)%nat
   then exists earlier,
       sent = earlier ++ [("user", message); ("user", message)]
   else turn_history message conversationId w
        = take 20 (Messages.by_conversation conv (messages w))).
Proof.
  intros out conv history sent. split.
  - set (request := EvFetch "https://api.z.ai/v1/chat/completions" sent).
    set (sending :=
           existsb (fun keyword => includes (toLowerCase message) keyword)
                   codeChangeKeywords = false /\
           or_string (or_string (ZAI_API_KEY w) (Z_AI_API_KEY w)) None
           <> None).
    assert (Hrest : forall (K : M ChatResult) W pre,
      has_memory userId w = false ->
      appends (is_request_of sent) K ->
      Forall (is_request_of sent) pre ->
      (sending -> In request pre) ->
      trace W = trace w ++ pre ->
      K W = out ->
      exists added,
        trace (fst out) = trace w ++ added /\
        Forall (is_request_of sent) added /\
        (has_memory userId w = false ->
         existsb (fun keyword => includes (toLowerCase message) keyword)
                 codeChangeKeywords = false ->
         or_string (or_string (ZAI_API_KEY w) (Z_AI_API_KEY w)) None <> None ->
         In request added) /\
        (has_memory userId w = true ->
         Forall (fun ev => is_backend_call ev = false) added)).
    { intros K W pre Hnone HK Hpre Hsent HW <-.
      destruct (HK W) as (evs & Ht & Hevs). exists (pre ++ evs).
      split; [by rewrite Ht, HW, app_assoc|].
      split; [by apply Forall_app|].
      split; [|rewrite Hnone; discriminate].
      intros _ H1 H2. apply in_or_app. left. by apply Hsent. }
    assert (E : chat toLowerCase JSON_stringify gather
                     message userId conversationId w = out) by reflexivity.
    clearbody out. revert E Hrest.
    subst request sending sent history conv. unfold turn_history.
    turn_prelude conversationId w.
    all: destruct (has_memory userId w) eqn:Hmem0.
    1,3: intros <- _; project; eexists;
         (split; [by rewrite <- !app_assoc|]);
         (split; [repeat constructor|]);
         (split; [discriminate|]); intros _; repeat constructor.
    all: turn_analysis.
    all: rewrite detected_existsb.
    all: destruct (existsb _ codeChangeKeywords) eqn:Hdet.
    all: destruct (or_string (or_string (ZAI_API_KEY w) (Z_AI_API_KEY w)) None)
           as [key|] eqn:Hkey.
    (* no request is due: whatever follows the prelude only appends *)
    1,2,4,5,6,8:
      intros E Hrest;
      match type of E with
      | ?K ?W = _ =>
        first
          [ eapply (Hrest K W
              [EvRunMutation "messages/store";
               EvRunQuery "messages/listByConversation";
               EvRunQuery "memories/searchByUser";
               EvCall "analyzeIntent";
               EvCall "detectCodeChangeRequest"] eq_refl);
            [ | | | project; by rewrite <- !app_assoc | exact E]
          | eapply (Hrest K W
              [EvRunMutation "conversations/create";
               EvRunMutation "messages/store";
               EvRunQuery "messages/listByConversation";
               EvRunQuery "memories/searchByUser";
               EvCall "analyzeIntent";
               EvCall "detectCodeChangeRequest"] eq_refl);
            [ | | | project; by rewrite <- !app_assoc | exact E] ]
      end.
    all: lazymatch goal with
         | |- Forall _ _ => repeat constructor
         | |- _ /\ _ -> _ =>
           intros [H1 H2]; first [discriminate H1 | by destruct H2]
         | |- appends _ _ => try (auto 20 with appends; fail)
         | _ => idtac
         end.
    1,2: apply appends_bind; [|auto 20 with appends].
    1,2: apply appends_executeWithFaultTolerance; [|intros; exact I..].
    1,2: apply appends_generateResponse_payload.
    (* a request is due *)
    all: rewrite bind_run.
    all: match goal with
         | |- context [executeWithFaultTolerance
                         (generateResponse _ ?um ?h ?m ?p) ?c ?W] =>
           destruct (generation_first_request um h m p c W)
             as (evs & Ht & Hevs);
           [ project; by rewrite Hkey |];
           destruct (executeWithFaultTolerance
                       (generateResponse JSON_stringify um h m p) c W)
             as [W' r]
         end.
    all: revert Ht; project; intros Ht.
    all: destruct r as [c|e]; cbv beta iota.
    2,4: change (W', @Throw ChatResult e) with (@throw ChatResult e W').
    all: intros E Hrest.
    all: match type of E with
         | ?K ?W = _ =>
           first
             [ eapply (Hrest K W
                 ([EvRunMutation "messages/store";
                   EvRunQuery "messages/listByConversation";
                   EvRunQuery "memories/searchByUser";
                   EvCall "analyzeIntent";
                   EvCall "detectCodeChangeRequest"]
                  ++ [EvCall "generateResponse"; _] ++ evs) eq_refl);
               [ | | | rewrite Ht; by rewrite <- !app_assoc | exact E]
             | eapply (Hrest K W
                 ([EvRunMutation "conversations/create";
                   EvRunMutation "messages/store";
                   EvRunQuery "messages/listByConversation";
                   EvRunQuery "memories/searchByUser";
                   EvCall "analyzeIntent";
                   EvCall "detectCodeChangeRequest"]
                  ++ [EvCall "generateResponse"; _] ++ evs) eq_refl);
               [ | | | rewrite Ht; by rewrite <- !app_assoc | exact E] ]
         end.
    all: lazymatch goal with
         | |- Forall _ _ =>
           apply Forall_app; split; [repeat constructor|];
           apply Forall_app; split; [repeat constructor | exact Hevs]
         | |- _ /\ _ -> _ =>
           intros _; apply in_or_app; right; right; left; reflexivity
         | |- appends _ _ => try (auto 20 with appends; fail)
         end.
    all: intros W0; exists []; rewrite app_nil_r; split; [reflexivity|constructor].
  - subst sent history. unfold turn_history. fold conv.
    set (old := Messages.by_conversation conv (messages w)).
    set (first := match conversationId with
                  | Some _ => next_id w
                  | None => N.succ (next_id w)
                  end).
    set (stamp := turn_started conversationId w).
    assert (Hnew : Messages.by_conversation conv
                     (messages w
                      ++ [Message.mk first conv "user" message Metadata.empty
                                     stamp])
                   = old ++ [Message.mk first conv "user" message
                                        Metadata.empty stamp]).
    { unfold Messages.by_conversation, old. rewrite filter_app. f_equal.
      rewrite filter_cons_True by reflexivity. reflexivity. }
    rewrite Hnew.
    destruct (length old <? 20)%nat eqn:Hlen.
    + apply Nat.ltb_lt in Hlen.
      rewrite take_ge by (rewrite length_app; cbn [length]; lia).
      rewrite map_app. cbn [map Message.role Message.content].
      rewrite slice_last_snoc. eexists (_ :: _).
      rewrite <- app_assoc. reflexivity.
    + apply Nat.ltb_ge in Hlen. by rewrite take_app_le.
Qed.

End TurnRequests.

(** ** Retrievals and stores of memories *)

(** The memories of a user after a store for another user. *)
Lemma by_user_store_other other table doc :
  Memory.userId doc <> other ->
  Memories.by_user other (table ++ [doc]) = Memories.by_user other table.
Proof.
  intros Hother. unfold Memories.by_user.
  rewrite filter_app, filter_cons_False, filter_nil by exact Hother.
  apply app_nil_r.
Qed.

Lemma by_user_store_same userId table doc :
  Memory.userId doc = userId ->
  Memories.by_user userId (table ++ [doc])
  = Memories.by_user userId table ++ [doc].
Proof.
  intros Hsame. unfold Memories.by_user.
  by rewrite filter_app, filter_cons_True, filter_nil by exact Hsame.
Qed.

(** X12. A retrieval writes nothing and returns nothing stored.
    [searchByUser] is registered as a query: whatever the user, the limit
    and the table, the world after the call is the world before it, so that
    what any user can read afterwards (the result of [listByType]
    included) is what they could read before; no document is bumped or
    stamped.  It returns exactly when the user has no memory, and then the
    empty list; when the user has a memory, the first pass of its update
    loop throws the TypeError of [ctx.db.patch]. *)
Theorem searchByUser_isolation userId limit w :
  let out := Memories.searchByUser userId limit w in
  fst out = w /\
  (forall other type,
      Memories.listByType other type (fst out) = Memories.listByType other type w) /\
  (Memories.by_user userId (memories w) = [] -> snd out = Ok []) /\
  (Memories.by_user userId (memories w) <> [] ->
   snd out = Throw (Some (mkError "TypeError" "ctx.db.patch is not a function"))) /\
  (forall found, snd out = Ok found ->
                 found = [] /\ Memories.by_user userId (memories w) = []).
Proof.
  intros out. subst out. rewrite memories_searchByUser_run.
  cbn [fst snd]. unfold has_memory.
  split; [reflexivity|]. split; [reflexivity|].
  destruct (Memories.by_user userId (memories w)) as [|m found0].
  - split; [reflexivity|]. split; [congruence|].
    intros found [= <-]. by split.
  - split; [discriminate|]. split; [reflexivity|]. discriminate.
Qed.

(** X13. Store, then retrieve.  Whatever the table held, the retrieval
    that follows a store for the same user throws the TypeError of
    [ctx.db.patch]: the memory just stored is not returned, and it stays in
    the table as it was stored, the last document, with access count 0.
    The store changes nothing for another user: a retrieval by another user
    ends as it would have ended before the store. *)
Theorem store_then_searchByUser userId type content paraContext importance
    limit w :
  let doc := Memory.mk (next_id w) userId type content paraContext
                       (or_number importance 0.5%Q) 0 (clock w) (clock w) in
  let w1 := fst (Memories.store userId type content paraContext importance w) in
  let out := Memories.searchByUser userId limit w1 in
  snd out = Throw (Some (mkError "TypeError" "ctx.db.patch is not a function")) /\
  memories (fst out) = memories w ++ [doc] /\
  (forall other limit',
      other <> userId ->
      snd (Memories.searchByUser other limit' w1)
      = snd (Memories.searchByUser other limit' w)).
Proof.
  intros doc w1 out. subst out w1.
  rewrite memories_store_run, memories_searchByUser_run.
  cbn [fst snd]. unfold has_memory. project. fold doc.
  rewrite by_user_store_same by reflexivity.
  split; [by destruct (Memories.by_user userId (memories w))|].
  split; [reflexivity|].
  intros other limit' Hother. rewrite !memories_searchByUser_run.
  cbn [snd]. unfold has_memory. project. fold doc.
  rewrite by_user_store_other; [reflexivity|].
  cbn [Memory.userId doc]. congruence.
Qed.

(** ** Messages: a store followed by a listing *)

(** X14. Store, then list.  After a message is stored, the listing of its
    conversation with window [n = limit || 50] returns the earlier messages
    of the conversation followed by the new one while fewer than [n] were
    there, and the first [n] earlier messages, without the new one, once
    the window is full.  The new message carries the empty metadata object
    when none is given, and the listing of any other conversation is what
    it was before the store. *)
Theorem store_then_listByConversation conversationId role content metadata
    limit other w :
  let doc := Message.mk (next_id w) conversationId role content
                        (default Metadata.empty metadata) (clock w) in
  let w1 := fst (Messages.store conversationId role content metadata w) in
  let old := Messages.by_conversation conversationId (messages w) in
  let n := or_limit limit 50 in
  snd (Messages.store conversationId role content metadata w)
  = Ok (next_id w) /\
  snd (Messages.listByConversation conversationId limit w1)
  = Ok (if (length old <? n)%nat then old ++ [doc] else take n old) /\
  (metadata = None -> Message.metadata doc = Metadata.empty) /\
  (other <> conversationId ->
   snd (Messages.listByConversation other limit w1)
   = snd (Messages.listByConversation other limit w)).
Proof.
  intros doc w1 old n.
  assert (Hw1 : messages w1 = messages w ++ [doc]) by reflexivity.
  split; [reflexivity|]. unfold Messages.listByConversation. cbn [snd].
  rewrite Hw1. unfold Messages.by_conversation. rewrite !filter_app.
  split; [|split].
  - rewrite (filter_cons_True _ doc) by reflexivity. rewrite filter_nil.
    fold (Messages.by_conversation conversationId (messages w)). fold old n.
    destruct (length old <? n)%nat eqn:Hlen.
    + apply Nat.ltb_lt in Hlen.
      by rewrite take_ge by (rewrite length_app; cbn [length]; lia).
    + apply Nat.ltb_ge in Hlen. by rewrite take_app_le.
  - by intros ->.
  - intros Hother. rewrite (filter_cons_False _ doc), filter_nil, app_nil_r.
    + reflexivity.
    + cbn. congruence.
Qed.

(** ** Conversations *)

Lemma find_fresh (table : list Conversation.t) (doc : Conversation.t) :
  Forall (fun c => (Conversation._id c < Conversation._id doc)%N) table ->
  List.find (fun c => N.eqb (Conversation._id c) (Conversation._id doc))
            (table ++ [doc]) = Some doc.
Proof.
  induction 1 as [|c table Hc _ IH]; cbn [app List.find].
  - by rewrite N.eqb_refl.
  - destruct (N.eqb_spec (Conversation._id c) (Conversation._id doc)); [lia|].
    exact IH.
Qed.

Lemma find_other (table : list Conversation.t) (doc : Conversation.t) id :
  id <> Conversation._id doc ->
  List.find (fun c => N.eqb (Conversation._id c) id) (table ++ [doc])
  = List.find (fun c => N.eqb (Conversation._id c) id) table.
Proof.
  intros Hid. induction table as [|c table IH]; cbn [app List.find].
  - destruct (N.eqb_spec (Conversation._id doc) id); [congruence|reflexivity].
  - by rewrite IH.
Qed.

Lemma find_map_id (g : Conversation.t -> Conversation.t) id table :
  (forall c, Conversation._id (g c) = Conversation._id c) ->
  List.find (fun c => N.eqb (Conversation._id c) id) (map g table)
  = g <$> List.find (fun c => N.eqb (Conversation._id c) id) table.
Proof.
  intros Hg. induction table as [|c table IH]; [reflexivity|].
  cbn [map List.find]. rewrite Hg.
  by destruct (N.eqb (Conversation._id c) id).
Qed.

Lemma find_id id table c :
  List.find (fun c => N.eqb (Conversation._id c) id) table = Some c ->
  Conversation._id c = id /\ c ∈ table.
Proof.
  intros H. apply find_some in H as [Hin Hid].
  split; [by apply N.eqb_eq | by apply list_elem_of_In].
Qed.

(** X15. Create, then get.  When the ids of the conversations table were
    all handed out already, [create] returns the next id; [get] of that id
    then returns the new conversation (of the user, on the platform and
    channel given, started and last active at the time of the call, status
    "active"); [get] of any other id returns what it returned before; and
    [listByUser] of the user gains the new conversation at its end. *)
Theorem create_then_get userId platform platformChannelId w :
  Forall (fun c => (Conversation._id c < next_id w)%N) (conversations w) ->
  let doc := Conversation.mk (next_id w) userId platform platformChannelId
                             (clock w) (clock w) "active" in
  let out := Conversations.create userId platform platformChannelId w in
  snd out = Ok (next_id w) /\
  snd (Conversations.get (next_id w) (fst out)) = Ok (Some doc) /\
  (forall id, id <> next_id w ->
     snd (Conversations.get id (fst out)) = snd (Conversations.get id w)) /\
  snd (Conversations.listByUser userId (fst out))
  = Ok (filter (fun c => Conversation.userId c = userId) (conversations w)
        ++ [doc]) /\
  next_id (fst out) = N.succ (next_id w).
Proof.
  intros Hlt doc out.
  assert (Hout : conversations (fst out) = conversations w ++ [doc])
    by reflexivity.
  split; [reflexivity|]. unfold Conversations.get, Conversations.listByUser.
  cbn [snd]. rewrite Hout. split; [|split; [|split]].
  - f_equal. apply (find_fresh (conversations w) doc). exact Hlt.
  - intros id Hid. f_equal. by apply find_other.
  - rewrite filter_app. by rewrite (filter_cons_True _ doc) by reflexivity.
  - reflexivity.
Qed.

Lemma create_then_get_witness :
  Forall (fun c => (Conversation._id c < next_id sample_world_known)%N)
         (conversations sample_world_known) /\
  snd (Conversations.get 100%N
         (fst (Conversations.create 1%N "cli" "cli-1000" sample_world_known)))
  = Ok (Some (Conversation.mk 100%N 1%N "cli" "cli-1000" 1000 1000 "active")).
Proof.
  assert (H : Forall (fun c => (Conversation._id c < next_id sample_world_known)%N)
                     (conversations sample_world_known))
    by (repeat constructor).
  split; [exact H|].
  exact (proj1 (proj2 (create_then_get 1%N "cli" "cli-1000" sample_world_known
                         H))).
Defined.

(** X16. [updateActivity] on a conversation that exists sets the time of
    last activity of that conversation to the time of the call and changes
    nothing else: [get] returns every conversation with the fields it had
    (user, platform, channel, start time and status included), the one
    updated with the new activity time; no conversation appears or
    disappears, and no other table is written. *)
Theorem updateActivity_effect conversationId w :
  conversation_known (Some conversationId) w ->
  let out := Conversations.updateActivity conversationId w in
  snd out = Ok tt /\
  (forall id,
      snd (Conversations.get id (fst out))
      = Ok ((fun c => if N.eqb id conversationId
                      then Conversations.touch (clock w) c else c)
            <$> List.find (fun c => N.eqb (Conversation._id c) id)
                          (conversations w))) /\
  (forall now c,
      Conversation._id (Conversations.touch now c) = Conversation._id c /\
      Conversation.userId (Conversations.touch now c) = Conversation.userId c /\
      Conversation.platform (Conversations.touch now c)
      = Conversation.platform c /\
      Conversation.platformChannelId (Conversations.touch now c)
      = Conversation.platformChannelId c /\
      Conversation.startedAt (Conversations.touch now c)
      = Conversation.startedAt c /\
      Conversation.status (Conversations.touch now c) = Conversation.status c /\
      Conversation.lastActivityAt (Conversations.touch now c) = now) /\
  length (conversations (fst out)) = length (conversations w) /\
  messages (fst out) = messages w /\ memories (fst out) = memories w /\
  codeChangeRequests (fst out) = codeChangeRequests w.
Proof.
  intros Hknown out.
  set (g := fun c => if N.eqb (Conversation._id c) conversationId
                     then Conversations.touch (clock w) c else c).
  assert (Hrun : out = (set_conversations (map g) w, Ok tt)).
  { subst out. unfold Conversations.updateActivity.
    rewrite bind_run, Date_now_run. cbv beta iota.
    destruct (turn_conversation_found (Some conversationId) w [] Hknown)
      as (d & Hfind); [discriminate|].
    rewrite app_nil_r in Hfind.
    cbn [turn_conversation default from_option id] in Hfind.
    by rewrite Hfind. }
  assert (Hout : conversations (fst out) = map g (conversations w))
    by (by rewrite Hrun).
  split; [by rewrite Hrun|]. split; [|split; [|split]].
  - intros id. unfold Conversations.get. cbn [snd]. rewrite Hout.
    rewrite find_map_id by (intros c; unfold g; by destruct (N.eqb _ _)).
    f_equal.
    destruct (List.find _ (conversations w)) as [c|] eqn:Hfind; [|reflexivity].
    apply find_id in Hfind as [<- _]. reflexivity.
  - intros now c. repeat split.
  - by rewrite Hout, length_map.
  - rewrite Hrun. repeat split.
Qed.

Lemma updateActivity_effect_witness :
  conversation_known (Some 7%N) sample_world_known /\
  snd (Conversations.get 7%N
         (fst (Conversations.updateActivity 7%N sample_world_known)))
  = Ok (Some (Conversation.mk 7%N 1%N "cli" "cli-0" 0 1000 "active")).
Proof.
  split; [exact sample_conversation_known|].
  exact (eq_trans
           (proj1 (proj2 (updateActivity_effect 7%N sample_world_known
                            sample_conversation_known)) 7%N)
           eq_refl).
Defined.

(** ** convex/functions/codeChangeRequests.ts: listing and status updates *)

(** The text of codeChangeRequests.ts is kept at the end of
    convex/functions/mcp/diagnostic.ts.  Its [create] is one insert of the
    arguments with status "pending" and the time of the call, which is what
    [CodeChangeRequests.create] does; its two other handlers follow. *)

Module CodeChangeRequestsRest.

(** [.withIndex("by_user", q => q.eq("userId", u))] *)
Definition by_user (u : Id) (table : list CodeChangeRequest.t)
    : list CodeChangeRequest.t :=
  filter (fun r => CodeChangeRequest.userId r = u) table.

Definition listByUser (userId : Id) : M (list CodeChangeRequest.t) :=
  fun w =>
    let requests := reverse (by_user userId (codeChangeRequests w)) in
    (w, Ok requests).

(** The object [updates] that [updateStatus] hands to [ctx.db.patch], built
    at time [now]. *)
Definition updates (status : string) (implementationNotes : option string)
    (now : Z) : gmap string JsValue :=
  let updates : gmap string JsValue := {[ "status" := JStr status ]} in
  let updates :=
    if String.eqb status "implemented"
    then <[ "implementedAt" := JNum (inject_Z now) ]> updates
    else updates in
  let updates :=
    match or_string implementationNotes None with
    | Some notes => <[ "implementationNotes" := JStr notes ]> updates
    | None => updates
    end in
  updates.

End CodeChangeRequestsRest.

(** X17. The fields that [updateStatus] patches.  The patch always sets
    [status]; it sets [implementedAt], to the time of the call, exactly
    when the new status is the string "implemented"; it sets
    [implementationNotes] exactly when notes are given and not empty; and
    it has no other property, so the user, the request, its context,
    priority, category and creation time are never rewritten, and a time of
    implementation once set is not cleared by a later status. *)
Theorem updateStatus_updates status implementationNotes now :
  let updates :=
    CodeChangeRequestsRest.updates status implementationNotes now in
  updates !! "status" = Some (JStr status) /\
  updates !! "implementedAt"
  = (if String.eqb status "implemented"
     then Some (JNum (inject_Z now)) else None) /\
  updates !! "implementationNotes"
  = JStr <$> or_string implementationNotes None /\
  (forall key,
      key <> "status" -> key <> "implementedAt" ->
      key <> "implementationNotes" -> updates !! key = None).
Proof.
  intros updates. subst updates. unfold CodeChangeRequestsRest.updates.
  destruct (String.eqb status "implemented"),
           (or_string implementationNotes None) as [notes|];
    cbn [fmap option_fmap option_map]; repeat split;
    try (intros key H1 H2 H3); by simplify_map_eq.
Qed.

Section TurnListing.

Variable toLowerCase : string -> string.
Variable JSON_stringify : forall A : Type, A -> string.
Variable gather : string -> Id -> M JsValue.

Lemma detected_valid message history :
  detected (detectCodeChangeRequest toLowerCase message history) = true ->
  valid_priority
    (priority (detectCodeChangeRequest toLowerCase message history)) /\
  valid_category
    (category (detectCodeChangeRequest toLowerCase message history)).
Proof.
  unfold detectCodeChangeRequest, valid_priority, valid_category.
  destruct (existsb _ _); [|discriminate]. cbn. intros _. split.
  - destruct (_ || _); [tauto|]. destruct (_ || _); tauto.
  - destruct (_ || _); [tauto|]. destruct (_ || _); [tauto|].
    destruct (_ || _); tauto.
Qed.

(** X18. A code-change turn is listed.  After a turn of a user without
    stored memory whose lower-cased utterance contains a code-change
    keyword, [listByUser] of the user returns the request of the turn
    first, followed by what it returned before the turn: a pending request
    holding the utterance verbatim, created no earlier than the user message
    of the turn, with a priority among low, medium, high and a category
    among feature, bugfix, refactor, integration; the listing of any other
    user is what it was.  (A user with a stored memory gets no request
    listed: the turn throws in step 3.) *)
Theorem code_change_turn_listed message userId conversationId w other :
  has_memory userId w = false ->
  existsb (fun keyword => includes (toLowerCase message) keyword)
          codeChangeKeywords = true ->
  let out := chat toLowerCase JSON_stringify gather
                  message userId conversationId w in
  (exists doc,
      snd (CodeChangeRequestsRest.listByUser userId (fst out))
      = Ok (doc :: reverse (CodeChangeRequestsRest.by_user userId
                              (codeChangeRequests w))) /\
      CodeChangeRequest.userId doc = userId /\
      CodeChangeRequest.request doc = Some message /\
      CodeChangeRequest.status doc = "pending" /\
      (time_flows w ->
       turn_started conversationId w <= CodeChangeRequest.createdAt doc) /\
      valid_priority (CodeChangeRequest.priority doc) /\
      valid_category (CodeChangeRequest.category doc)) /\
  (other <> userId ->
   snd (CodeChangeRequestsRest.listByUser other (fst out))
   = snd (CodeChangeRequestsRest.listByUser other w)).
Proof.
  intros Hnone Hdet out. subst out.
  pose proof (chat_run toLowerCase JSON_stringify gather
                message userId conversationId w) as H.
  cbv zeta in H. rewrite Hnone, Hdet in H.
  destruct H as (_ & _ & _ & _ & (t & Hccr & Ht) & _).
  unfold CodeChangeRequestsRest.listByUser. cbn [snd]. rewrite Hccr.
  unfold CodeChangeRequestsRest.by_user. rewrite !filter_app. split.
  - rewrite filter_cons_True by reflexivity. rewrite filter_nil, reverse_snoc.
    eexists. split; [reflexivity|]. cbn.
    do 3 (split; [reflexivity|]). split; [exact Ht|].
    apply detected_valid. by rewrite detected_existsb.
  - intros Hother. rewrite filter_cons_False, filter_nil, app_nil_r.
    + reflexivity.
    + cbn. congruence.
Qed.

End TurnListing.

Lemma code_change_turn_listed_witness :
  has_memory 1%N sample_world = false /\
  existsb (fun keyword =>
             includes (ascii_toLowerCase "Can you fix the urgent bug?") keyword)
          codeChangeKeywords = true /\
  exists doc,
    snd (CodeChangeRequestsRest.listByUser 1%N
           (fst (chat ascii_toLowerCase sample_stringify sample_gather
                      "Can you fix the urgent bug?" 1%N None sample_world)))
    = Ok [doc] /\
    CodeChangeRequest.request doc = Some "Can you fix the urgent bug?" /\
    CodeChangeRequest.status doc = "pending".
Proof.
  assert (H : existsb (fun keyword =>
                includes (ascii_toLowerCase "Can you fix the urgent bug?")
                         keyword)
              codeChangeKeywords = true) by reflexivity.
  split; [reflexivity|]. split; [exact H|].
  destruct (proj1 (code_change_turn_listed ascii_toLowerCase sample_stringify
                     sample_gather "Can you fix the urgent bug?" 1%N None
                     sample_world 2%N eq_refl H))
    as (doc & Hlist & _ & Hrequest & Hstatus & _).
  exists doc. split; [exact Hlist|]. split; [exact Hrequest | exact Hstatus].
Defined.

(** ** src/shared/config.ts *)

Module Config.

(** [process.env]: the variables that are set, with their values. *)
Definition Env : Type := gmap string string.

(** [s.split(sep)] for a one-character separator. *)
Fixpoint split (sep : ascii) (s : string) : list string :=
  match s with
  | EmptyString => [EmptyString]
  | String c rest =>
    if Ascii.eqb c sep then EmptyString :: split sep rest
    else match split sep rest with
         | head :: tail => String c head :: tail
         | [] => [String c EmptyString]
         end
  end.

(** [obj?.[k]]: [undefined] on [null] and [undefined], the property
    otherwise.  (The paths below never index into a string.) *)
Definition optional_index (obj : JsValue) (k : string) : JsValue :=
  match obj with
  | JObject props => get k props
  | _ => JUndefined
  end.

(** [process.env.NAME || rest] *)
Definition env_or (env : Env) (name : string) (rest : string) : string :=
  default rest (or_string (env !! name) None).

Definition config (env : Env) : JsValue :=
  JObject {[
    "convex" := JObject {[
      "deployment" := JStr (env_or env "CONVEX_DEPLOYMENT" "");
      "url" := JStr (env_or env "CONVEX_URL" "") ]};
    "discord" := JObject {[
      "token" := JStr (env_or env "DISCORD_TOKEN" "");
      "clientId" := JStr (env_or env "DISCORD_CLIENT_ID" "");
      "guildId" := JStr (env_or env "DISCORD_GUILD_ID" "") ]};
    "zai" := JObject {[
      "apiKey" := JStr (env_or env "ZAI_API_KEY"
                          (env_or env "Z_AI_API_KEY" "")) ]};
    "openai" := JObject {[
      "apiKey" := JStr (env_or env "OPENAI_API_KEY" "") ]};
    "notion" := JObject {[
      "clientSecret" := JStr (env_or env "NOTION_CLIENT_SECRET" "");
      "clientId" := JStr (env_or env "NOTION_CLIENT_ID" "") ]};
    "fastmail" := JObject {[
      "apiKey" := JStr (env_or env "FASTMAIL_API_KEY" "") ]}
  ]}.

Definition required : list string := [ "convex.url"; "zai.apiKey" ].

(** The loop of [validateConfig]: the keys of [required] whose value in
    [config] is falsy, in order. *)
Definition missing (env : Env) : list string :=
  fold_left
    (fun missing key =>
       let value := fold_left optional_index (split "." key) (config env) in
       if negb (truthy value) then missing ++ [key] else missing)
    required [].

Definition validateConfig (env : Env) : Result unit :=
  let missing := missing env in
  if (0 <? length missing)%nat
  then Throw (Some (new_Error ("Missing required environment variables: "
                               +:+ String.concat ", " missing)))
  else Ok tt.

End Config.

(** A variable that is set to a non-empty string. *)
Definition is_set (env : Config.Env) (name : string) : bool :=
  match env !! name with
  | Some value => negb (String.eqb value "")
  | None => false
  end.

Lemma env_or_truthy env name rest :
  truthy (JStr (Config.env_or env name rest))
  = is_set env name || truthy (JStr rest).
Proof.
  unfold Config.env_or, is_set, or_string.
  destruct (env !! name) as [value|]; [|reflexivity].
  destruct (String.eqb value "") eqn:Hvalue; cbn; [reflexivity|].
  by rewrite Hvalue.
Qed.

Lemma config_convex_url env :
  fold_left Config.optional_index (Config.split "." "convex.url")
            (Config.config env)
  = JStr (Config.env_or env "CONVEX_URL" "").
Proof.
  cbn [Config.split Ascii.eqb Bool.eqb fold_left]. unfold Config.config.
  cbn [Config.optional_index]. unfold get. by simplify_map_eq.
Qed.

Lemma config_zai_apiKey env :
  fold_left Config.optional_index (Config.split "." "zai.apiKey")
            (Config.config env)
  = JStr (Config.env_or env "ZAI_API_KEY" (Config.env_or env "Z_AI_API_KEY" "")).
Proof.
  cbn [Config.split Ascii.eqb Bool.eqb fold_left]. unfold Config.config.
  cbn [Config.optional_index]. unfold get. by simplify_map_eq.
Qed.

(** [validateConfig], run. *)
Lemma validateConfig_run env :
  Config.validateConfig env
  = match is_set env "CONVEX_URL",
          is_set env "ZAI_API_KEY" || is_set env "Z_AI_API_KEY" with
    | true, true => Ok tt
    | false, true =>
      Throw (Some (new_Error
        "Missing required environment variables: convex.url"))
    | true, false =>
      Throw (Some (new_Error
        "Missing required environment variables: zai.apiKey"))
    | false, false =>
      Throw (Some (new_Error
        "Missing required environment variables: convex.url, zai.apiKey"))
    end.
Proof.
  unfold Config.validateConfig, Config.missing, Config.required.
  cbn [fold_left]. rewrite config_convex_url, config_zai_apiKey.
  rewrite !env_or_truthy. cbn [truthy String.eqb negb]. rewrite !orb_false_r.
  destruct (is_set env "CONVEX_URL"),
           (is_set env "ZAI_API_KEY" || is_set env "Z_AI_API_KEY");
    reflexivity.
Qed.

(** X19. [validateConfig] looks at three environment variables only.  It
    returns when CONVEX_URL is set to a non-empty string and so is one of
    ZAI_API_KEY and Z_AI_API_KEY; otherwise it throws an error whose message
    lists exactly the missing keys, "convex.url" before "zai.apiKey".  A
    variable set to the empty string counts as missing, and no other
    variable (OpenAI, Discord, Notion, Fastmail, the deployment name)
    influences the outcome: two environments that agree on the three
    variables are validated alike. *)
Theorem validateConfig_spec env :
  Config.validateConfig env
  = (let listed :=
       (if is_set env "CONVEX_URL" then [] else ["convex.url"])
       ++ (if is_set env "ZAI_API_KEY" || is_set env "Z_AI_API_KEY"
           then [] else ["zai.apiKey"]) in
     match listed with
     | [] => Ok tt
     | _ => Throw (Some (new_Error
                           ("Missing required environment variables: "
                            +:+ String.concat ", " listed)))
     end) /\
  (forall env' : Config.Env,
      env' !! "CONVEX_URL" = env !! "CONVEX_URL" ->
      env' !! "ZAI_API_KEY" = env !! "ZAI_API_KEY" ->
      env' !! "Z_AI_API_KEY" = env !! "Z_AI_API_KEY" ->
      Config.validateConfig env' = Config.validateConfig env).
Proof.
  split.
  - rewrite validateConfig_run.
    destruct (is_set env "CONVEX_URL"),
             (is_set env "ZAI_API_KEY" || is_set env "Z_AI_API_KEY");
      reflexivity.
  - intros env' H1 H2 H3. rewrite !validateConfig_run.
    unfold is_set. by rewrite H1, H2, H3.
Qed.

Section ConfigAndBackend.

Variable JSON_stringify : forall A : Type, A -> string.

(** X20. The two readings of the Z.AI key agree.  On one environment, the
    key that config.ts puts into [config.zai.apiKey] is non-empty exactly
    when [generateResponse] finds a key ([ZAI_API_KEY], else
    [Z_AI_API_KEY], an empty string counting as unset): after
    [validateConfig] has returned, every call of [generateResponse] sends
    its request; and when both variables are unset or empty,
    [validateConfig] throws and every call of [generateResponse] throws the
    "API key not found" error without sending a request. *)
Theorem zai_key_readings_agree env w :
  ZAI_API_KEY w = env !! "ZAI_API_KEY" ->
  Z_AI_API_KEY w = env !! "Z_AI_API_KEY" ->
  (Config.validateConfig env = Ok tt ->
   forall userMessage history memories0 paraContext,
     fetches (fst (generateResponse JSON_stringify userMessage history
                                    memories0 paraContext w))
     = S (fetches w)) /\
  (is_set env "ZAI_API_KEY" || is_set env "Z_AI_API_KEY" = false ->
   Config.validateConfig env <> Ok tt /\
   forall userMessage history memories0 paraContext,
     snd (generateResponse JSON_stringify userMessage history memories0
                           paraContext w)
     = Throw (Some (new_Error
                "Z.AI API key not found in environment variables")) /\
     fetches (fst (generateResponse JSON_stringify userMessage history
                                    memories0 paraContext w)) = fetches w).
Proof.
  intros Hk1 Hk2.
  assert (Hagree :
    or_string (or_string (ZAI_API_KEY w) (Z_AI_API_KEY w)) None = None
    <-> is_set env "ZAI_API_KEY" || is_set env "Z_AI_API_KEY" = false).
  { rewrite Hk1, Hk2. unfold is_set, or_string.
    destruct (env !! "ZAI_API_KEY") as [k1|];
      [destruct (String.eqb k1 "") eqn:E1|];
      (destruct (env !! "Z_AI_API_KEY") as [k2|];
       [destruct (String.eqb k2 "") eqn:E2|]);
      cbn; rewrite ?E1, ?E2; cbn; split; congruence. }
  split.
  - rewrite validateConfig_run. intros Hvalid userMessage history memories0
      paraContext.
    rewrite generateResponse_run. cbn [fst].
    destruct (or_string (or_string _ _) None) as [key|] eqn:Hkey;
      [reflexivity|].
    rewrite (proj1 Hagree eq_refl) in Hvalid.
    by destruct (is_set env "CONVEX_URL").
  - intros Hunset. split.
    + rewrite validateConfig_run, Hunset.
      by destruct (is_set env "CONVEX_URL").
    + intros userMessage history memories0 paraContext.
      rewrite generateResponse_run. unfold attempt_outcome.
      apply Hagree in Hunset. rewrite Hunset. split; reflexivity.
Qed.

End ConfigAndBackend.

Lemma zai_key_readings_agree_witness :
  ZAI_API_KEY sample_world_no_key = (∅ : Config.Env) !! "ZAI_API_KEY" /\
  Z_AI_API_KEY sample_world_no_key = (∅ : Config.Env) !! "Z_AI_API_KEY" /\
  Config.validateConfig ∅ <> Ok tt /\
  snd (generateResponse sample_stringify "Hello" [] [] JNull sample_world_no_key)
  = Throw (Some (new_Error "Z.AI API key not found in environment variables")).
Proof.
  split; [reflexivity|]. split; [reflexivity|].
  pose proof (proj2 (zai_key_readings_agree sample_stringify ∅
                       sample_world_no_key eq_refl eq_refl) eq_refl)
    as [Hconfig Hcall].
  split; [exact Hconfig|]. exact (proj1 (Hcall "Hello" [] [] JNull)).
Defined.

(** ** convex/functions/mcp/diagnostic.ts and convex/functions/mcp/store.ts *)

Module ServerResult.
Record t := mk {
  name : string;
  status : string;                    (* "connected" | "disconnected" | "error" *)
  configured : bool;
  testData : option JsValue;
  error : option string;
  latency : option Z
}.
End ServerResult.

Module Summary.
Record t := mk {
  total : nat;
  connected : nat;
  disconnected : nat;
  errors : nat
}.
End Summary.

Module Diagnostic.
Record t := mk {
  timestamp : string;
  overallStatus : string;             (* "healthy" | "degraded" | "unhealthy" *)
  mcpServers : list ServerResult.t;
  summary : Summary.t
}.
End Diagnostic.

Module DiagnosticDoc.
Record t := mk {
  _id : Id;
  userId : Id;
  timestamp : string;
  overallStatus : string;
  mcpServers : list ServerResult.t;
  summary : Summary.t
}.
End DiagnosticDoc.

Module Mcp.

(** The table "mcpDiagnostics", the next id, and what [console.error]
    printed. *)
Record Db := mkDb {
  mcpDiagnostics : list DiagnosticDoc.t;
  next_id : Id;
  console : list (option JsError)
}.

(** The handlers of the diagnostic take the environment [env] and, for each
    test, the pair [(startTime, now)] of what [Date.now()] returns when the
    test starts and when it builds its result.  Nothing inside the [try]
    blocks of the three tests can throw (they read the environment, test a
    prefix and build objects), so their [catch] blocks do not appear. *)

(* Test Notion MCP connectivity *)
Definition testNotionMCP (env : Config.Env) (testDataRetrieval : bool)
    (times : Z * Z) : ServerResult.t :=
  let '(startTime, now) := times in
  (* Check if Notion is configured *)
  let configured :=
    is_set env "NOTION_CLIENT_SECRET" || is_set env "NOTION_ACCESS_TOKEN" in
  if negb configured then
    ServerResult.mk "Notion MCP (PARA)" "disconnected" false None
      (Some "Notion credentials not configured (NOTION_CLIENT_SECRET or NOTION_ACCESS_TOKEN)")
      None
  else if testDataRetrieval then
    let testData := JObject {[
      "databases" := JObject {[
        "projects" := JStr "1c0a0d78-5c5e-81ac-a32f-c1f488a0cfc4";
        "areas" := JStr "1c0a0d78-5c5e-816a-88dd-c77a9b9b3d78";
        "resources" := JStr "1c0a0d78-5c5e-8192-ba73-ca7b12c8317c" ]};
      "status" :=
        JStr "MCP client not yet implemented - using known database IDs from plan"
    ]} in
    ServerResult.mk "Notion MCP (PARA)" "connected" true (Some testData) None
                    (Some (now - startTime))
  else
    ServerResult.mk "Notion MCP (PARA)" "connected" true None None
                    (Some (now - startTime)).

(* Test Fastmail MCP connectivity *)
Definition testFastmailMCP (env : Config.Env) (testDataRetrieval : bool)
    (times : Z * Z) : ServerResult.t :=
  let '(startTime, now) := times in
  (* Check if Fastmail is configured *)
  let fastmailApiKey := env !! "FASTMAIL_API_KEY" in
  let configured := is_set env "FASTMAIL_API_KEY" in
  if negb configured then
    ServerResult.mk "Fastmail MCP (Email)" "disconnected" false None
      (Some "Fastmail API key not configured (FASTMAIL_API_KEY)") None
  else if testDataRetrieval then
    (* validate the API key format *)
    let isValidFormat := String.prefix "fmu1-" (default "" fastmailApiKey) in
    let testData := JObject {[
      "apiEndpoint" := JStr "https://jmap.fastmail.com";
      "jmapSupported" := JBool true;
      "status" := JStr (if isValidFormat then "API key format valid"
                        else "Invalid API key format");
      "note" :=
        JStr "MCP client not yet implemented - JMAP client integration pending"
    ]} in
    ServerResult.mk "Fastmail MCP (Email)"
                    (if isValidFormat then "connected" else "error")
                    true (Some testData) None (Some (now - startTime))
  else
    ServerResult.mk "Fastmail MCP (Email)" "connected" true None None
                    (Some (now - startTime)).

(* Test Google Calendar MCP connectivity (optional) *)
Definition testCalendarMCP (env : Config.Env) (testDataRetrieval : bool)
    (times : Z * Z) : ServerResult.t :=
  let '(startTime, now) := times in
  (* Check if Google Calendar is configured *)
  let configured :=
    is_set env "GOOGLE_CLIENT_ID" && is_set env "GOOGLE_CLIENT_SECRET" in
  if negb configured then
    ServerResult.mk "Google Calendar MCP" "disconnected" false None
      (Some "Google OAuth credentials not configured (GOOGLE_CLIENT_ID, GOOGLE_CLIENT_SECRET) - This is optional and for future implementation")
      None
  else if testDataRetrieval then
    let testData := JObject {[
      "status" :=
        JStr "OAuth configured but MCP client not implemented - Calendar integration is planned for future phases"
    ]} in
    ServerResult.mk "Google Calendar MCP" "connected" true (Some testData) None
                    (Some (now - startTime))
  else
    ServerResult.mk "Google Calendar MCP" "connected" true None None
                    (Some (now - startTime)).

(** [mcpServers.filter((s) => s.status === status).length] *)
Definition count (status : string) (mcpServers : list ServerResult.t) : nat :=
  length (filter (fun s => ServerResult.status s = status) mcpServers).

(** mcp/store.ts, [storeDiagnosticResult]; it returns
    [{ success: true, diagnosticId }]. *)
Definition storeDiagnosticResult (userId : Id) (diagnostic : Diagnostic.t)
    (db : Db) : Db * Result (bool * Id) :=
  let diagnosticId := next_id db in
  (mkDb (mcpDiagnostics db
         ++ [DiagnosticDoc.mk diagnosticId userId
               (Diagnostic.timestamp diagnostic)
               (Diagnostic.overallStatus diagnostic)
               (Diagnostic.mcpServers diagnostic)
               (Diagnostic.summary diagnostic)])
        (N.succ (next_id db)) (console db),
   Ok (true, diagnosticId)).

(** mcp/store.ts, [getRecentDiagnostics]; [limit = 10] is a default of the
    destructuring, used when [limit] is omitted only. *)
Definition getRecentDiagnostics (userId : Id) (limit : option nat) (db : Db)
    : list DiagnosticDoc.t :=
  let limit := default 10%nat limit in
  take limit
       (reverse (filter (fun d => DiagnosticDoc.userId d = userId)
                        (mcpDiagnostics db))).

(** [runMCPDiagnostic]; [store] is the mutation that [ctx.runMutation]
    dispatches to, [timestamp] what [new Date().toISOString()] returns. *)
Definition runMCPDiagnostic
    (store : Id -> Diagnostic.t -> Db -> Db * Result (bool * Id))
    (env : Config.Env) (timestamp : string)
    (notionTimes fastmailTimes calendarTimes : Z * Z)
    (userId : Id) (testDataRetrieval : option bool) (db : Db)
    : Db * Diagnostic.t :=
  let testDataRetrieval := default true testDataRetrieval in
  let mcpServers : list ServerResult.t := [] in
  (* Test 1: Notion MCP (for PARA system) *)
  let notionResult := testNotionMCP env testDataRetrieval notionTimes in
  let mcpServers := mcpServers ++ [notionResult] in
  (* Test 2: Fastmail MCP (for email operations) *)
  let fastmailResult := testFastmailMCP env testDataRetrieval fastmailTimes in
  let mcpServers := mcpServers ++ [fastmailResult] in
  (* Test 3: Google Calendar MCP (optional, for future) *)
  let calendarResult := testCalendarMCP env testDataRetrieval calendarTimes in
  let mcpServers := mcpServers ++ [calendarResult] in
  (* Calculate summary *)
  let total := length mcpServers in
  let connected := count "connected" mcpServers in
  let disconnected := count "disconnected" mcpServers in
  let errors := count "error" mcpServers in
  (* Determine overall status *)
  let overallStatus :=
    if Nat.eqb connected total then "healthy"
    else if Nat.ltb 0 connected then "degraded"
    else "unhealthy" in
  let results :=
    Diagnostic.mk timestamp overallStatus mcpServers
                  (Summary.mk total connected disconnected errors) in
  (* Store diagnostic result in database for monitoring *)
  match store userId results db with
  | (db', Ok _) => (db', results)
  | (db', Throw error) =>
    (* Don't fail the diagnostic if we can't store it *)
    (mkDb (mcpDiagnostics db') (next_id db') (console db' ++ [error]), results)
  end.

End Mcp.

(** What the diagnostic says of one server is coherent. *)
Definition coherent (retrieval : bool) (r : ServerResult.t) : Prop :=
  (ServerResult.configured r = false
   <-> ServerResult.status r = "disconnected") /\
  (is_Some (ServerResult.error r)
   <-> ServerResult.status r = "disconnected") /\
  (is_Some (ServerResult.latency r) <-> ServerResult.configured r = true) /\
  (is_Some (ServerResult.testData r)
   <-> ServerResult.configured r = true /\ retrieval = true).

(** The Fastmail key is set but does not start with "fmu1-". *)
Definition malformed_fastmail_key (env : Config.Env) : bool :=
  is_set env "FASTMAIL_API_KEY"
  && negb (String.prefix "fmu1-" (default "" (env !! "FASTMAIL_API_KEY"))).

Ltac is_Some_iff :=
  repeat match goal with
         | |- _ /\ _ => split
         | |- _ <-> _ => split
         | |- _ -> _ => intros ?
         | H : is_Some None |- _ => by destruct H
         | H : _ /\ _ |- _ => destruct H
         | |- is_Some (Some _) => by eexists
         | _ => first [reflexivity | discriminate]
         end.

Ltac test_cases :=
  cbn [ServerResult.configured ServerResult.status ServerResult.error
       ServerResult.latency ServerResult.testData ServerResult.name negb].

Lemma testNotionMCP_result env retrieval times :
  let r := Mcp.testNotionMCP env retrieval times in
  ServerResult.name r = "Notion MCP (PARA)" /\
  ServerResult.status r
  = (if is_set env "NOTION_CLIENT_SECRET" || is_set env "NOTION_ACCESS_TOKEN"
     then "connected" else "disconnected") /\
  coherent retrieval r.
Proof.
  unfold Mcp.testNotionMCP, coherent. destruct times as [startTime now].
  destruct (_ || _), retrieval; test_cases; is_Some_iff.
Qed.

Lemma testFastmailMCP_result env retrieval times :
  let r := Mcp.testFastmailMCP env retrieval times in
  ServerResult.name r = "Fastmail MCP (Email)" /\
  ServerResult.status r
  = (if negb (is_set env "FASTMAIL_API_KEY") then "disconnected"
     else if retrieval && malformed_fastmail_key env then "error"
     else "connected") /\
  coherent retrieval r.
Proof.
  unfold Mcp.testFastmailMCP, coherent, malformed_fastmail_key.
  destruct times as [startTime now].
  destruct (is_set env "FASTMAIL_API_KEY"), retrieval,
           (String.prefix "fmu1-" _); test_cases; is_Some_iff.
Qed.

Lemma testCalendarMCP_result env retrieval times :
  let r := Mcp.testCalendarMCP env retrieval times in
  ServerResult.name r = "Google Calendar MCP" /\
  ServerResult.status r
  = (if is_set env "GOOGLE_CLIENT_ID" && is_set env "GOOGLE_CLIENT_SECRET"
     then "connected" else "disconnected") /\
  coherent retrieval r.
Proof.
  unfold Mcp.testCalendarMCP, coherent. destruct times as [startTime now].
  destruct (_ && _), retrieval; test_cases; is_Some_iff.
Qed.

Lemma count_three status r1 r2 r3 :
  Mcp.count status [r1; r2; r3]
  = ((if String.eqb (ServerResult.status r1) status then 1 else 0)
     + ((if String.eqb (ServerResult.status r2) status then 1 else 0)
        + (if String.eqb (ServerResult.status r3) status then 1 else 0)))%nat.
Proof.
  unfold Mcp.count. rewrite !filter_cons, filter_nil.
  destruct (String.eqb_spec (ServerResult.status r1) status),
           (String.eqb_spec (ServerResult.status r2) status),
           (String.eqb_spec (ServerResult.status r3) status);
    repeat match goal with
           | |- context [decide ?P] => destruct (decide P); [|try contradiction]
           end; try contradiction; reflexivity.
Qed.

(** X21. The report of the MCP diagnostic.  Whatever the environment and
    whatever becomes of the attempt to store it, the report lists the three
    servers Notion, Fastmail and Google Calendar in this order; the summary
    counts three servers, each as connected, disconnected or in error; a
    server is disconnected exactly when it is not configured, and then (and
    only then) carries an error message, while latency is reported for the
    configured servers and test data for the configured servers of a run
    with data retrieval.  Only Fastmail can be in error: when data
    retrieval is on and its key is set but does not start with "fmu1-".
    The overall status is "healthy" when all three are connected,
    "unhealthy" when none is and "degraded" otherwise; in particular it is
    never "healthy" without both Google variables, and a malformed Fastmail
    key goes unnoticed when data retrieval is off. *)
Theorem runMCPDiagnostic_report store env timestamp notionTimes fastmailTimes
    calendarTimes userId testDataRetrieval db :
  let report :=
    snd (Mcp.runMCPDiagnostic store env timestamp notionTimes fastmailTimes
                              calendarTimes userId testDataRetrieval db) in
  let retrieval := default true testDataRetrieval in
  let servers := Diagnostic.mcpServers report in
  let s := Diagnostic.summary report in
  let notion :=
    is_set env "NOTION_CLIENT_SECRET" || is_set env "NOTION_ACCESS_TOKEN" in
  let google :=
    is_set env "GOOGLE_CLIENT_ID" && is_set env "GOOGLE_CLIENT_SECRET" in
  Diagnostic.timestamp report = timestamp /\
  map ServerResult.name servers
  = ["Notion MCP (PARA)"; "Fastmail MCP (Email)"; "Google Calendar MCP"] /\
  Summary.total s = 3%nat /\
  (Summary.connected s + Summary.disconnected s + Summary.errors s = 3)%nat /\
  Forall (coherent retrieval) servers /\
  Summary.errors s
  = (if is_set env "FASTMAIL_API_KEY" && retrieval
        && malformed_fastmail_key env then 1 else 0)%nat /\
  Diagnostic.overallStatus report
  = (if Nat.eqb (Summary.connected s) 3 then "healthy"
     else if Nat.eqb (Summary.connected s) 0 then "unhealthy"
     else "degraded") /\
  (Diagnostic.overallStatus report = "healthy"
   <-> notion && is_set env "FASTMAIL_API_KEY" && google
       && negb (retrieval && malformed_fastmail_key env) = true).
Proof.
  intros report retrieval servers s notion google.
  subst report servers s notion google.
  unfold Mcp.runMCPDiagnostic. fold retrieval.
  destruct (testNotionMCP_result env retrieval notionTimes)
    as (Hn1 & Hs1 & Hc1).
  destruct (testFastmailMCP_result env retrieval fastmailTimes)
    as (Hn2 & Hs2 & Hc2).
  destruct (testCalendarMCP_result env retrieval calendarTimes)
    as (Hn3 & Hs3 & Hc3).
  cbn zeta in Hn1, Hs1, Hc1, Hn2, Hs2, Hc2, Hn3, Hs3, Hc3. cbn [app].
  set (r1 := Mcp.testNotionMCP env retrieval notionTimes) in *.
  set (r2 := Mcp.testFastmailMCP env retrieval fastmailTimes) in *.
  set (r3 := Mcp.testCalendarMCP env retrieval calendarTimes) in *.
  clearbody r1 r2 r3.
  destruct (store _ _ db) as [db' [stored|error]];
    cbn [snd Diagnostic.timestamp Diagnostic.mcpServers Diagnostic.summary
         Diagnostic.overallStatus Summary.total Summary.connected
         Summary.disconnected Summary.errors map length].
  all: rewrite Hn1, Hn2, Hn3, !count_three, Hs1, Hs2, Hs3.
  all: do 3 (split; [reflexivity|]).
  all: destruct (is_set env "NOTION_CLIENT_SECRET"
                 || is_set env "NOTION_ACCESS_TOKEN"),
                (is_set env "FASTMAIL_API_KEY"),
                (retrieval && malformed_fastmail_key env) eqn:Hbad,
                (is_set env "GOOGLE_CLIENT_ID"
                 && is_set env "GOOGLE_CLIENT_SECRET").
  all: cbn [negb andb].
  all: split; [reflexivity|].
  all: split;
    [repeat first [apply List.Forall_nil
                  | apply List.Forall_cons; [assumption|]]|].
  all: split;
    [ first [ reflexivity
            | by destruct retrieval, (malformed_fastmail_key env) ] |].
  all: split; [reflexivity|].
  all: vm_compute; split; congruence.
Qed.

(** X22. Storing the report.  What [runMCPDiagnostic] returns does not
    depend on the mutation that stores it.  When the store fails, the
    diagnostic still returns its report and the error is printed; with
    [storeDiagnosticResult] one document is appended, holding the user and
    the four parts of the report, and [getRecentDiagnostics] for that user
    then returns it first, followed by the earlier ones, most recent first:
    ten documents at most when no limit is given, and none at all when the
    limit is 0 (the default applies to an omitted limit only). *)
Theorem runMCPDiagnostic_store env timestamp notionTimes fastmailTimes
    calendarTimes userId testDataRetrieval db :
  let diagnose store :=
    Mcp.runMCPDiagnostic store env timestamp notionTimes fastmailTimes
                         calendarTimes userId testDataRetrieval db in
  let report := snd (diagnose Mcp.storeDiagnosticResult) in
  let doc := DiagnosticDoc.mk (Mcp.next_id db) userId
               (Diagnostic.timestamp report) (Diagnostic.overallStatus report)
               (Diagnostic.mcpServers report) (Diagnostic.summary report) in
  (forall store, snd (diagnose store) = report) /\
  (forall error,
      let failing := fun (_ : Id) (_ : Diagnostic.t) (db : Mcp.Db) =>
                       (db, @Throw (bool * Id) error) in
      Mcp.mcpDiagnostics (fst (diagnose failing)) = Mcp.mcpDiagnostics db /\
      Mcp.console (fst (diagnose failing)) = Mcp.console db ++ [error]) /\
  Mcp.mcpDiagnostics (fst (diagnose Mcp.storeDiagnosticResult))
  = Mcp.mcpDiagnostics db ++ [doc] /\
  Mcp.console (fst (diagnose Mcp.storeDiagnosticResult)) = Mcp.console db /\
  Mcp.getRecentDiagnostics userId None (fst (diagnose Mcp.storeDiagnosticResult))
  = doc :: take 9 (Mcp.getRecentDiagnostics userId None db) /\
  Mcp.getRecentDiagnostics userId (Some 0%nat)
    (fst (diagnose Mcp.storeDiagnosticResult)) = [].
Proof.
  intros diagnose report doc. subst diagnose report doc. cbv beta.
  split; [|split; [|split; [|split; [|split]]]].
  - intros store. unfold Mcp.runMCPDiagnostic.
    by destruct (store _ _ db) as [db' [stored|error]].
  - intros error failing. split; reflexivity.
  - reflexivity.
  - reflexivity.
  - unfold Mcp.getRecentDiagnostics. cbn [default].
    match goal with
    | |- context [Mcp.mcpDiagnostics (fst ?r)] =>
      change (Mcp.mcpDiagnostics (fst r))
        with (Mcp.mcpDiagnostics db ++ [DiagnosticDoc.mk (Mcp.next_id db) userId
               (Diagnostic.timestamp (snd r)) (Diagnostic.overallStatus (snd r))
               (Diagnostic.mcpServers (snd r)) (Diagnostic.summary (snd r))])
    end.
    rewrite filter_app, filter_cons_True by reflexivity.
    rewrite filter_nil, reverse_snoc. cbn [take]. f_equal.
    rewrite take_take. reflexivity.
  - reflexivity.
Qed.

(** ** src/shared/config.ts, class [ZAIClient] *)

Module ZAIClient.

(** The argument of [chat]. *)
Record Params := mkParams {
  messages : list (string * string);
  model : option string;
  temperature : option Q;
  max_tokens : option Z
}.

(** The object that [chat] serialises as the body of its request. *)
Record Body := mkBody {
  body_model : string;
  body_messages : list (string * string);
  body_temperature : Q;
  body_max_tokens : Z
}.

Definition body (params : Params) : Body :=
  mkBody (default "gpt-4o-mini" (or_string (model params) None))
         (messages params)
         (or_number (temperature params) 0.7%Q)
         (match max_tokens params with
          | Some n => if Z.eqb n 0 then 1000 else n
          | None => 1000
          end).

(** [new ZAIClient(apiKey, baseURL).chat(params)]; the result is the
    [content] of the returned object. *)
Definition chat (baseURL : string) (params : Params) : M string :=
  let* resp := fetch (baseURL +:+ "/chat/completions") (messages params) in
  let '(ok, status, text, data) := resp in
  if negb ok
  then throw (Some (new_Error ("Z.AI API error: " +:+ Number_toString status
                               +:+ " - " +:+ text)))
  else
    match data with
    | inl e => throw (Some e)
    | inr c => ret (default "" (or_string c None))
    end.

(** The default of the constructor's [baseURL]. *)
Definition baseURL : string := "https://api.z.ai/v1".

End ZAIClient.

Lemma ZAIClient_chat_run baseURL params w :
  ZAIClient.chat baseURL params w
  = (set_fetches S
       (log (EvFetch (baseURL +:+ "/chat/completions")
                     (ZAIClient.messages params)) w),
     match network w (fetches w) with
     | Rejected e => Throw (Some e)
     | Resolved ok status text data =>
       if negb ok
       then Throw (Some (new_Error ("Z.AI API error: "
                                    +:+ Number_toString status
                                    +:+ " - " +:+ text)))
       else match data with
            | inl e => Throw (Some e)
            | inr c => Ok (default "" (or_string c None))
            end
     end).
Proof.
  unfold ZAIClient.chat, fetch. rewrite bind_run.
  destruct (network w (fetches w)) as [e|ok status text data]; [reflexivity|].
  cbv beta iota. destruct ok; cbn [negb]; [|reflexivity].
  by destruct data.
Qed.

Section ClientAndManager.

Variable JSON_stringify : forall A : Type, A -> string.

(** X23. The client of config.ts and [generateResponse] of the manager make
    the same call.  Given the message list that [generateResponse] builds,
    [ZAIClient.chat] with the default base URL sends it to the same
    endpoint; in a world with an API key both end alike: with the same
    error when the request is rejected, answered with a status that is not
    ok or with a body that cannot be read, and with the same content when
    the answer has a non-empty one.  They differ when the content is
    missing or empty, where the client returns the empty string and
    [generateResponse] its apology.  The client asks for the model
    "gpt-4o-mini", temperature 0.7 and 1000 tokens when these parameters
    are omitted, and also when they are given as "", 0 and 0. *)
Theorem ZAIClient_chat_agrees userMessage history memories0 paraContext
    model temperature max_tokens w :
  or_string (or_string (ZAI_API_KEY w) (Z_AI_API_KEY w)) None <> None ->
  let sent :=
    ("system", systemPrompt JSON_stringify memories0 paraContext)
    :: slice_last 10 history ++ [("user", userMessage)] in
  let params := ZAIClient.mkParams sent model temperature max_tokens in
  let manager := generateResponse JSON_stringify userMessage history memories0
                                  paraContext w in
  let client := ZAIClient.chat ZAIClient.baseURL params w in
  trace (fst client)
  = trace w ++ [EvFetch "https://api.z.ai/v1/chat/completions" sent] /\
  trace (fst manager)
  = trace w ++ [EvCall "generateResponse";
                EvFetch "https://api.z.ai/v1/chat/completions" sent] /\
  match snd manager with
  | Throw e => snd client = Throw e
  | Ok c =>
    snd client = Ok c \/
    (c = apology /\ snd client = Ok "" /\
     exists status text body,
       network w (fetches w) = Resolved true status text (inr body) /\
       (body = None \/ body = Some ""))
  end /\
  (model = None \/ model = Some "" ->
   ZAIClient.body_model (ZAIClient.body params) = "gpt-4o-mini") /\
  (temperature = None \/ temperature = Some 0%Q ->
   ZAIClient.body_temperature (ZAIClient.body params) = 0.7%Q) /\
  (max_tokens = None \/ max_tokens = Some 0 ->
   ZAIClient.body_max_tokens (ZAIClient.body params) = 1000) /\
  ZAIClient.body_messages (ZAIClient.body params) = sent.
Proof.
  intros Hkey sent params manager client. subst manager client.
  rewrite generateResponse_run. unfold attempt_outcome.
  destruct (or_string (or_string _ _) None) as [key|]; [clear Hkey|done].
  rewrite ZAIClient_chat_run. cbn [ZAIClient.messages params fst snd].
  split; [reflexivity|]. split.
  { cbn [trace log set_trace set_fetches]. by rewrite <- app_assoc. }
  split.
  - destruct (network w (fetches w)) as [e|ok status text data] eqn:Hnet;
      [reflexivity|].
    destruct ok; cbn [negb]; [|reflexivity].
    destruct data as [e|body]; [reflexivity|].
    destruct body as [c|]; cbn [or_string template default].
    + destruct (String.eqb c "") eqn:Hc.
      * apply String.eqb_eq in Hc as ->. right.
        split; [reflexivity|]. split; [reflexivity|].
        eexists _, _, _. split; [reflexivity|]. by right.
      * left. reflexivity.
    + right. split; [reflexivity|]. split; [reflexivity|].
      eexists _, _, _. split; [reflexivity|]. by left.
  - unfold ZAIClient.body. cbn.
    split; [by intros [-> | ->]|].
    split; [by intros [-> | ->]|].
    split; [by intros [-> | ->]|]. reflexivity.
Qed.

End ClientAndManager.

Lemma ZAIClient_chat_agrees_witness :
  or_string (or_string (ZAI_API_KEY sample_world_up)
                       (Z_AI_API_KEY sample_world_up)) None <> None /\
  snd (ZAIClient.chat ZAIClient.baseURL
         (ZAIClient.mkParams
            (("system", systemPrompt sample_stringify [] JNull)
             :: slice_last 10 [] ++ [("user", "Hello")])
            None (Some 0%Q) None)
         sample_world_up)
  = Ok "Good morning!".
Proof.
  assert (H : or_string (or_string (ZAI_API_KEY sample_world_up)
                                   (Z_AI_API_KEY sample_world_up)) None
              <> None) by discriminate.
  split; [exact H|].
  destruct (proj1 (proj2 (proj2
              (ZAIClient_chat_agrees sample_stringify "Hello" [] [] JNull
                 None (Some 0%Q) None sample_world_up H))))
    as [Hsame | (Habsurd & _)].
  - exact Hsame.
  - discriminate Habsurd.
Defined.

(** ** The time and the requests of a turn *)

Section TurnTiming.

Variable toLowerCase : string -> string.
Variable JSON_stringify : forall A : Type, A -> string.
Variable gather : string -> Id -> M JsValue.

(** X24. The requests and the time of a turn.  A turn reaches the backend
    when the user has no stored memory and the utterance holds no
    code-change keyword; any other turn sends no request.  A turn that
    reaches the backend sends one request per attempt, three at most, and
    spends in backoff 0 ms when the first attempt is answered, 2000 ms when
    the second is, and 6000 ms otherwise, whether the third attempt is
    answered or the turn fails.  Without an API key it sends no request at
    all, and still waits the 6000 ms before it fails.  When no call takes a
    negative time, the turn ends no earlier than the time of its user
    message plus that wait. *)
Theorem chat_waits message userId conversationId w :
  let out := chat toLowerCase JSON_stringify gather
                  message userId conversationId w in
  let generating :=
    negb (has_memory userId w)
    && negb (existsb (fun keyword => includes (toLowerCase message) keyword)
                     codeChangeKeywords) in
  fetches (fst out)
  = (fetches w + (if generating then generation_requests w else 0))%nat /\
  (time_flows w ->
   turn_started conversationId w
   + (if generating then generation_wait w else 0) <= clock (fst out)) /\
  (generation_wait w = 0 \/ generation_wait w = 2000
   \/ generation_wait w = 6000) /\
  (generation_requests w <= 3)%nat /\
  (or_string (or_string (ZAI_API_KEY w) (Z_AI_API_KEY w)) None = None ->
   generation_requests w = 0%nat /\ generation_wait w = 6000).
Proof.
  intros out generating. subst out generating.
  assert (Hfacts :
    (generation_wait w = 0 \/ generation_wait w = 2000
     \/ generation_wait w = 6000) /\
    (generation_requests w <= 3)%nat /\
    (or_string (or_string (ZAI_API_KEY w) (Z_AI_API_KEY w)) None = None ->
     generation_requests w = 0%nat /\ generation_wait w = 6000)).
  { unfold generation_wait, generation_requests.
    destruct (or_string (or_string _ _) None) as [key|] eqn:Hkey.
    - destruct (attempt_outcome w (fetches w)),
               (attempt_outcome w (S (fetches w)));
        (split; [auto|]; split; [lia|discriminate]).
    - unfold attempt_outcome. rewrite Hkey.
      split; [auto|]. split; [lia|]. intros _. split; reflexivity. }
  split; [|split; [|exact Hfacts]]; clear Hfacts.
  all: pose proof (chat_run toLowerCase JSON_stringify gather
                     message userId conversationId w) as H; cbv zeta in H.
  all: destruct (has_memory userId w); cbn [negb andb];
       [destruct H as (_ & _ & _ & _ & _ & Hfetch & Hclock)|].
  all: try destruct (existsb _ codeChangeKeywords); cbn [negb andb];
       try destruct H as (_ & _ & _ & _ & _ & Hfetch & Hclock).
  all: try (rewrite Hfetch; lia).
  all: try (intros Hflow; specialize (Hclock Hflow); lia).
  all: destruct (generation_outcome w) as [c|e];
       [destruct H as (t_reply & t_end & added & Htime & _ & _ & _ & _ & _
                       & Hfetch & Hclock)
       |destruct H as (_ & _ & _ & _ & _ & Hfetch & Hclock)].
  all: try exact Hfetch.
  - intros Hflow. destruct (Htime Hflow) as (H1 & H2 & _). lia.
  - exact Hclock.
Qed.

End TurnTiming.

(** With the first two requests rejected, a turn sends three requests and
    takes at least the two waits. *)
Lemma chat_waits_witness :
  time_flows sample_world /\
  fetches (fst (chat ascii_toLowerCase sample_stringify sample_gather
                     "Hello" 1%N None sample_world)) = 3%nat /\
  1011 + 6000
  <= clock (fst (chat ascii_toLowerCase sample_stringify sample_gather
                      "Hello" 1%N None sample_world)).
Proof.
  assert (Hflow : time_flows sample_world)
    by (intros n; cbn; unfold sample_elapse; lia).
  split; [exact Hflow|].
  pose proof (chat_waits ascii_toLowerCase sample_stringify sample_gather
                "Hello" 1%N None sample_world) as H.
  cbv zeta in H. destruct H as (Hfetch & Hclock & _).
  split; [exact Hfetch | exact (Hclock Hflow)].
Defined.

(** ** The context provider and the short circuit *)

Section TurnShape.

Variable toLowerCase : string -> string.
Variable JSON_stringify : forall A : Type, A -> string.
Variable gather : string -> Id -> M JsValue.

(** X25. No turn calls the context provider.  [chat] decides step 5 on
    [intent.requiresPARAContext], which reads [undefined] on every object
    that [analyzeIntent] returns, also when the classifier has set its flag
    [requiresPARA].  So a turn is the same whatever the provider would
    answer: world and result of [chat] do not depend on [gather], and no
    event of any turn is a call of "context/para/gather". *)
Theorem chat_ignores_provider gather' message userId conversationId w :
  (forall history memories,
      get "requiresPARAContext"
          (analyzeIntent toLowerCase message history memories) = JUndefined) /\
  chat toLowerCase JSON_stringify gather message userId conversationId w
  = chat toLowerCase JSON_stringify gather' message userId conversationId w /\
  exists evs,
    trace (fst (chat toLowerCase JSON_stringify gather
                     message userId conversationId w))
    = trace w ++ evs /\
    Forall not_gather evs.
Proof.
  split; [intros; apply intent_requiresPARAContext_undefined|]. split.
  - unfold chat. destruct conversationId as [conversationId|].
    (* the same steps on either side of the equation *)
    1: do 2 (step @ret_run; step messages_store_run;
             step messages_listByConversation_run;
             rewrite bind_run, runQuery_searchByUser_run; symmetry).
    2: do 2 (rewrite bind_run, bind_run, Date_now_run; cbv beta iota;
             rewrite conversations_create_run; cbv beta iota;
             step messages_store_run;
             step messages_listByConversation_run;
             rewrite bind_run, runQuery_searchByUser_run; symmetry).
    all: destruct (has_memory userId _); [reflexivity|].
    all: do 2 (cbv beta iota; step emit_run; rewrite bind_run;
               rewrite ?intent_requiresPARAContext_undefined;
               cbn [truthy]; rewrite ret_run; cbv beta iota; symmetry).
    all: reflexivity.
  - set (out := chat toLowerCase JSON_stringify gather
                     message userId conversationId w).
    assert (E : chat toLowerCase JSON_stringify gather
                     message userId conversationId w = out) by reflexivity.
    clearbody out. revert E.
    assert (Hrest : forall (K : M ChatResult) W pre,
      appends not_gather K -> Forall not_gather pre ->
      trace W = trace w ++ pre -> K W = out ->
      exists evs, trace (fst out) = trace w ++ evs /\ Forall not_gather evs).
    { intros K W pre HK Hpre HW <-.
      destruct (HK W) as (evs & Ht & Hevs). exists (pre ++ evs).
      split; [by rewrite Ht, HW, app_assoc | by apply Forall_app]. }
    turn_prelude conversationId w.
    all: destruct (has_memory userId w).
    1,3: intros <-; project; eexists;
         (split; [by rewrite <- !app_assoc|]);
         repeat constructor; discriminate.
    all: turn_analysis.
    all: match goal with
         | |- ?K ?W = _ -> _ =>
           intros E;
           first
             [ eapply (Hrest K W
                 [EvRunMutation "messages/store";
                  EvRunQuery "messages/listByConversation";
                  EvRunQuery "memories/searchByUser";
                  EvCall "analyzeIntent";
                  EvCall "detectCodeChangeRequest"]);
               [ | | project; by rewrite <- !app_assoc | exact E]
             | eapply (Hrest K W
                 [EvRunMutation "conversations/create";
                  EvRunMutation "messages/store";
                  EvRunQuery "messages/listByConversation";
                  EvRunQuery "memories/searchByUser";
                  EvCall "analyzeIntent";
                  EvCall "detectCodeChangeRequest"]);
               [ | | project; by rewrite <- !app_assoc | exact E] ]
         end.
    all: try (repeat constructor; discriminate).
    all: apply appends_if; auto 20 using appends_generateResponse with appends.
Qed.

(** X26. The short circuit.  In a turn of a user without stored memory
    whose lower-cased utterance contains a code-change keyword, the
    detector answers [detected = true] whatever the history; exactly one
    code-change request, holding the utterance verbatim, is appended to its
    table; the events of the turn contain no call of the model backend, no
    memory extraction and exactly one "codeChangeRequests/create"; no
    request is sent and the memories are as they were; and the turn returns
    a result whose type is "code_change_request". *)
Theorem code_change_turn_short_circuits message userId conversationId w :
  has_memory userId w = false ->
  (exists keyword, In keyword codeChangeKeywords /\
                   includes (toLowerCase message) keyword = true) ->
  let out := chat toLowerCase JSON_stringify gather
                  message userId conversationId w in
  (forall history,
      detected (detectCodeChangeRequest toLowerCase message history) = true) /\
  (exists doc, codeChangeRequests (fst out) = codeChangeRequests w ++ [doc] /\
               CodeChangeRequest.userId doc = userId /\
               CodeChangeRequest.request doc = Some message /\
               CodeChangeRequest.status doc = "pending") /\
  (exists evs, trace (fst out) = trace w ++ evs /\
               existsb is_backend_call evs = false /\
               existsb is_memory_extraction evs = false /\
               length (List.filter is_code_change_create evs) = 1%nat) /\
  fetches (fst out) = fetches w /\
  memories (fst out) = memories w /\
  (exists r, snd out = Ok r /\ result_type r = "code_change_request").
Proof.
  intros Hnone (keyword & Hin & Hkw).
  assert (Hdet : forall history,
    detected (detectCodeChangeRequest toLowerCase message history) = true).
  { intros history. rewrite detected_existsb.
    apply existsb_exists. eauto. }
  intros out. split; [exact Hdet|].
  assert (E : chat toLowerCase JSON_stringify gather
                   message userId conversationId w = out) by reflexivity.
  clearbody out. revert E. turn_prelude conversationId w.
  all: rewrite Hnone; turn_analysis.
  all: rewrite Hdet, detected_request by apply Hdet.
  all: step codeChangeRequests_create_run; rewrite ret_run.
  all: intros <-; project.
  all: repeat split; try (eexists; split; [reflexivity|done]).
  all: eexists; split; [by rewrite <- !app_assoc|done].
Qed.

(** X27. A user with a stored memory gets no turn through.  Every turn of
    such a user throws the TypeError of [ctx.db.patch] in the retrieval of
    step 3, whatever the utterance: after the conversation was created
    (when none was given), the user message stored and the history read,
    and before the classifier, the detector and the backend are called (the
    events of the turn end with "memories/searchByUser").  The turn adds
    the user message and nothing else: no memory, no code-change request,
    no request to the backend.  The memory is still there afterwards, so
    every later turn of the user, in any conversation, throws in the same
    way. *)
Theorem chat_dies_in_retrieval message userId conversationId w :
  has_memory userId w = true ->
  let out := chat toLowerCase JSON_stringify gather
                  message userId conversationId w in
  snd out = Throw (Some (mkError "TypeError" "ctx.db.patch is not a function")) /\
  trace (fst out)
  = trace w
    ++ match conversationId with
       | Some _ => []
       | None => [EvRunMutation "conversations/create"]
       end
    ++ [EvRunMutation "messages/store";
        EvRunQuery "messages/listByConversation";
        EvRunQuery "memories/searchByUser"] /\
  (exists doc, messages (fst out) = messages w ++ [doc] /\
               Message.role doc = "user" /\ Message.content doc = message) /\
  memories (fst out) = memories w /\
  codeChangeRequests (fst out) = codeChangeRequests w /\
  fetches (fst out) = fetches w /\
  (forall message' conversationId',
      snd (chat toLowerCase JSON_stringify gather
                message' userId conversationId' (fst out))
      = Throw (Some (mkError "TypeError" "ctx.db.patch is not a function"))).
Proof.
  intros Hsome out.
  assert (Hthrows : forall W message' conversationId',
    memories W = memories w ->
    snd (chat toLowerCase JSON_stringify gather
              message' userId conversationId' W)
    = Throw (Some Memories.patch_error)).
  { intros W message' conversationId' HW.
    pose proof (chat_run toLowerCase JSON_stringify gather
                  message' userId conversationId' W) as H.
    cbv zeta in H. rewrite (has_memory_ext userId W w HW), Hsome in H.
    exact (proj1 H). }
  assert (E : chat toLowerCase JSON_stringify gather
                   message userId conversationId w = out) by reflexivity.
  clearbody out. revert E. turn_prelude conversationId w.
  all: rewrite Hsome; intros <-; project.
  all: split; [reflexivity|].
  all: split; [by rewrite <- !app_assoc|].
  all: split; [eexists; split; [reflexivity|done]|].
  all: do 3 (split; [reflexivity|]).
  all: intros message' conversationId'; by apply Hthrows.
Qed.

End TurnShape.

Lemma code_change_turn_short_circuits_witness :
  has_memory 1%N sample_world = false /\
  (exists keyword, In keyword codeChangeKeywords /\
     includes (ascii_toLowerCase
                 "Can you add a feature that sends me daily summaries?")
              keyword = true) /\
  (exists r,
     snd (chat ascii_toLowerCase sample_stringify sample_gather
            "Can you add a feature that sends me daily summaries?" 1%N None
            sample_world) = Ok r /\
     result_type r = "code_change_request").
Proof.
  assert (H : exists keyword, In keyword codeChangeKeywords /\
     includes (ascii_toLowerCase
                 "Can you add a feature that sends me daily summaries?")
              keyword = true).
  { exists "can you". split; [cbn; auto 10 | reflexivity]. }
  split; [reflexivity|]. split; [exact H|].
  exact (proj2 (proj2 (proj2 (proj2 (proj2
    (code_change_turn_short_circuits ascii_toLowerCase sample_stringify
       sample_gather _ 1%N None sample_world eq_refl H)))))).
Defined.

(** User 1 after their first turn: the next turn throws, whatever is said. *)
Lemma chat_dies_in_retrieval_witness :
  has_memory 1%N (fst sample_first_turn) = true /\
  snd (chat ascii_toLowerCase sample_stringify sample_gather
            "Good evening" 1%N (Some 100%N) (fst sample_first_turn))
  = Throw (Some (mkError "TypeError" "ctx.db.patch is not a function")).
Proof.
  split; [reflexivity|].
  exact (proj1 (chat_dies_in_retrieval ascii_toLowerCase sample_stringify
                  sample_gather "Good evening" 1%N (Some 100%N)
                  (fst sample_first_turn) eq_refl)).
Defined.
